(** * Aaref salary board: the admission pipeline of [src/App.jsx]

    A shallow embedding of the validation layers of the application
    (device rate limiting, statistical outlier detection, friction-field
    bonus, community flags, admin review queue) and the properties of
    its specification that concern them.

    Conventions of the embedding.
    - A JavaScript number that the code holds as an integer (a salary,
      a trust score, a time stamp, a length) is the integer itself
      ([Z]); the salary [parseInt] returns is the integer value of the
      nearest double, and the two infinities are held as [2 ^ 1024] and
      its opposite, which round to them.
    - Where the code adds salaries, divides, takes a square root or
      rounds, it computes in binary64, and so does the model, with the
      primitive floats of Rocq (round to nearest, ties to even); an
      integer enters such a computation through [Z2F], the nearest
      double.  [Math.pow(x, 2)] is the correctly rounded square and
      [Math.sqrt] the correctly rounded square root.
    - A JavaScript string is a [string] whose characters are code units
      below 256; [toLowerCase] maps [A-Z] and the capital letters of
      Latin-1 as [String.prototype.toLowerCase] does.
    - An object field that may be absent and is only tested for
      truthiness is a string that is empty when absent, or an [option].
    - The text of a flag's [detail] is display only and is not modelled.
    - [Date.now()] and the browser attributes are inputs ([Env.t]). *)

From Stdlib Require Import ZArith QArith List String Ascii Bool Lia.
From Stdlib Require Import Permutation Sorted.
From Stdlib Require Import Floats.
Import ListNotations.

#[local] Open Scope string_scope.
#[local] Open Scope list_scope.
#[local] Open Scope Z_scope.

(* ================================================================== *)
(** ** JavaScript primitives *)
(* ================================================================== *)

(** [Boolean(s)] for a string: only the empty string is falsy. *)
Definition truthy (s : string) : bool := negb (s =? EmptyString)%string.

(** An optional field that is absent, or an input left empty. *)
Definition absent : string := EmptyString.

(** The lower-case form of a code unit below 256: [A-Z] and the
    capitals from 192 to 222, the multiplication sign 215 apart, have
    theirs 32 places further. *)
Definition lowerChar (c : ascii) : ascii :=
  let n := nat_of_ascii c in
  if ((65 <=? n)%nat && (n <=? 90)%nat)
     || ((192 <=? n)%nat && (n <=? 222)%nat && negb (n =? 215)%nat)
  then ascii_of_nat (n + 32) else c.

(** [s.toLowerCase()]. *)
Fixpoint toLowerCase (s : string) : string :=
  match s with
  | EmptyString => EmptyString
  | String c r => String (lowerChar c) (toLowerCase r)
  end.

(** [q > p] and [q < p] on rationals, for the tests of the experience
    band, whose operands double precision holds exactly. *)
Definition Qgtb (q p : Q) : bool := negb (Qle_bool q p).
Definition Qltb (q p : Q) : bool := negb (Qle_bool p q).

(** *** Numbers in binary64 *)

(** The double nearest to an integer, ties to even; an infinity from
    [2 ^ 1024 - 2 ^ 970] on. *)
Definition Z2F (z : Z) : float := SF2Prim (binary_normalize prec emax z 0 false).

(** The integer an integer-valued double holds; [2 ^ 1024] and its
    opposite for the infinities. *)
Definition F2Z (x : float) : Z :=
  match Prim2SF x with
  | S754_finite s m e =>
      let v := if 0 <=? e then Z.pos m * 2 ^ e else Z.pos m / 2 ^ (- e) in
      if s then - v else v
  | S754_infinity s => if s then - 2 ^ 1024 else 2 ^ 1024
  | _ => 0
  end.

(** An integer as the number JavaScript makes of it. *)
Definition toDouble (z : Z) : Z := F2Z (Z2F z).

(** [!x] for a number: zero, minus zero and [NaN] are falsy. *)
Definition falsy (x : float) : bool := (x =? 0)%float || is_nan x.

(** [Math.round]: the nearest integer, ties towards plus infinity; a
    zero result has the sign of the argument; [NaN], the infinities and
    the integers are returned as they are. *)
Definition Math_round (x : float) : float :=
  match Prim2SF x with
  | S754_finite s m e =>
      if 0 <=? e then x
      else
        let q := if s then Z.neg m else Z.pos m in
        let n := (2 * q + 2 ^ (- e)) / 2 ^ (- e + 1) in
        if n =? 0 then (if s then neg_zero else zero) else Z2F n
  | _ => x
  end.

(** [x | 0]: wrap to a signed 32-bit integer. *)
Definition toInt32 (z : Z) : Z :=
  let m := z mod 2 ^ 32 in
  if 2 ^ 31 <=? m then m - 2 ^ 32 else m.

Definition digit36 (d : Z) : ascii :=
  if d <? 10 then ascii_of_nat (48 + Z.to_nat d)
  else ascii_of_nat (87 + Z.to_nat d).

Fixpoint toString36_aux (fuel : nat) (n : Z) (acc : string) : string :=
  match fuel with
  | O => acc
  | S fuel' =>
      let acc' := String (digit36 (n mod 36)) acc in
      if n / 36 =? 0 then acc' else toString36_aux fuel' (n / 36) acc'
  end.

(** [n.toString(36)] for [0 <= n <= 2^31]; seven digits suffice. *)
Definition toString36 (n : Z) : string := toString36_aux 7 n EmptyString.

(** *** [parseInt] with no radix argument *)

Definition isWhite (c : ascii) : bool :=
  let n := nat_of_ascii c in
  (n =? 32)%nat || ((9 <=? n)%nat && (n <=? 13)%nat).

Fixpoint skipWhite (s : string) : string :=
  match s with
  | String c r => if isWhite c then skipWhite r else s
  | EmptyString => s
  end.

Definition digitValue (c : ascii) : option Z :=
  let n := nat_of_ascii c in
  if (48 <=? n)%nat && (n <=? 57)%nat then Some (Z.of_nat n - 48)
  else if (97 <=? n)%nat && (n <=? 122)%nat then Some (Z.of_nat n - 87)
  else if (65 <=? n)%nat && (n <=? 90)%nat then Some (Z.of_nat n - 55)
  else None.

(** The longest prefix of radix-[r] digits, accumulated from [acc];
    [seen] tells whether a digit was consumed. *)
Fixpoint parseDigits (r : Z) (s : string) (seen : bool) (acc : Z) : option Z :=
  match s with
  | EmptyString => if seen then Some acc else None
  | String c rest =>
      match digitValue c with
      | Some d =>
          if d <? r then parseDigits r rest true (acc * r + d)
          else if seen then Some acc else None
      | None => if seen then Some acc else None
      end
  end.

Definition parseUnsigned (s : string) : option Z :=
  match s with
  | String "0" (String "x" rest) => parseDigits 16 rest false 0
  | String "0" (String "X" rest) => parseDigits 16 rest false 0
  | _ => parseDigits 10 s false 0
  end.

(** The integer the text denotes, before it is made a number. *)
Definition parseInteger (s : string) : option Z :=
  match skipWhite s with
  | String "-" rest => option_map Z.opp (parseUnsigned rest)
  | String "+" rest => parseUnsigned rest
  | t => parseUnsigned t
  end.

(** [None] is [NaN]. *)
Definition parseInt (s : string) : option Z :=
  option_map toDouble (parseInteger s).

(* ================================================================== *)
(** ** Data model *)
(* ================================================================== *)

Inductive Status := auto_approved | needs_review | flagged | rejected.

Definition Status_eqb (a b : Status) : bool :=
  match a, b with
  | auto_approved, auto_approved | needs_review, needs_review
  | flagged, flagged | rejected, rejected => true
  | _, _ => false
  end.

(** [s.status === "..."] on a field that may be absent. *)
Definition status_is (st : option Status) (x : Status) : bool :=
  match st with Some y => Status_eqb y x | None => false end.

Inductive FlagType :=
  extreme_outlier | outlier | low_for_exp | high_for_exp
| company_mismatch | duplicate.

Inductive Severity := medium | high.

Module Flag.
Record t := mk { type : FlagType; severity : Severity }.
End Flag.

(** The state of the submission form ([useState] in [SubmitPage]). *)
Module Form.
Record t := mk {
    title : string; company : string; industry : string; city : string;
    experience : string; salary : string; bonus : string;
    salaryType : string; contractType : string; recentRaise : string;
    companySize : string }.
End Form.

(** An element of [salaries]. *)
Module Entry.
Record t := mk {
    id : Z; title : string; company : string; industry : string;
    city : string; experience : string; salary : Z; submitted : string;
    verified : bool; trustScore : Z; status : option Status;
    flags : list Flag.t; flagCount : Z; deviceHash : option string;
    bonus : string; salaryType : string; contractType : string;
    recentRaise : string; companySize : string }.
End Entry.

(** [{ ...form, salary: sal }], the first argument of [detectOutliers]. *)
Module Candidate.
Record t := mk { form : Form.t; salary : Z }.
Definition title (e : t) := Form.title (form e).
Definition company (e : t) := Form.company (form e).
Definition industry (e : t) := Form.industry (form e).
Definition experience (e : t) := Form.experience (form e).
End Candidate.

(** The object returned by [detectOutliers]. *)
Module Analysis.
Record t := mk { flags : list Flag.t; trustScore : Z; status : Status }.
End Analysis.

(* ================================================================== *)
(** ** Layer 2: statistical outlier detection *)
(* ================================================================== *)

(** [l.reduce((a, s) => a + s.salary, 0)]. *)
Definition sumSalary (l : list Entry.t) : float :=
  fold_left (fun a s => a + Z2F (Entry.salary s))%float l 0%float.

(** [l.length], as a number. *)
Definition lengthF (l : list Entry.t) : float := Z2F (Z.of_nat (List.length l)).

Definition mean (l : list Entry.t) : float := (sumSalary l / lengthF l)%float.

(** [l.reduce((a, s) => a + Math.pow(s.salary - mean, 2), 0)]. *)
Definition sumSquares (m : float) (l : list Entry.t) : float :=
  fold_left (fun a s => a + (Z2F (Entry.salary s) - m) * (Z2F (Entry.salary s) - m))%float
            l 0%float.

Definition variance (l : list Entry.t) : float :=
  (sumSquares (mean l) l / lengthF l)%float.

(** [Math.sqrt(variance) || 1]: the right operand is taken exactly when
    the square root is falsy. *)
Definition stdDev (l : list Entry.t) : float :=
  let s := PrimFloat.sqrt (variance l) in
  if falsy s then 1%float else s.

(** [Math.abs(sal - mean) / stdDev]. *)
Definition zScore (sal : Z) (l : list Entry.t) : float :=
  (abs (Z2F sal - mean l) / stdDev l)%float.

(** The table of the experience bands; [None] where the lookup of the
    source is undefined.  The experiences a form can hold are the six
    keys; the names every object inherits, of which the lookup is not
    undefined, are not among the strings considered. *)
Definition expMap (experience : string) : option (Z * Z) :=
  if (experience =? "0-1 years")%string then Some (5000, 25000)
  else if (experience =? "1-3 years")%string then Some (8000, 40000)
  else if (experience =? "3-5 years")%string then Some (12000, 60000)
  else if (experience =? "5-8 years")%string then Some (15000, 80000)
  else if (experience =? "8-12 years")%string then Some (20000, 100000)
  else if (experience =? "12+ years")%string then Some (25000, 150000)
  else None.

(** [Math.abs(sal - compMean) / compMean]. *)
Definition deviation (sal : Z) (compMean : float) : float :=
  (abs (Z2F sal - compMean) / compMean)%float.

Definition isDuplicate (entry : Candidate.t) (existingSalaries : list Entry.t) : bool :=
  existsb (fun s =>
    (toLowerCase (Entry.title s) =? toLowerCase (Candidate.title entry))%string &&
    (toLowerCase (Entry.company s) =? toLowerCase (Candidate.company entry))%string &&
    (Entry.salary s =? Candidate.salary entry)) existingSalaries.

(** The running pair [(flags, trustScore)] of [detectOutliers];
    [penalise] is [flags.push(...); trustScore -= p]. *)
Definition penalise (ty : FlagType) (sev : Severity) (p : Z)
    (acc : list Flag.t * Z) : list Flag.t * Z :=
  (fst acc ++ [Flag.mk ty sev], snd acc - p).

Definition statusOfScore (trustScore : Z) : Status :=
  if 70 <=? trustScore then auto_approved
  else if 40 <=? trustScore then needs_review
  else flagged.

(** The source also computes [sameIndustryExp]; nothing reads it. *)
Definition detectOutliers (entry : Candidate.t) (existingSalaries : list Entry.t)
  : Analysis.t :=
  let sal := Candidate.salary entry in
  let sameIndustry :=
    filter (fun s => (Entry.industry s =? Candidate.industry entry)%string)
           existingSalaries in
  let sameCompany :=
    filter (fun s => (toLowerCase (Entry.company s)
                      =? toLowerCase (Candidate.company entry))%string)
           existingSalaries in
  let acc := ([], 100) in
  (* Z-score against industry *)
  let acc :=
    if (3 <=? List.length sameIndustry)%nat then
      if (3 <? zScore sal sameIndustry)%float
      then penalise extreme_outlier high 40 acc
      else if (2.5 <? zScore sal sameIndustry)%float
      then penalise outlier medium 20 acc
      else acc
    else acc in
  (* Experience-salary coherence *)
  let '(expMin, expMax) :=
    match expMap (Candidate.experience entry) with
    | Some p => p
    | None => (0, 999999)
    end in
  let acc :=
    if Qltb (inject_Z sal) (inject_Z expMin * (1 # 2))
    then penalise low_for_exp medium 15 acc else acc in
  let acc :=
    if Qgtb (inject_Z sal) (inject_Z expMax * (3 # 2))
    then penalise high_for_exp high 30 acc else acc in
  (* Company consistency check *)
  let acc :=
    if (2 <=? List.length sameCompany)%nat then
      if (1 <? deviation sal (mean sameCompany))%float
      then penalise company_mismatch high 25 acc else acc
    else acc in
  (* Round number suspicion: scored, not flagged *)
  let acc :=
    if (10000 <=? sal) && (Z.rem sal 10000 =? 0) && (50000 <? sal)
    then (fst acc, snd acc - 5) else acc in
  (* Exact duplicate detection *)
  let acc :=
    if isDuplicate entry existingSalaries
    then penalise duplicate high 50 acc else acc in
  let trustScore := Z.max 0 (Z.min 100 (snd acc)) in
  Analysis.mk (fst acc) trustScore (statusOfScore trustScore).

(* ================================================================== *)
(** ** Layer 1: device fingerprint and rate limiting *)
(* ================================================================== *)

(** What a handler reads from the browser: [Date.now()], the ISO date
    and the locale time of [new Date()], and the joined fingerprint
    attributes ([raw] in [generate]). *)
Module Env.
Record t := mk { now : Z; today : string; timeString : string; raw : string }.
End Env.

(** The two mutations whose order the admission sequence fixes.  The
    [trace] field of [World] lists them in the order they are performed;
    it is an observation of the run, not a variable of the program. *)
Inductive Event :=
| RecordedSubmission (t : Z)
| Appended (e : Entry.t).

(** The mutable state: the [DeviceFingerprint] singleton and the
    [salaries] state of [App]. *)
Record World := mkWorld {
  _hash : option string;
  _submissions : list Z;
  salaries : list Entry.t;
  trace : list Event }.

Fixpoint hashLoop (raw : string) (hash : Z) : Z :=
  match raw with
  | EmptyString => hash
  | String c r =>
      hashLoop r (toInt32 ((toInt32 (hash * 32) - hash) + Z.of_nat (nat_of_ascii c)))
  end.

Definition generate (env : Env.t) (w : World) : World * string :=
  let compute :=
    let h := toString36 (Z.abs (hashLoop (Env.raw env) 0)) in
    (mkWorld (Some h) (_submissions w) (salaries w) (trace w), h) in
  match _hash w with
  | Some h => if truthy h then (w, h) else compute
  | None => compute
  end.

(** [l.filter(t => Date.now() - t < 3600000)]. *)
Definition recent (env : Env.t) (l : list Z) : list Z :=
  filter (fun t => Env.now env - t <? 3600000) l.

Definition recordSubmission (env : Env.t) (w : World) : World :=
  mkWorld (_hash w) (recent env (_submissions w ++ [Env.now env]))
          (salaries w) (trace w ++ [RecordedSubmission (Env.now env)]).

Definition getRecentCount (env : Env.t) (w : World) : World * nat :=
  let l := recent env (_submissions w) in
  (mkWorld (_hash w) l (salaries w) (trace w), List.length l).

Module RateCheck.
Record t := mk { blocked : bool; reason : option string; msg : option string }.
End RateCheck.

Definition checkRateLimit (env : Env.t) (w : World) : World * RateCheck.t :=
  let '(w, count) := getRecentCount env w in
  if (5 <=? count)%nat then
    (w, RateCheck.mk true (Some "rate_hard")
          (Some "Too many submissions. Try again in an hour."))
  else if (3 <=? count)%nat then
    (w, RateCheck.mk false (Some "rate_warn")
          (Some "Multiple submissions detected. Please only submit your own salary."))
  else (w, RateCheck.mk false None None).

(** [setSalaries(prev => [newEntry, ...prev])]. *)
Definition appendEntry (newEntry : Entry.t) (w : World) : World :=
  mkWorld (_hash w) (_submissions w) (newEntry :: salaries w)
          (trace w ++ [Appended newEntry]).

(* ================================================================== *)
(** ** Submit page: layers 1 to 3 and the comparison *)
(* ================================================================== *)

Module Comparison.
Record t := mk { avg : float; diff : float; count : nat; percentile : float }.
End Comparison.

(** [[...l].sort((a, b) => a.salary - b.salary)]: a stable sort; an
    entry is inserted in front of the entries of equal salary that
    followed it. *)
Fixpoint insertBySalary (x : Entry.t) (l : list Entry.t) : list Entry.t :=
  match l with
  | [] => [x]
  | y :: r =>
      if Entry.salary y <? Entry.salary x then y :: insertBySalary x r
      else x :: l
  end.

Fixpoint sortBySalary (l : list Entry.t) : list Entry.t :=
  match l with
  | [] => []
  | x :: r => insertBySalary x (sortBySalary r)
  end.

(** [l.length ? Math.round(sum / l.length) : sal]. *)
Definition avgOr (sal : float) (l : list Entry.t) : float :=
  if (List.length l =? 0)%nat then sal else Math_round (mean l).

(** [Math.round(((sal - avg) / avg) * 100)]. *)
Definition percentDiff (sal avg : float) : float :=
  Math_round ((sal - avg) / avg * 100)%float.

(** [l.length ? Math.round((below / l.length) * 100) : 50]. *)
Definition percentileOf (below : nat) (l : list Entry.t) : float :=
  if (List.length l =? 0)%nat then 50%float
  else Math_round (Z2F (Z.of_nat below) / lengthF l * 100)%float.

(** The entries the comparison is made against. *)
Definition similarTo (industry : string) (salaries : list Entry.t) : list Entry.t :=
  filter (fun s => (Entry.industry s =? industry)%string
                   && negb (status_is (Entry.status s) flagged)) salaries.

Definition computeComparison (form : Form.t) (sal : Z) (salaries : list Entry.t)
  : Comparison.t :=
  let similar := similarTo (Form.industry form) salaries in
  let avg := avgOr (Z2F sal) similar in
  let diff := percentDiff (Z2F sal) avg in
  let sortedSimilar := sortBySalary similar in
  let below := List.length (filter (fun s => Entry.salary s <=? sal) sortedSimilar) in
  let percentile := percentileOf below similar in
  Comparison.mk avg diff (List.length similar) percentile.

Definition optionalFieldsCompleted (form : Form.t) : nat :=
  List.length (filter truthy
    [Form.salaryType form; Form.contractType form;
     Form.recentRaise form; Form.companySize form]).

(** Layer 3 of [handleSubmit]: the two bonus statements and the
    re-assignment of [analysis.status]. *)
Definition applyFriction (count : nat) (analysis : Analysis.t) : Analysis.t :=
  let fl := Analysis.flags analysis in
  let st := Analysis.status analysis in
  let ts := Analysis.trustScore analysis in
  let ts := if (3 <=? count)%nat then Z.min 100 (ts + 10) else ts in
  let ts := if (2 <=? count)%nat then Z.min 100 (ts + 5) else ts in
  let st :=
    if 70 <=? ts then auto_approved
    else if 40 <=? ts then needs_review
    else st in
  Analysis.mk fl ts st.

Definition mkNewEntry (env : Env.t) (form : Form.t) (sal : Z)
    (analysis : Analysis.t) (deviceHash : string) : Entry.t :=
  Entry.mk (Env.now env) (Form.title form) (Form.company form)
    (Form.industry form) (Form.city form) (Form.experience form) sal
    (Env.today env) false (Analysis.trustScore analysis)
    (Some (Analysis.status analysis)) (Analysis.flags analysis) 0
    (Some deviceHash) (Form.bonus form) (Form.salaryType form)
    (Form.contractType form) (Form.recentRaise form) (Form.companySize form).

Inductive Outcome :=
| Invalid                       (* a bare [return] of the validation *)
| Blocked (msg : option string) (* [setRateError(rateCheck.msg)] *)
| Submitted (newEntry : Entry.t) (validationResult : Analysis.t)
           (comparison : Comparison.t).

(** [handleSubmit] of [SubmitPage].  The [salaries] it reads (for the
    analysis and for the comparison) are those of the state it starts
    from; the append goes through the updater of [setSalaries]. *)
Definition handleSubmit (env : Env.t) (form : Form.t) (w : World)
  : World * Outcome :=
  if negb (truthy (Form.title form)) || negb (truthy (Form.company form))
     || negb (truthy (Form.salary form)) then (w, Invalid)
  else
    match parseInt (Form.salary form) with
    | None => (w, Invalid)
    | Some sal =>
        if sal <=? 0 then (w, Invalid)
        else
          (* LAYER 1 *)
          let '(w1, rateCheck) := checkRateLimit env w in
          if RateCheck.blocked rateCheck then (w1, Blocked (RateCheck.msg rateCheck))
          else
            (* LAYER 2 *)
            let entry := Candidate.mk form sal in
            let analysis := detectOutliers entry (salaries w1) in
            (* LAYER 3 *)
            let analysis := applyFriction (optionalFieldsCompleted form) analysis in
            let w2 := recordSubmission env w1 in
            let '(w3, deviceHash) := generate env w2 in
            let newEntry := mkNewEntry env form sal analysis deviceHash in
            let w4 := appendEntry newEntry w3 in
            (w4, Submitted newEntry analysis (computeComparison form sal (salaries w1)))
    end.

(* ================================================================== *)
(** ** Layer 4: community flags *)
(* ================================================================== *)

Definition withFlagCount (n : Z) (s : Entry.t) : Entry.t :=
  Entry.mk (Entry.id s) (Entry.title s) (Entry.company s) (Entry.industry s)
    (Entry.city s) (Entry.experience s) (Entry.salary s) (Entry.submitted s)
    (Entry.verified s) (Entry.trustScore s) (Entry.status s) (Entry.flags s)
    n (Entry.deviceHash s) (Entry.bonus s) (Entry.salaryType s)
    (Entry.contractType s) (Entry.recentRaise s) (Entry.companySize s).

(** [handleFlag] of [App]: the updater given to [setSalaries]. *)
Definition handleFlag (id : Z) (prev : list Entry.t) : list Entry.t :=
  map (fun s => if Entry.id s =? id
                then withFlagCount (Entry.flagCount s + 1) s else s) prev.

(** [s.status === "auto_approved" || !s.status] in [SalaryRow]. *)
Definition isFlaggable (s : Entry.t) : bool :=
  status_is (Entry.status s) auto_approved
  || match Entry.status s with None => true | Some _ => false end.

(** A click on the flag button of the row of [s].  [showFlag] and
    [flaggedRow] are the row's local state, [onFlag] its optional
    property.  [None]: the button is not rendered, there is nothing to
    click.  Otherwise the new [flaggedRow] and the new [salaries]. *)
Definition SalaryRow_click (s : Entry.t) (showFlag flaggedRow : bool)
    (onFlag : option (Z -> list Entry.t -> list Entry.t))
    (salaries : list Entry.t) : option (bool * list Entry.t) :=
  if isFlaggable s && (showFlag || flaggedRow) then
    if negb flaggedRow then
      Some (true, match onFlag with
                  | Some f => f (Entry.id s) salaries
                  | None => salaries
                  end)
    else Some (flaggedRow, salaries)
  else None.

(* ================================================================== *)
(** ** Layer 5: admin review queue *)
(* ================================================================== *)

Definition queue (filter_ : string) (salaries : list Entry.t) : list Entry.t :=
  let flaggedList := filter (fun s => status_is (Entry.status s) flagged) salaries in
  let needsReview := filter (fun s => status_is (Entry.status s) needs_review) salaries in
  let communityFlagged :=
    filter (fun s => (0 <? Entry.flagCount s)
                     && status_is (Entry.status s) auto_approved) salaries in
  if (filter_ =? "flagged")%string then flaggedList
  else if (filter_ =? "needs_review")%string then needsReview
  else if (filter_ =? "community")%string then communityFlagged
  else flaggedList ++ needsReview ++ communityFlagged.

Definition approveEntry (s : Entry.t) : Entry.t :=
  Entry.mk (Entry.id s) (Entry.title s) (Entry.company s) (Entry.industry s)
    (Entry.city s) (Entry.experience s) (Entry.salary s) (Entry.submitted s)
    true (Z.max (Entry.trustScore s) 80) (Some auto_approved) (Entry.flags s)
    (Entry.flagCount s) (Entry.deviceHash s) (Entry.bonus s) (Entry.salaryType s)
    (Entry.contractType s) (Entry.recentRaise s) (Entry.companySize s).

Definition rejectEntry (s : Entry.t) : Entry.t :=
  Entry.mk (Entry.id s) (Entry.title s) (Entry.company s) (Entry.industry s)
    (Entry.city s) (Entry.experience s) (Entry.salary s) (Entry.submitted s)
    (Entry.verified s) (Entry.trustScore s) (Some rejected) (Entry.flags s)
    (Entry.flagCount s) (Entry.deviceHash s) (Entry.bonus s) (Entry.salaryType s)
    (Entry.contractType s) (Entry.recentRaise s) (Entry.companySize s).

(** The updater [handleAction] gives to [setSalaries]. *)
Definition moderate (id : Z) (action : string) (prev : list Entry.t)
  : list Entry.t :=
  map (fun s =>
         if negb (Entry.id s =? id) then s
         else if (action =? "approve")%string then approveEntry s
         else if (action =? "reject")%string then rejectEntry s
         else s) prev.

Module LogItem.
Record t := mk { id : Z; action : string; time : string }.
End LogItem.

(** [handleAction] of [AdminPage], on the pair of [salaries] and
    [actionLog]. *)
Definition handleAction (env : Env.t) (id : Z) (action : string)
    (st : list Entry.t * list LogItem.t) : list Entry.t * list LogItem.t :=
  (moderate id action (fst st),
   LogItem.mk id action (Env.timeString env) :: firstn 19 (snd st)).

(** The buttons [AdminPage] renders in the row of [s], each with the
    action its [onClick] passes to [handleAction]: "Approve" and
    "Reject" under the first guard, "Remove entry" under the second. *)
Definition rowButtons (s : Entry.t) : list string :=
  (if negb (status_is (Entry.status s) rejected)
      && negb (status_is (Entry.status s) auto_approved)
   then ["approve"; "reject"] else [])
  ++ (if status_is (Entry.status s) auto_approved && (0 <? Entry.flagCount s)
      then ["reject"] else []).

(** A click on the button for [action] in the [i]-th row of the queue.
    [None]: there is no such row or no such button in it. *)
Definition AdminPage_click (env : Env.t) (filter_ : string) (i : nat)
    (action : string) (st : list Entry.t * list LogItem.t)
  : option (list Entry.t * list LogItem.t) :=
  match nth_error (queue filter_ (fst st)) i with
  | Some s =>
      if existsb (String.eqb action) (rowButtons s)
      then Some (handleAction env (Entry.id s) action st)
      else None
  | None => None
  end.

(* ================================================================== *)
(** ** The seeded data *)
(* ================================================================== *)

Definition seed (id : Z) (title company industry city experience : string)
    (salary : Z) (submitted : string) (verified : bool) (trustScore : Z)
    (status : Status) (flags : list Flag.t) (flagCount : Z)
    (deviceHash : option string) (salaryType contractType recentRaise : string)
  : Entry.t :=
  Entry.mk id title company industry city experience salary submitted verified
    trustScore (Some status) flags flagCount deviceHash absent
    salaryType contractType recentRaise absent.

Definition INITIAL_SALARIES : list Entry.t :=
  [ seed 1 "Software Engineer" "Vodafone Egypt" "Telecom" "Cairo" "3-5 years" 25000 "2026-02-27" true 95 auto_approved [] 0 None absent absent absent;
    seed 2 "Senior Frontend Developer" "Instabug" "Technology" "Cairo" "5-8 years" 45000 "2026-02-26" true 92 auto_approved [] 0 None absent absent absent;
    seed 3 "Data Analyst" "CIB" "Banking & Finance" "Cairo" "1-3 years" 15000 "2026-02-26" false 88 auto_approved [] 0 None absent absent absent;
    seed 4 "Product Manager" "Swvl" "Technology" "Cairo" "5-8 years" 55000 "2026-02-25" true 78 auto_approved [] 0 None absent absent absent;
    seed 5 "DevOps Engineer" "Fawry" "Technology" "Cairo" "3-5 years" 30000 "2026-02-25" false 90 auto_approved [] 0 None absent absent absent;
    seed 6 "Marketing Manager" "Nestle Egypt" "FMCG" "Giza" "5-8 years" 35000 "2026-02-24" true 94 auto_approved [] 0 None absent absent absent;
    seed 7 "Financial Analyst" "EFG Hermes" "Banking & Finance" "Cairo" "3-5 years" 28000 "2026-02-24" true 91 auto_approved [] 0 None absent absent absent;
    seed 8 "Backend Developer" "Paymob" "Technology" "Cairo" "3-5 years" 32000 "2026-02-23" false 87 auto_approved [] 0 None absent absent absent;
    seed 9 "UX Designer" "Orange Egypt" "Telecom" "Cairo" "1-3 years" 18000 "2026-02-23" true 93 auto_approved [] 0 None absent absent absent;
    seed 10 "Pharmacist" "Eva Pharma" "Pharma" "Cairo" "1-3 years" 12000 "2026-02-22" false 85 auto_approved [] 0 None absent absent absent;
    seed 11 "Network Engineer" "Etisalat Egypt" "Telecom" "Alexandria" "5-8 years" 28000 "2026-02-22" true 90 auto_approved [] 0 None absent absent absent;
    seed 12 "QA Engineer" "Breadfast" "Technology" "Cairo" "1-3 years" 16000 "2026-02-21" false 86 auto_approved [] 0 None absent absent absent;
    seed 13 "iOS Developer" "Careem" "Technology" "Cairo" "5-8 years" 50000 "2026-02-21" true 88 auto_approved [] 0 None absent absent absent;
    seed 14 "HR Manager" "Telecom Egypt" "Telecom" "Cairo" "8-12 years" 38000 "2026-02-20" true 91 auto_approved [] 0 None absent absent absent;
    seed 15 "ML Engineer" "Valeo Egypt" "Technology" "Cairo" "3-5 years" 40000 "2026-02-20" true 89 auto_approved [] 0 None absent absent absent;
    seed 16 "Accountant" "KPMG Egypt" "Banking & Finance" "Cairo" "1-3 years" 14000 "2026-02-19" false 84 auto_approved [] 0 None absent absent absent;
    seed 17 "Sales Executive" "P&G Egypt" "FMCG" "Giza" "3-5 years" 22000 "2026-02-19" true 92 auto_approved [] 0 None absent absent absent;
    seed 18 "Full Stack Developer" "MoneyFellows" "Technology" "Cairo" "3-5 years" 35000 "2026-02-18" true 90 auto_approved [] 0 None absent absent absent;
    seed 19 "Civil Engineer" "Orascom" "Engineering" "Cairo" "5-8 years" 20000 "2026-02-18" false 82 auto_approved [] 0 None absent absent absent;
    seed 20 "Android Developer" "Halan" "Technology" "Cairo" "3-5 years" 28000 "2026-02-17" true 91 auto_approved [] 0 None absent absent absent;
    seed 21 "Junior Intern" "Unknown Startup" "Technology" "Cairo" "0-1 years" 120000 "2026-02-28" false 22 flagged [Flag.mk extreme_outlier high; Flag.mk high_for_exp high] 0 (Some "abc12") absent absent absent;
    seed 22 "Software Engineer" "Vodafone Egypt" "Telecom" "Cairo" "3-5 years" 25000 "2026-02-28" false 35 flagged [Flag.mk duplicate high] 0 (Some "def34") absent absent absent;
    seed 23 "CEO" "Small Local Shop" "Other" "Cairo" "12+ years" 500000 "2026-02-28" false 18 flagged [Flag.mk extreme_outlier high; Flag.mk high_for_exp high] 2 (Some "ghi56") absent absent absent;
    seed 24 "Data Scientist" "Fawry" "Technology" "Cairo" "3-5 years" 85000 "2026-02-27" false 52 needs_review [Flag.mk outlier medium] 0 (Some "jkl78") "gross" "permanent" "yes";
    seed 25 "Receptionist" "Hilton Cairo" "Other" "Cairo" "1-3 years" 4000 "2026-02-27" false 55 needs_review [Flag.mk low_for_exp medium] 0 (Some "mno90") absent absent absent ].

(** The state when the application starts. *)
Definition initialWorld : World := mkWorld None [] INITIAL_SALARIES [].

(** *** The operations of the application as a transition system *)

Inductive Op :=
| Submit (env : Env.t) (form : Form.t)
| CommunityFlag (id : Z)
| Moderate (id : Z) (action : string).

Definition withSalaries (l : list Entry.t) (w : World) : World :=
  mkWorld (_hash w) (_submissions w) l (trace w).

Definition step (w : World) (op : Op) : World :=
  match op with
  | Submit env form => fst (handleSubmit env form w)
  | CommunityFlag id => withSalaries (handleFlag id (salaries w)) w
  | Moderate id action => withSalaries (moderate id action (salaries w)) w
  end.

(** The state after a sequence of operations, from [w]. *)
Definition run (ops : list Op) (w : World) : World := fold_left step ops w.

(* ================================================================== *)
(** ** Definitions used to state the properties *)
(* ================================================================== *)

Definition validSalary (form : Form.t) (sal : Z) : Prop :=
  truthy (Form.title form) = true /\ truthy (Form.company form) = true /\
  truthy (Form.salary form) = true /\
  parseInt (Form.salary form) = Some sal /\ 0 < sal.

(** The bonus as the specification words it: 15 for three or more
    completed fields, 5 for exactly two, nothing below. *)
Definition frictionBonus (count : nat) : Z :=
  if (3 <=? count)%nat then 15 else if (count =? 2)%nat then 5 else 0.

Definition sampleEnv : Env.t :=
  Env.mk 1772400000000 "2026-03-01" "10:00:00" "en-US|1920|1080|24|-120|8|0|1".

(** The first seeded entry again (company in lower case), with three of
    the four friction fields completed. *)
Definition duplicateForm : Form.t :=
  Form.mk "Software Engineer" "vodafone egypt" "Telecom" "Cairo" "3-5 years"
          "25000" absent "gross" "permanent" "yes" absent.

(** An unremarkable submission, two friction fields completed. *)
Definition plainForm : Form.t :=
  Form.mk "Site Engineer" "Arab Contractors" "Engineering" "Giza" "3-5 years"
          "21000" absent "net" absent "no" absent.

(** The order the specification asks for: every recorded time stamp is
    preceded in the trace by an append. *)
Definition recordedOnlyAfterAppend (tr : list Event) : Prop :=
  forall pre t post,
    tr = pre ++ RecordedSubmission t :: post ->
    exists e, In (Appended e) pre.

Definition inRange (s : Entry.t) : Prop := 0 <= Entry.trustScore s <= 100.

(** The duplicate of the sample run, then approved by a moderator. *)
Definition approvedDuplicate : Entry.t :=
  Entry.mk 1772400000000 "Software Engineer" "vodafone egypt" "Telecom" "Cairo"
    "3-5 years" 25000 "2026-03-01" true 80 (Some auto_approved)
    [Flag.mk duplicate high] 0 (Some "27ae9k") absent "gross" "permanent" "yes" absent.

Definition clickAllowed (s : Entry.t) (action : string) : Prop :=
  ((Entry.status s = Some flagged \/ Entry.status s = Some needs_review) /\
   (action = "approve" \/ action = "reject")) \/
  (Entry.status s = Some auto_approved /\ 0 < Entry.flagCount s /\
   action = "reject").

(** The reading of the specification: same industry, not rejected. *)
Definition sameIndustryNotRejected (industry : string) (salaries : list Entry.t)
  : list Entry.t :=
  filter (fun s => (Entry.industry s =? industry)%string
                   && negb (status_is (Entry.status s) rejected)) salaries.

Definition techForm : Form.t :=
  Form.mk "Backend Developer" "Elmenus" "Technology" "Cairo" "3-5 years"
          "33000" absent absent absent absent absent.


Definition closeCandidate : Candidate.t :=
  Candidate.mk (Form.mk "Presenter" "Nile Radio" "Media" "Cairo" "3-5 years"
                        "30003" absent absent absent absent absent) 30003.

(** One hour after [sampleEnv]. *)
Definition laterEnv : Env.t :=
  Env.mk (1772400000000 + 3600000) "2026-03-01" "11:00:00"
         "en-US|1920|1080|24|-120|8|0|1".

Definition isBlocked (o : Outcome) : bool :=
  match o with Blocked _ => true | _ => false end.

Definition isSubmitted (o : Outcome) : bool :=
  match o with Submitted _ _ _ => true | _ => false end.

(** What one friction field adds to the count of completed fields. *)
Definition completed (field : string) : nat := if truthy field then 1%nat else 0%nat.

(** The duplicate of the sample run with two friction fields only. *)
Definition twoFieldForm : Form.t :=
  Form.mk "Software Engineer" "vodafone egypt" "Telecom" "Cairo" "3-5 years"
          "25000" absent "gross" absent "yes" absent.


(** A candidate with the experience band "3-5 years". *)
Definition bandCandidate (sal : Z) : Candidate.t :=
  Candidate.mk (Form.mk "Analyst" "Acme" "Other" "Cairo" "3-5 years"
                        absent absent absent absent absent absent) sal.

(* ================================================================== *)
(** ** The pages that read the corpus *)
(* ================================================================== *)

(** [salaries.filter(s => s.status !== "flagged")], the list every page
    calls [approved]. *)
Definition approved (salaries : list Entry.t) : list Entry.t :=
  filter (fun s => negb (status_is (Entry.status s) flagged)) salaries.

(** [approved.slice(0, 8)], the rows of [HomePage]. *)
Definition homeRows (salaries : list Entry.t) : list Entry.t :=
  firstn 8 (approved salaries).

(** [s.includes(q)]: [q] occurs in [s] at some position. *)
Fixpoint includes (s q : string) : bool :=
  String.prefix q s
  || match s with
     | EmptyString => false
     | String _ r => includes r q
     end.

(** [l.sort(cmp)], a stable sort: an element moves behind the elements
    that followed it only where [cmp] is positive. *)
Fixpoint insertWith (cmp : Entry.t -> Entry.t -> Z) (x : Entry.t)
    (l : list Entry.t) : list Entry.t :=
  match l with
  | [] => [x]
  | y :: r => if 0 <? cmp x y then y :: insertWith cmp x r else x :: l
  end.

Fixpoint sortWith (cmp : Entry.t -> Entry.t -> Z) (l : list Entry.t)
  : list Entry.t :=
  match l with
  | [] => []
  | x :: r => insertWith cmp x (sortWith cmp r)
  end.

(** The state of [ExplorePage]. *)
Module Explore.
Record t := mk { search : string; industry : string; exp : string; sort : string }.
End Explore.

Definition matchesExplore (st : Explore.t) (s : Entry.t) : bool :=
  let q := toLowerCase (Explore.search st) in
  (negb (truthy q) || includes (toLowerCase (Entry.title s)) q
   || includes (toLowerCase (Entry.company s)) q)
  && ((Explore.industry st =? "All")%string
      || (Entry.industry s =? Explore.industry st)%string)
  && ((Explore.exp st =? "All")%string
      || (Entry.experience s =? Explore.exp st)%string).

(** The comparator [ExplorePage] gives to [sort]. *)
Definition exploreCmp (sort : string) (a b : Entry.t) : Z :=
  if (sort =? "highest")%string then Entry.salary b - Entry.salary a
  else if (sort =? "lowest")%string then Entry.salary a - Entry.salary b
  else 0.

(** [filtered], the rows of [ExplorePage]. *)
Definition filtered (st : Explore.t) (salaries : list Entry.t) : list Entry.t :=
  sortWith (exploreCmp (Explore.sort st))
           (filter (matchesExplore st) (approved salaries)).

(** [avg] of [ExplorePage]. *)
Definition exploreAvg (st : Explore.t) (salaries : list Entry.t) : float :=
  let l := filtered st salaries in
  if (List.length l =? 0)%nat then 0%float else Math_round (mean l).

(** [median] of [ExplorePage]: [sorted[Math.floor(sorted.length / 2)]]. *)
Definition exploreMedian (st : Explore.t) (salaries : list Entry.t) : Z :=
  let sorted := sortBySalary (filtered st salaries) in
  match nth_error sorted (List.length sorted / 2) with
  | Some s => Entry.salary s
  | None => 0
  end.

(** The form of [ComparePage]. *)
Module CompareForm.
Record t := mk {
    title : string; industry : string; experience : string; salary : string }.
End CompareForm.

(** The object given to [setResult]. *)
Module CompareResult.
Record t := mk {
    avg : float; expAvg : float; percentile : float; diff : float;
    expDiff : float; count : nat; expCount : nat }.
End CompareResult.

(** The number [parseInt] returns. *)
Definition numberOf (sal : option Z) : float :=
  match sal with
  | Some v => Z2F v
  | None => nan
  end.

(** [handleCompare] of [ComparePage]; [None] is the bare [return]. *)
Definition handleCompare (form : CompareForm.t) (salaries : list Entry.t)
  : option CompareResult.t :=
  if negb (truthy (CompareForm.salary form)) then None
  else
    let sal := parseInt (CompareForm.salary form) in
    let similar :=
      filter (fun s => (Entry.industry s =? CompareForm.industry form)%string)
             (approved salaries) in
    let avg := avgOr (numberOf sal) similar in
    let sameExp :=
      filter (fun s => (Entry.experience s =? CompareForm.experience form)%string)
             (approved salaries) in
    let expAvg := avgOr (numberOf sal) sameExp in
    let sorted := sortBySalary similar in
    (* [s.salary <= sal] is false of every entry when [sal] is [NaN] *)
    let below :=
      match sal with
      | Some v => List.length (filter (fun s => Entry.salary s <=? v) sorted)
      | None => 0%nat
      end in
    let percentile := percentileOf below similar in
    Some (CompareResult.mk avg expAvg percentile (percentDiff (numberOf sal) avg)
            (percentDiff (numberOf sal) expAvg) (List.length similar)
            (List.length sameExp)).

(** The four summary cards of [AdminPage]. *)
Module Summary.
Record t := mk { total : nat; autoApproved : nat; pending : nat; rejectedCount : nat }.
End Summary.

Definition summaryCards (salaries : list Entry.t) : Summary.t :=
  let flaggedList := filter (fun s => status_is (Entry.status s) flagged) salaries in
  let needsReview := filter (fun s => status_is (Entry.status s) needs_review) salaries in
  Summary.mk (List.length salaries)
    (List.length (filter (fun s => status_is (Entry.status s) auto_approved) salaries))
    (List.length flaggedList + List.length needsReview)
    (List.length (filter (fun s => status_is (Entry.status s) rejected) salaries)).

(** The time stamps a trace records. *)
Fixpoint recordedTimes (tr : list Event) : list Z :=
  match tr with
  | [] => []
  | RecordedSubmission t :: r => t :: recordedTimes r
  | Appended _ :: r => recordedTimes r
  end.

(** The clock never runs backwards: the submissions of [ops] read
    times that do not decrease, starting at or after [t]. *)
Fixpoint clockFrom (t : Z) (ops : list Op) : bool :=
  match ops with
  | [] => true
  | Submit env _ :: r => (t <=? Env.now env) && clockFrom (Env.now env) r
  | _ :: r => clockFrom t r
  end.

(** The time read by the last submission of [ops], [t] if there is none. *)
Fixpoint lastClock (t : Z) (ops : list Op) : Z :=
  match ops with
  | [] => t
  | Submit env _ :: r => lastClock (Env.now env) r
  | _ :: r => lastClock t r
  end.

(** The window agrees with the record of the run on every time stamp
    that can still matter, at a time not before [t]. *)
Definition windowExact (t : Z) (w : World) : Prop :=
  forall env, t <= Env.now env ->
    recent env (_submissions w) = recent env (recordedTimes (trace w)).

(** The hash of [generate] without the wrap-around of each round. *)
Fixpoint polyHash (raw : string) (hash : Z) : Z :=
  match raw with
  | EmptyString => hash
  | String c r => polyHash r (31 * hash + Z.of_nat (nat_of_ascii c))
  end.

(** Later, from a browser with other attributes. *)
Definition otherEnv : Env.t :=
  Env.mk 1772400600000 "2026-03-01" "10:10:00" "ar-EG|1366|768|24|-120|4|5|2".

(** Every entry appended so far carries the hash the session holds. *)
Definition sessionHash (w : World) : Prop :=
  forall e, In (Appended e) (trace w) ->
    exists h, _hash w = Some h /\ truthy h = true /\ Entry.deviceHash e = Some h.

(** The penalty [detectOutliers] subtracts when it pushes a flag, and
    the severity it gives it. *)
Definition penaltyOf (ty : FlagType) : Z :=
  match ty with
  | extreme_outlier => 40 | outlier => 20 | low_for_exp => 15
  | high_for_exp => 30 | company_mismatch => 25 | duplicate => 50
  end.

Definition severityOf (ty : FlagType) : Severity :=
  match ty with
  | outlier | low_for_exp => medium
  | _ => high
  end.

Fixpoint totalPenalty (flags : list Flag.t) : Z :=
  match flags with
  | [] => 0
  | f :: r => penaltyOf (Flag.type f) + totalPenalty r
  end.

(** The order in which [detectOutliers] runs its tests. *)
Definition flagRank (ty : FlagType) : nat :=
  match ty with
  | extreme_outlier => 0 | outlier => 1 | low_for_exp => 2
  | high_for_exp => 3 | company_mismatch => 4 | duplicate => 5
  end.

(** The envelope [detectOutliers] reads for an experience band. *)
Definition bandOf (experience : string) : Z * Z :=
  match expMap experience with
  | Some p => p
  | None => (0, 999999)
  end.

(** A moderator's action: what the handler reads of the browser, the
    id and the action. *)
Module Act.
Record t := mk { env : Env.t; id : Z; action : string }.
End Act.

(** A sequence of calls of [handleAction]. *)
Definition handleActions (acts : list Act.t)
    (st : list Entry.t * list LogItem.t) : list Entry.t * list LogItem.t :=
  fold_left (fun st a => handleAction (Act.env a) (Act.id a) (Act.action a) st)
            acts st.

Definition logItemOf (a : Act.t) : LogItem.t :=
  LogItem.mk (Act.id a) (Act.action a) (Env.timeString (Act.env a)).

(** The test of the three lists of the review queue, in one. *)
Definition inReview (s : Entry.t) : bool :=
  status_is (Entry.status s) flagged
  || status_is (Entry.status s) needs_review
  || ((0 <? Entry.flagCount s) && status_is (Entry.status s) auto_approved).

(** What holds of every entry the application ever holds. *)
Definition wellFormed (s : Entry.t) : Prop :=
  (exists st, Entry.status s = Some st) /\
  (Entry.status s <> Some rejected ->
   Entry.status s = Some (statusOfScore (Entry.trustScore s))) /\
  (Entry.verified s = true ->
   Entry.status s = Some auto_approved \/ Entry.status s = Some rejected) /\
  0 <= Entry.flagCount s /\
  0 < Entry.salary s.

(** The fields no handler writes after the entry is created. *)
Definition sameData (s s' : Entry.t) : Prop :=
  Entry.id s' = Entry.id s /\ Entry.title s' = Entry.title s /\
  Entry.company s' = Entry.company s /\ Entry.industry s' = Entry.industry s /\
  Entry.city s' = Entry.city s /\ Entry.experience s' = Entry.experience s /\
  Entry.salary s' = Entry.salary s /\ Entry.submitted s' = Entry.submitted s /\
  Entry.flags s' = Entry.flags s /\ Entry.deviceHash s' = Entry.deviceHash s /\
  Entry.bonus s' = Entry.bonus s /\ Entry.salaryType s' = Entry.salaryType s /\
  Entry.contractType s' = Entry.contractType s /\
  Entry.recentRaise s' = Entry.recentRaise s /\
  Entry.companySize s' = Entry.companySize s.

(** [ascending l], [descending l]: the salaries of [l] in order. *)
Definition ascending (l : list Entry.t) : Prop :=
  StronglySorted (fun a b => Entry.salary a <= Entry.salary b) l.

Definition descending (l : list Entry.t) : Prop :=
  StronglySorted (fun a b => Entry.salary b <= Entry.salary a) l.

(** The state of [ExplorePage] after [setSort(sort')]. *)
Definition withSort (sort' : string) (st : Explore.t) : Explore.t :=
  Explore.mk (Explore.search st) (Explore.industry st) (Explore.exp st) sort'.

(** How many of [l] earn [v] at most, and [v] at least. *)
Definition atMost (v : Z) (l : list Entry.t) : nat :=
  List.length (filter (fun s => Entry.salary s <=? v) l).

Definition atLeast (v : Z) (l : list Entry.t) : nat :=
  List.length (filter (fun s => v <=? Entry.salary s) l).

(** The element in the middle of the sorted copy, read off the
    salaries alone. *)
Definition middle (vs : list Z) : Z :=
  match nth_error vs (List.length vs / 2) with
  | Some v => v
  | None => 0
  end.

(** Nine salaries of one industry and a candidate whose z-score
    against them is two and a half when computed exactly. *)
Definition orderCorpus : list Entry.t :=
  map (fun p => seed (fst p) "Teacher" "Nile School" "Education" "Cairo"
                     "3-5 years" (snd p) "2026-03-01" false 100 auto_approved
                     [] 0 None absent absent absent)
      [(201, 32000); (202, 26000); (203, 31000); (204, 20000); (205, 22000);
       (206, 31000); (207, 32000); (208, 25000); (209, 21000)].

Definition orderCandidate : Candidate.t :=
  Candidate.mk (Form.mk "Tutor" "Delta Academy" "Education" "Cairo" "3-5 years"
                        "15000" absent absent absent absent absent) 15000.

(** A form of [ComparePage] for the industry of [techForm], with the
    given salary text. *)
Definition compareTech (salary : string) : CompareForm.t :=
  CompareForm.mk "Software Engineer" "Technology" "3-5 years" salary.

(* ================================================================== *)
(** * Properties *)
(* ================================================================== *)

(** ** The definitions on concrete inputs *)

Example parseInt_examples :
  (parseInt "25000", parseInt " -12.5", parseInt "0x1f", parseInt "abc",
   parseInt "1e5", parseInt "+7 days")
  = (Some 25000, Some (-12), Some 31, None, Some 1, Some 7).
Proof. reflexivity. Qed.

Example toString36_examples :
  (toString36 0, toString36 35, toString36 36, toString36 2147483648)
  = ("0", "z", "10", "zik0zk").
Proof. reflexivity. Qed.

Example Math_round_examples :
  (Math_round 2.5, Math_round (-2.5), Math_round (Z2F 7 / Z2F 3),
   Math_round (Z2F (-8) / Z2F 3), Math_round (-0.5), Math_round infinity)%float
  = (3, -2, 2, -3, neg_zero, infinity)%float.
Proof. vm_compute. reflexivity. Qed.

(** Above [2 ^ 53] an integer is read as the nearest double, and from
    309 digits on as an infinity. *)
Example parseInt_rounds :
  (parseInt "9007199254740993", toDouble (10 ^ 400), toDouble (- 10 ^ 400),
   Z2F (10 ^ 400), toDouble 33000)
  = (Some 9007199254740992, 2 ^ 1024, - 2 ^ 1024, infinity, 33000).
Proof. vm_compute. reflexivity. Qed.

Example toLowerCase_examples :
  (toLowerCase "Vodafone EGYPT", toLowerCase (String (ascii_of_nat 201) "cole"),
   toLowerCase (String (ascii_of_nat 215) "x"))
  = ("vodafone egypt", String (ascii_of_nat 233) "cole",
     String (ascii_of_nat 215) "x").
Proof. vm_compute. reflexivity. Qed.

(** The envelope of "3-5 years" is 12000 to 60000: 5000 is below half
    of the minimum, 100000 above one and a half times the maximum (and
    a round number above 50000), 25000 is neither. *)
Example experience_band_examples :
  (detectOutliers (bandCandidate 5000) [],
   detectOutliers (bandCandidate 100000) [],
   detectOutliers (bandCandidate 25000) [])
  = (Analysis.mk [Flag.mk low_for_exp medium] 85 auto_approved,
     Analysis.mk [Flag.mk high_for_exp high] 65 needs_review,
     Analysis.mk [] 100 auto_approved).
Proof. vm_compute. reflexivity. Qed.

(** Five submissions within the hour block the sixth; an hour later the
    window is empty again and the next submission goes through. *)
Example rate_limit_example :
  let five := [Submit sampleEnv plainForm; Submit sampleEnv plainForm;
               Submit sampleEnv plainForm; Submit sampleEnv plainForm;
               Submit sampleEnv plainForm] in
  let w := run five initialWorld in
  List.length (salaries w) = 30%nat /\
  isBlocked (snd (handleSubmit sampleEnv plainForm w)) = true /\
  salaries (fst (handleSubmit sampleEnv plainForm w)) = salaries w /\
  isSubmitted (snd (handleSubmit laterEnv plainForm w)) = true.
Proof. vm_compute. repeat split. Qed.

(* ------------------------------------------------------------------ *)
(** ** Binary64: the facts the proofs use *)
(* ------------------------------------------------------------------ *)

Lemma digits2_size p : digits2_pos p = Pos.size p.
Proof. induction p as [p IH|p IH|]; cbn; congruence. Qed.

Lemma size_log2 p : Z.pos (Pos.size p) = Z.log2 (Z.pos p) + 1.
Proof. destruct p; cbn; lia. Qed.

Lemma digits_bounds p :
  2 ^ (Z.pos (digits2_pos p) - 1) <= Z.pos p < 2 ^ Z.pos (digits2_pos p).
Proof.
  rewrite digits2_size, size_log2.
  replace (Z.log2 (Z.pos p) + 1 - 1) with (Z.log2 (Z.pos p)) by lia.
  pose proof (Z.log2_spec (Z.pos p) ltac:(lia)) as H.
  replace (Z.succ (Z.log2 (Z.pos p))) with (Z.log2 (Z.pos p) + 1) in H by lia.
  exact H.
Qed.

Lemma digits_unique p d :
  2 ^ (d - 1) <= Z.pos p < 2 ^ d -> Z.pos (digits2_pos p) = d.
Proof.
  intros H. rewrite digits2_size, size_log2.
  assert (0 <= d - 1).
  { destruct (Z.le_gt_cases 1 d) as [Hd|Hd]; [lia|].
    exfalso. assert (d <= 0) by lia.
    destruct (Z.eq_dec d 0) as [->|Hn]; [cbn in H; lia|].
    rewrite (Z.pow_neg_r 2 d) in H by lia. lia. }
  rewrite (Z.log2_unique (Z.pos p) (d - 1)); [lia|lia|].
  replace (Z.succ (d - 1)) with d by lia. exact H.
Qed.

(** A shift to the right halves the mantissa. *)
Lemma shr_1_m r : 0 <= shr_m r -> shr_m (shr_1 r) = shr_m r / 2.
Proof.
  destruct r as [m rr ss]. cbn [shr_m]. intros Hm.
  destruct m as [|p|p]; [reflexivity| |lia].
  destruct p as [p|p|]; cbn [shr_1 shr_m].
  - rewrite Pos2Z.inj_xI. apply (Z.div_unique _ _ _ 1); lia.
  - rewrite Pos2Z.inj_xO. apply (Z.div_unique _ _ _ 0); lia.
  - reflexivity.
Qed.

Lemma iter_shr_m k : forall r,
  0 <= shr_m r -> shr_m (iter_pos shr_1 k r) = shr_m r / 2 ^ Z.pos k.
Proof.
  induction k as [k IH|k IH|]; intros r Hr; cbn [iter_pos].
  - assert (H1 : 0 <= shr_m (shr_1 r))
      by (rewrite shr_1_m by exact Hr; apply Z.div_pos; lia).
    assert (H2 : 0 <= shr_m (iter_pos shr_1 k (shr_1 r))).
    { rewrite IH by exact H1.
      apply Z.div_pos; [exact H1|apply Z.pow_pos_nonneg; lia]. }
    rewrite IH by exact H2. rewrite IH by exact H1. rewrite shr_1_m by exact Hr.
    rewrite !Z.div_div by (try apply Z.pow_pos_nonneg; lia).
    f_equal. rewrite <- Z.pow_add_r, <- Z.pow_succ_r by lia. f_equal. lia.
  - assert (H2 : 0 <= shr_m (iter_pos shr_1 k r)).
    { rewrite IH by exact Hr.
      apply Z.div_pos; [exact Hr|apply Z.pow_pos_nonneg; lia]. }
    rewrite IH by exact H2. rewrite IH by exact Hr.
    rewrite !Z.div_div by (try apply Z.pow_pos_nonneg; lia).
    f_equal. rewrite <- Z.pow_add_r by lia. f_equal. lia.
  - rewrite shr_1_m by exact Hr. reflexivity.
Qed.

(** One step of [shr_fexp] on a mantissa of 53 digits or more cuts it
    to its 53 leading digits. *)
Lemma shr_fexp_cut m e l :
  53 <= Z.pos (digits2_pos m) -> -1074 <= e ->
  let k := Z.pos (digits2_pos m) - 53 in
  shr_m (fst (shr_fexp prec emax (Z.pos m) e l)) = Z.pos m / 2 ^ k /\
  snd (shr_fexp prec emax (Z.pos m) e l) = e + k /\
  2 ^ 52 <= Z.pos m / 2 ^ k < 2 ^ 53.
Proof.
  intros Hd He k. unfold shr_fexp, fexp, SpecFloat.emin, prec, emax.
  cbn [Zdigits2]. fold k.
  replace (Z.max (Z.pos (digits2_pos m) + e - 53) (3 - 1024 - 53) - e) with k
    by (unfold k; lia).
  pose proof (digits_bounds m) as Hb.
  assert (Hpow : 2 ^ (Z.pos (digits2_pos m) - 1) = 2 ^ 52 * 2 ^ k).
  { rewrite <- Z.pow_add_r by (unfold k; lia). f_equal. unfold k. lia. }
  assert (Hpow' : 2 ^ Z.pos (digits2_pos m) = 2 ^ 53 * 2 ^ k).
  { rewrite <- Z.pow_add_r by (unfold k; lia). f_equal. unfold k. lia. }
  assert (Hk : 0 < 2 ^ k) by (apply Z.pow_pos_nonneg; unfold k; lia).
  assert (Hrange : 2 ^ 52 <= Z.pos m / 2 ^ k < 2 ^ 53).
  { split.
    - apply Z.div_le_lower_bound; [exact Hk|]. rewrite Z.mul_comm. lia.
    - apply Z.div_lt_upper_bound; [exact Hk|]. rewrite Z.mul_comm. lia. }
  unfold shr. destruct k as [|kp|kp] eqn:Ek.
  - cbn [fst snd]. split; [|split; [lia|exact Hrange]].
    destruct l as [|[| |]]; cbn; rewrite Z.div_1_r; reflexivity.
  - cbn [fst snd]. split; [|split; [reflexivity|exact Hrange]].
    rewrite iter_shr_m; destruct l as [|[| |]]; cbn [shr_record_of_loc shr_m];
      try reflexivity; lia.
  - lia.
Qed.

Lemma round_nearest_even_cases m l :
  round_nearest_even m l = m \/ round_nearest_even m l = m + 1.
Proof.
  destruct l as [|[| |]]; cbn; auto. destruct (Z.even m); auto.
Qed.

(** Rounding a mantissa of 53 digits or more gives a number of the sign
    asked for, finite and canonical, or infinite. *)
Lemma binary_round_aux_shape s m e :
  53 <= Z.pos (digits2_pos m) -> -1074 <= e ->
  (exists m' e', binary_round_aux prec emax s (Z.pos m) e loc_Exact
                 = S754_finite s m' e' /\ bounded prec emax m' e' = true) \/
  binary_round_aux prec emax s (Z.pos m) e loc_Exact = S754_infinity s.
Proof.
  intros Hd He. unfold binary_round_aux.
  destruct (shr_fexp_cut m e loc_Exact Hd He) as (H1 & H2 & H3).
  destruct (shr_fexp prec emax (Z.pos m) e loc_Exact) as [mrs' e'].
  cbn [fst snd] in H1, H2.
  set (k := Z.pos (digits2_pos m) - 53) in *.
  assert (Hk : 0 <= k) by (unfold k; lia).
  set (m1 := round_nearest_even (shr_m mrs') (loc_of_shr_record mrs')).
  assert (Hm1 : 2 ^ 52 <= m1 <= 2 ^ 53).
  { unfold m1.
    destruct (round_nearest_even_cases (shr_m mrs') (loc_of_shr_record mrs'))
      as [-> | ->]; rewrite H1; lia. }
  destruct m1 as [|p1|p1] eqn:E1; try lia.
  assert (He' : -1074 <= e') by lia.
  destruct (Z.eq_dec (Z.pos p1) (2 ^ 53)) as [Htop|Hlow].
  - assert (Hd1 : Z.pos (digits2_pos p1) = 54)
      by (apply digits_unique; rewrite Htop; cbn; lia).
    destruct (shr_fexp_cut p1 e' loc_Exact ltac:(lia) He') as (G1 & G2 & G3).
    destruct (shr_fexp prec emax (Z.pos p1) e' loc_Exact) as [mrs'' e''].
    cbn [fst snd] in G1, G2. rewrite Hd1 in G1, G2, G3.
    replace (54 - 53) with 1 in G1, G2, G3 by lia.
    rewrite G1. destruct (Z.pos p1 / 2 ^ 1) as [|p2|p2] eqn:E2; try lia.
    destruct (e'' <=? emax - prec) eqn:Ee; [left|right; reflexivity].
    exists p2, e''. split; [reflexivity|].
    unfold bounded, canonical_mantissa. rewrite Ee, andb_true_r.
    assert (Hd2 : Z.pos (digits2_pos p2) = 53)
      by (apply digits_unique; cbn in *; lia).
    rewrite Hd2. unfold fexp, SpecFloat.emin, prec, emax. apply Z.eqb_eq. lia.
  - assert (Hd1 : Z.pos (digits2_pos p1) = 53)
      by (apply digits_unique; cbn in *; lia).
    destruct (shr_fexp_cut p1 e' loc_Exact ltac:(lia) He') as (G1 & G2 & G3).
    destruct (shr_fexp prec emax (Z.pos p1) e' loc_Exact) as [mrs'' e''].
    cbn [fst snd] in G1, G2. rewrite Hd1 in G1, G2, G3.
    replace (53 - 53) with 0 in G1, G2, G3 by lia.
    rewrite G1. cbn [Z.pow] in *. rewrite Z.div_1_r in *.
    destruct (e'' <=? emax - prec) eqn:Ee; [left|right; reflexivity].
    exists p1, e''. split; [reflexivity|].
    unfold bounded, canonical_mantissa. rewrite Ee, andb_true_r.
    rewrite Hd1. unfold fexp, SpecFloat.emin, prec, emax. apply Z.eqb_eq. lia.
Qed.

Lemma iter_xO_digits n : forall p,
  Z.pos (digits2_pos (Pos.iter xO p n)) = Z.pos (digits2_pos p) + Z.pos n.
Proof.
  induction n as [|n IH] using Pos.peano_ind; intros p.
  - cbn. lia.
  - rewrite Pos.iter_succ. cbn [digits2_pos]. rewrite Pos2Z.inj_succ, IH. lia.
Qed.

(** The same for a positive integer. *)
Lemma binary_round_shape s p :
  (exists m e, binary_round prec emax s p 0 = S754_finite s m e /\
               bounded prec emax m e = true) \/
  binary_round prec emax s p 0 = S754_infinity s.
Proof.
  unfold binary_round, shl_align, fexp, SpecFloat.emin.
  replace (Z.pos (digits2_pos p) + 0) with (Z.pos (digits2_pos p)) by lia.
  assert (Hp : 0 < Z.pos (digits2_pos p)) by lia.
  unfold prec, emax.
  destruct (Z.max (Z.pos (digits2_pos p) - 53) (3 - 1024 - 53) - 0) as [|d|d] eqn:E.
  - apply binary_round_aux_shape; lia.
  - apply binary_round_aux_shape; lia.
  - apply binary_round_aux_shape; [rewrite iter_xO_digits|]; lia.
Qed.

(** The double of a positive integer is a positive number or plus
    infinity: it is never zero and never [NaN]. *)
Lemma Z2F_positive z :
  0 < z ->
  (exists m e, Prim2SF (Z2F z) = S754_finite false m e) \/
  Prim2SF (Z2F z) = S754_infinity false.
Proof.
  intros Hz. unfold Z2F. destruct z as [|p|p]; try lia.
  cbn [binary_normalize].
  destruct (binary_round_shape false p) as [(m & e & -> & Hb)| ->].
  - left. exists m, e. apply Prim2SF_SF2Prim. exact Hb.
  - right. reflexivity.
Qed.

(** Zero divided by the length of a list that is not empty. *)
Lemma zero_div_length (l : list Entry.t) :
  l <> [] -> (0 / lengthF l)%float = 0%float.
Proof.
  intros Hl. apply Prim2SF_inj. rewrite div_spec. unfold lengthF.
  destruct (Z2F_positive (Z.of_nat (List.length l))) as [(m & e & ->)| ->];
    [destruct l; [contradiction|cbn [List.length]; lia]| |]; reflexivity.
Qed.

(** [NaN] spreads through a difference and a quotient, and compares
    with nothing. *)
Lemma sub_nan_l y : (nan - y)%float = nan.
Proof.
  apply Prim2SF_inj. rewrite sub_spec.
  change (Prim2SF nan) with S754_nan. destruct (Prim2SF y); reflexivity.
Qed.

Lemma div_nan_l y : (nan / y)%float = nan.
Proof.
  apply Prim2SF_inj. rewrite div_spec.
  change (Prim2SF nan) with S754_nan. destruct (Prim2SF y); reflexivity.
Qed.


(** ** The shape of a run of [handleSubmit] *)

Lemma checkRateLimit_world env w :
  fst (checkRateLimit env w)
  = mkWorld (_hash w) (recent env (_submissions w)) (salaries w) (trace w).
Proof.
  unfold checkRateLimit, getRecentCount.
  destruct (5 <=? _)%nat; [reflexivity|].
  destruct (3 <=? _)%nat; reflexivity.
Qed.

Lemma checkRateLimit_blocked env w :
  RateCheck.blocked (snd (checkRateLimit env w))
  = (5 <=? List.length (recent env (_submissions w)))%nat.
Proof.
  unfold checkRateLimit, getRecentCount.
  destruct (5 <=? _)%nat eqn:E5; [reflexivity|].
  destruct (3 <=? _)%nat; reflexivity.
Qed.

Lemma generate_world env w :
  _submissions (fst (generate env w)) = _submissions w /\
  salaries (fst (generate env w)) = salaries w /\
  trace (fst (generate env w)) = trace w.
Proof.
  unfold generate. destruct (_hash w) as [h|]; [destruct (truthy h)|];
    repeat split.
Qed.

(** A submission that went through: what was checked, and each piece
    of the result in terms of the layers that produced it. *)
Lemma handleSubmit_submitted env form w w' e a c :
  handleSubmit env form w = (w', Submitted e a c) ->
  exists sal deviceHash,
    validSalary form sal /\
    (List.length (recent env (_submissions w)) < 5)%nat /\
    a = applyFriction (optionalFieldsCompleted form)
          (detectOutliers (Candidate.mk form sal) (salaries w)) /\
    e = mkNewEntry env form sal a deviceHash /\
    c = computeComparison form sal (salaries w) /\
    salaries w' = e :: salaries w /\
    _submissions w' = recent env (recent env (_submissions w) ++ [Env.now env]) /\
    trace w' = trace w ++ [RecordedSubmission (Env.now env); Appended e].
Proof.
  unfold handleSubmit.
  destruct (truthy (Form.title form)) eqn:Ht; [|discriminate].
  destruct (truthy (Form.company form)) eqn:Hc; [|discriminate].
  destruct (truthy (Form.salary form)) eqn:Hs; [|discriminate].
  cbn [negb orb].
  destruct (parseInt (Form.salary form)) as [sal|] eqn:Hp; [|discriminate].
  destruct (sal <=? 0) eqn:Hpos; [discriminate|].
  pose proof (checkRateLimit_world env w) as Hw1.
  pose proof (checkRateLimit_blocked env w) as Hb.
  destruct (checkRateLimit env w) as [w1 rc]. cbn [fst snd] in Hw1, Hb.
  destruct (RateCheck.blocked rc) eqn:Hblk; [discriminate|].
  pose proof (generate_world env (recordSubmission env w1)) as (G1 & G2 & G3).
  destruct (generate env (recordSubmission env w1)) as [w3 dh].
  cbn [fst] in G1, G2, G3.
  intros H. injection H as <- <- <- <-.
  exists sal, dh. subst w1. cbn [salaries _submissions trace] in *.
  unfold validSalary. repeat split; try assumption; try lia.
  - symmetry in Hb. apply Nat.leb_gt in Hb. exact Hb.
  - unfold appendEntry. cbn [salaries]. rewrite G2. reflexivity.
  - unfold appendEntry. cbn [trace]. rewrite G3.
    unfold recordSubmission. cbn [trace]. rewrite <- app_assoc. reflexivity.
Qed.

(** Either the submission goes through, or [salaries] and the trace
    are left alone and the window is at most pruned. *)
Lemma handleSubmit_cases env form w :
  (exists e a c, snd (handleSubmit env form w) = Submitted e a c) \/
  (salaries (fst (handleSubmit env form w)) = salaries w /\
   trace (fst (handleSubmit env form w)) = trace w /\
   (_submissions (fst (handleSubmit env form w)) = _submissions w \/
    _submissions (fst (handleSubmit env form w)) = recent env (_submissions w))).
Proof.
  unfold handleSubmit.
  destruct (negb _ || negb _ || negb _); [right; auto|].
  destruct (parseInt _) as [sal|]; [|right; auto].
  destruct (sal <=? 0); [right; auto|].
  pose proof (checkRateLimit_world env w) as Hw1.
  destruct (checkRateLimit env w) as [w1 rc]. cbn [fst] in Hw1.
  destruct (RateCheck.blocked rc).
  - right. cbn [fst]. subst w1. cbn. auto.
  - left. destruct (generate env (recordSubmission env w1)) as [w3 dh].
    cbn [snd]. eauto.
Qed.

(** ** Layer 2: the score and the flags of [detectOutliers] *)

(** Case analysis on every test of [detectOutliers]. *)
Ltac split_tests :=
  repeat match goal with
         | |- context [if ?b then _ else _] => destruct b eqn:?
         end.

Lemma detectOutliers_range entry l :
  0 <= Analysis.trustScore (detectOutliers entry l) <= 100.
Proof.
  unfold detectOutliers.
  destruct (match expMap _ with Some p => p | None => _ end) as [expMin expMax].
  cbn [Analysis.trustScore]. lia.
Qed.

Lemma detectOutliers_status entry l :
  Analysis.status (detectOutliers entry l)
  = statusOfScore (Analysis.trustScore (detectOutliers entry l)).
Proof.
  unfold detectOutliers.
  destruct (match expMap _ with Some p => p | None => _ end) as [expMin expMax].
  reflexivity.
Qed.

(** The duplicate test alone caps the score at 50 and pushes the flag. *)
Lemma detectOutliers_duplicate entry l :
  isDuplicate entry l = true ->
  In (Flag.mk duplicate high) (Analysis.flags (detectOutliers entry l)) /\
  Analysis.trustScore (detectOutliers entry l) <= 50.
Proof.
  intros Hdup. unfold detectOutliers. rewrite Hdup.
  destruct (match expMap _ with Some p => p | None => _ end) as [expMin expMax].
  cbn [Analysis.trustScore Analysis.flags]. split.
  - unfold penalise at 1. cbn [fst]. apply in_or_app. right. left. reflexivity.
  - split_tests; unfold penalise; cbn [fst snd]; lia.
Qed.

(** Conversely the flag is pushed by the duplicate test only. *)
Lemma detectOutliers_duplicate_flag entry l :
  In (Flag.mk duplicate high) (Analysis.flags (detectOutliers entry l)) ->
  isDuplicate entry l = true.
Proof.
  unfold detectOutliers.
  destruct (match expMap _ with Some p => p | None => _ end) as [expMin expMax].
  cbn [Analysis.flags].
  destruct (isDuplicate entry l); [reflexivity|].
  split_tests; unfold penalise; cbn [fst snd app In];
    intros H; repeat (destruct H as [H|H]; try discriminate H); contradiction.
Qed.

(** ** Layer 3: the friction bonus *)

Lemma applyFriction_score count a :
  Analysis.trustScore a <= 100 ->
  Analysis.trustScore (applyFriction count a)
  = Z.min 100 (Analysis.trustScore a + frictionBonus count).
Proof.
  intros Hle. unfold applyFriction, frictionBonus. cbn [Analysis.trustScore].
  destruct count as [|[|[|n]]]; cbn [Nat.leb Nat.eqb]; lia.
Qed.

Lemma applyFriction_flags count a :
  Analysis.flags (applyFriction count a) = Analysis.flags a.
Proof. reflexivity. Qed.

(** The [if]/[else if] of [handleSubmit] has no branch for a score
    below 40: the status of the analysis is kept, and it is already
    [flagged] since the bonus never lowers the score. *)
Lemma applyFriction_status count a :
  Analysis.status a = statusOfScore (Analysis.trustScore a) ->
  Analysis.status (applyFriction count a)
  = statusOfScore (Analysis.trustScore (applyFriction count a)).
Proof.
  intros Hst. unfold applyFriction. cbn [Analysis.status Analysis.trustScore].
  rewrite Hst. unfold statusOfScore.
  destruct count as [|[|[|n]]]; cbn [Nat.leb];
    repeat match goal with
           | |- context [?a <=? ?b] => destruct (Z.leb_spec a b)
           end; try reflexivity; lia.
Qed.

Lemma optionalFieldsCompleted_le form : (optionalFieldsCompleted form <= 4)%nat.
Proof.
  unfold optionalFieldsCompleted.
  etransitivity; [apply filter_length_le|]. reflexivity.
Qed.

(** ** Concrete runs used as examples below *)

Lemma handleSubmit_salaries env form w :
  salaries (fst (handleSubmit env form w))
  = match snd (handleSubmit env form w) with
    | Submitted e _ _ => e :: salaries w
    | _ => salaries w
    end.
Proof.
  destruct (handleSubmit env form w) as [w' o] eqn:E. cbn [fst snd].
  destruct o as [|m|e a c].
  - destruct (handleSubmit_cases env form w) as [(e & a & c & H)|(H & _)];
      rewrite E in H; [discriminate H|exact H].
  - destruct (handleSubmit_cases env form w) as [(e & a & c & H)|(H & _)];
      rewrite E in H; [discriminate H|exact H].
  - apply handleSubmit_submitted in E. destruct E as (sal & dh & E). apply E.
Qed.

Lemma handleSubmit_score env form w w' e a c :
  handleSubmit env form w = (w', Submitted e a c) ->
  exists sal,
    parseInt (Form.salary form) = Some sal /\
    Entry.trustScore e = Analysis.trustScore a /\
    Entry.status e = Some (Analysis.status a) /\
    Entry.flags e = Analysis.flags a /\
    a = applyFriction (optionalFieldsCompleted form)
          (detectOutliers (Candidate.mk form sal) (salaries w)).
Proof.
  intros H. apply handleSubmit_submitted in H.
  destruct H as (sal & dh & Hv & _ & Ha & He & _).
  exists sal. subst e. cbn. repeat split; try assumption. apply Hv.
Qed.

(* ------------------------------------------------------------------ *)
(** ** C8, C9: the final score and status of an accepted submission *)
(* ------------------------------------------------------------------ *)

(** C8.  For every accepted submission the status stored with the new
    entry (and shown as the validation result) is the one the fixed
    thresholds give for its final, post-bonus trust score: 70 and above
    is [auto_approved], 40 to 69 is [needs_review], 39 and below is
    [flagged]. *)
Theorem final_status_by_thresholds env form w w' e a c :
  handleSubmit env form w = (w', Submitted e a c) ->
  Entry.trustScore e = Analysis.trustScore a /\
  Entry.status e = Some (Analysis.status a) /\
  (70 <= Entry.trustScore e -> Entry.status e = Some auto_approved) /\
  (40 <= Entry.trustScore e <= 69 -> Entry.status e = Some needs_review) /\
  (Entry.trustScore e <= 39 -> Entry.status e = Some flagged).
Proof.
  intros H. destruct (handleSubmit_score _ _ _ _ _ _ _ H)
    as (sal & _ & Hts & Hst & _ & Ha).
  assert (Hs : Analysis.status a = statusOfScore (Analysis.trustScore a)).
  { subst a. apply applyFriction_status, detectOutliers_status. }
  rewrite Hst, Hts, Hs. unfold statusOfScore.
  repeat split; try intros Hr;
    repeat match goal with
           | |- context [?x <=? ?y] => destruct (Z.leb_spec x y)
           end; try reflexivity; lia.
Qed.

Lemma final_status_by_thresholds_witness :
  exists w' e a c,
    handleSubmit sampleEnv duplicateForm initialWorld = (w', Submitted e a c) /\
    Entry.trustScore e = 65 /\ Entry.status e = Some needs_review.
Proof.
  destruct (handleSubmit sampleEnv duplicateForm initialWorld) as [w' o] eqn:E.
  destruct o as [| |e a c]; try (vm_compute in E; discriminate E).
  exists w', e, a, c. split; [reflexivity|].
  assert (Hs : Entry.trustScore e = 65).
  { vm_compute in E. injection E as _ <- _ _. reflexivity. }
  split; [exact Hs|].
  apply (final_status_by_thresholds _ _ _ _ _ _ _ E). lia.
Defined.

(** C9.  The bonus depends on the form through the number of the four
    designated fields ([salaryType], [contractType], [recentRaise],
    [companySize]; [bonus] is not one of them) that are not empty, and
    on nothing else: that number is what [handleSubmit] counts.  With
    fewer than two of them the final score is the score of the
    detector; with exactly two it is that score plus 5, capped at 100;
    with three or four, 10 then 5 are added, each time capped at 100,
    which is the score plus 15, capped at 100. *)
Theorem friction_bonus_by_count env form w w' e a c :
  handleSubmit env form w = (w', Submitted e a c) ->
  exists sal,
    parseInt (Form.salary form) = Some sal /\
    let base := Analysis.trustScore
                  (detectOutliers (Candidate.mk form sal) (salaries w)) in
    let n := (completed (Form.salaryType form) + completed (Form.contractType form)
              + completed (Form.recentRaise form)
              + completed (Form.companySize form))%nat in
    optionalFieldsCompleted form = n /\
    (n <= 4)%nat /\
    ((n < 2)%nat -> Entry.trustScore e = base) /\
    (n = 2%nat -> Entry.trustScore e = Z.min 100 (base + 5)) /\
    ((3 <= n)%nat ->
       Entry.trustScore e = Z.min 100 (Z.min 100 (base + 10) + 5) /\
       Entry.trustScore e = Z.min 100 (base + 15)) /\
    Entry.trustScore e = Z.min 100 (base + frictionBonus n).
Proof.
  intros H. destruct (handleSubmit_score _ _ _ _ _ _ _ H)
    as (sal & Hp & Hts & _ & _ & Ha).
  exists sal. split; [exact Hp|]. cbv zeta.
  pose proof (detectOutliers_range (Candidate.mk form sal) (salaries w)) as Hr.
  assert (Hn : optionalFieldsCompleted form
               = (completed (Form.salaryType form) + completed (Form.contractType form)
                  + completed (Form.recentRaise form)
                  + completed (Form.companySize form))%nat).
  { unfold optionalFieldsCompleted, completed. cbn [filter].
    destruct (truthy (Form.salaryType form)), (truthy (Form.contractType form)),
      (truthy (Form.recentRaise form)), (truthy (Form.companySize form));
      reflexivity. }
  split; [exact Hn|]. rewrite <- Hn.
  split; [apply optionalFieldsCompleted_le|].
  rewrite Hts, Ha. unfold applyFriction, frictionBonus.
  cbn [Analysis.trustScore].
  destruct (optionalFieldsCompleted form) as [|[|[|n]]];
    cbn [Nat.leb Nat.eqb]; repeat split; intros; lia.
Qed.

(** The duplicate of the sample run scores 50 with the detector: with
    three friction fields it ends at 65, with two at 55. *)
Lemma friction_bonus_by_count_witness :
  exists w3 e3 a3 c3 w2 e2 a2 c2,
    handleSubmit sampleEnv duplicateForm initialWorld = (w3, Submitted e3 a3 c3) /\
    handleSubmit sampleEnv twoFieldForm initialWorld = (w2, Submitted e2 a2 c2) /\
    Entry.trustScore e3 = 65 /\ Entry.trustScore e2 = 55.
Proof.
  destruct (handleSubmit sampleEnv duplicateForm initialWorld) as [w3 o3] eqn:E3.
  destruct o3 as [| |e3 a3 c3]; try (vm_compute in E3; discriminate E3).
  destruct (handleSubmit sampleEnv twoFieldForm initialWorld) as [w2 o2] eqn:E2.
  destruct o2 as [| |e2 a2 c2]; try (vm_compute in E2; discriminate E2).
  exists w3, e3, a3, c3, w2, e2, a2, c2.
  split; [reflexivity|]. split; [reflexivity|].
  destruct (friction_bonus_by_count _ _ _ _ _ _ _ E3)
    as (sal3 & Hp3 & _ & _ & _ & _ & H3 & _).
  destruct (friction_bonus_by_count _ _ _ _ _ _ _ E2)
    as (sal2 & Hp2 & _ & _ & _ & H2 & _).
  vm_compute in Hp3, Hp2. injection Hp3 as <-. injection Hp2 as <-.
  split.
  - rewrite (proj2 (H3 ltac:(vm_compute; lia))). vm_compute. reflexivity.
  - rewrite (H2 eq_refl). vm_compute. reflexivity.
Defined.

(* ------------------------------------------------------------------ *)
(** ** C1: exact duplicates *)
(* ------------------------------------------------------------------ *)

Lemma isDuplicate_intro form sal l s :
  In s l ->
  toLowerCase (Entry.title s) = toLowerCase (Form.title form) ->
  toLowerCase (Entry.company s) = toLowerCase (Form.company form) ->
  Entry.salary s = sal ->
  isDuplicate (Candidate.mk form sal) l = true.
Proof.
  intros Hin Ht Hc Hs. unfold isDuplicate. apply existsb_exists.
  exists s. split; [exact Hin|].
  unfold Candidate.title, Candidate.company. cbn [Candidate.form Candidate.salary].
  rewrite Ht, Hc, Hs, !String.eqb_refl, Z.eqb_refl. reflexivity.
Qed.

(** C1 as stated fails: the seeded entry 1 submitted again with three
    friction fields completed is flagged [duplicate], and its final
    trust score is 65. *)
Lemma duplicate_score_above_50 :
  exists s w' e a c,
    In s (salaries initialWorld) /\
    Entry.title s = Form.title duplicateForm /\
    toLowerCase (Entry.company s) = toLowerCase (Form.company duplicateForm) /\
    parseInt (Form.salary duplicateForm) = Some (Entry.salary s) /\
    handleSubmit sampleEnv duplicateForm initialWorld = (w', Submitted e a c) /\
    In (Flag.mk duplicate high) (Entry.flags e) /\
    Entry.trustScore e = 65 /\
    ~ Entry.trustScore e <= 50.
Proof.
  destruct (handleSubmit sampleEnv duplicateForm initialWorld) as [w' o] eqn:E.
  destruct o as [| |e a c]; try (vm_compute in E; discriminate E).
  exists (nth 0 INITIAL_SALARIES (seed 0 absent absent absent absent absent 0 absent false 0 flagged [] 0 None absent absent absent)).
  exists w', e, a, c.
  assert (He : Entry.flags e = [Flag.mk duplicate high] /\ Entry.trustScore e = 65).
  { vm_compute in E. injection E as _ <- _ _. split; reflexivity. }
  destruct He as [Hf Hs]. rewrite Hf, Hs.
  repeat split; try reflexivity.
  - left. reflexivity.
  - left. reflexivity.
  - lia.
Qed.

(** C1 (amended).  For every accepted submission whose title and
    company (both compared after [toLowerCase]) and whose salary match
    an entry of the corpus, the new entry carries the [duplicate] flag,
    the score computed by [detectOutliers] is at most 50, and the final
    score is at most 50 plus the friction bonus, hence at most 65. *)
Theorem duplicate_submission_flagged env form w w' e a c s :
  handleSubmit env form w = (w', Submitted e a c) ->
  In s (salaries w) ->
  toLowerCase (Entry.title s) = toLowerCase (Form.title form) ->
  toLowerCase (Entry.company s) = toLowerCase (Form.company form) ->
  parseInt (Form.salary form) = Some (Entry.salary s) ->
  In (Flag.mk duplicate high) (Entry.flags e) /\
  Analysis.trustScore
    (detectOutliers (Candidate.mk form (Entry.salary s)) (salaries w)) <= 50 /\
  Entry.trustScore e <= 50 + frictionBonus (optionalFieldsCompleted form) /\
  Entry.trustScore e <= 65.
Proof.
  intros H Hin Ht Hc Hp.
  destruct (handleSubmit_score _ _ _ _ _ _ _ H)
    as (sal & Hp' & Hts & _ & Hfl & Ha).
  rewrite Hp in Hp'. injection Hp' as <-.
  destruct (detectOutliers_duplicate (Candidate.mk form (Entry.salary s)) (salaries w))
    as [Hflag Hcap].
  { eapply isDuplicate_intro; eauto. }
  assert (Hfin : Entry.trustScore e
                 <= 50 + frictionBonus (optionalFieldsCompleted form)).
  { rewrite Hts, Ha, applyFriction_score by lia. lia. }
  repeat split; try assumption.
  - rewrite Hfl, Ha, applyFriction_flags. exact Hflag.
  - pose proof (optionalFieldsCompleted_le form).
    revert Hfin. unfold frictionBonus.
    destruct (3 <=? _)%nat; [|destruct (_ =? 2)%nat]; lia.
Qed.

Lemma duplicate_submission_flagged_witness :
  exists w' e a c,
    handleSubmit sampleEnv duplicateForm initialWorld = (w', Submitted e a c) /\
    In (Flag.mk duplicate high) (Entry.flags e) /\ Entry.trustScore e <= 65.
Proof.
  destruct (handleSubmit sampleEnv duplicateForm initialWorld) as [w' o] eqn:E.
  destruct o as [| |e a c]; try (vm_compute in E; discriminate E).
  exists w', e, a, c. split; [reflexivity|].
  pose (s := seed 1 "Software Engineer" "Vodafone Egypt" "Telecom" "Cairo"
                  "3-5 years" 25000 "2026-02-27" true 95 auto_approved [] 0 None
                  absent absent absent).
  destruct (duplicate_submission_flagged sampleEnv duplicateForm initialWorld
              w' e a c s E) as (Hf & _ & _ & Hs).
  - left. reflexivity.
  - reflexivity.
  - reflexivity.
  - reflexivity.
  - split; assumption.
Defined.

(* ------------------------------------------------------------------ *)
(** ** C2: the order of the two commits *)
(* ------------------------------------------------------------------ *)

(** C2 as stated fails: in the run of [handleSubmit] on the sample form
    the time stamp is recorded first, the entry appended second. *)
Lemma timestamp_recorded_before_append :
  exists w' e a c,
    handleSubmit sampleEnv plainForm initialWorld = (w', Submitted e a c) /\
    trace w' = [RecordedSubmission (Env.now sampleEnv); Appended e] /\
    ~ recordedOnlyAfterAppend (trace w').
Proof.
  destruct (handleSubmit sampleEnv plainForm initialWorld) as [w' o] eqn:E.
  destruct o as [| |e a c]; try (vm_compute in E; discriminate E).
  exists w', e, a, c. split; [reflexivity|].
  destruct (handleSubmit_submitted _ _ _ _ _ _ _ E)
    as (sal & dh & _ & _ & _ & _ & _ & _ & _ & Htr).
  cbn [initialWorld trace app] in Htr. split; [exact Htr|].
  intros Hclaim. rewrite Htr in Hclaim.
  destruct (Hclaim [] (Env.now sampleEnv) [Appended e] eq_refl) as (x & []).
Qed.

(** C2 (amended).  Every run of [handleSubmit] returns.  A run that
    accepts performs exactly two commits, in this order: it records the
    time stamp in the submission window, then appends the new entry to
    the corpus; neither step can fail.  A run that does not accept
    (validation failure or hard rate limit) performs neither: the corpus
    is unchanged and the window is at most pruned.  So at the end of
    every run a time stamp was recorded exactly when an entry was
    appended. *)
Theorem commits_of_a_submission env form w :
  let w' := fst (handleSubmit env form w) in
  match snd (handleSubmit env form w) with
  | Submitted e _ _ =>
      trace w' = trace w ++ [RecordedSubmission (Env.now env); Appended e] /\
      salaries w' = e :: salaries w /\
      _submissions w' = recent env (recent env (_submissions w) ++ [Env.now env]) /\
      In (Env.now env) (_submissions w')
  | _ =>
      trace w' = trace w /\
      salaries w' = salaries w /\
      (_submissions w' = _submissions w \/
       _submissions w' = recent env (_submissions w))
  end.
Proof.
  cbv zeta.
  destruct (handleSubmit_cases env form w) as [(e & a & c & H)|H].
  - rewrite H. destruct (handleSubmit env form w) as [w' o] eqn:E.
    cbn [fst snd] in *. subst o.
    destruct (handleSubmit_submitted _ _ _ _ _ _ _ E)
      as (sal & dh & _ & _ & _ & _ & _ & Hs & Hw & Htr).
    repeat split; try assumption.
    rewrite Hw. unfold recent at 1. apply filter_In. split.
    + apply in_or_app. right. left. reflexivity.
    + apply Z.ltb_lt. lia.
  - destruct H as (Hs & Htr & Hw).
    destruct (snd (handleSubmit env form w)) as [|m|e a c] eqn:E; auto.
    pose proof (handleSubmit_salaries env form w) as Hs'.
    rewrite E, Hs in Hs'. exfalso.
    apply (f_equal (@List.length _)) in Hs'. cbn in Hs'. lia.
Qed.

(* ------------------------------------------------------------------ *)
(** ** C7: the trust score stays within 0 and 100 *)
(* ------------------------------------------------------------------ *)

Lemma Forall2_map_same {A : Type} (R : A -> A -> Prop) (f : A -> A) (l : list A) :
  (forall x, In x l -> R x (f x)) -> Forall2 R l (map f l).
Proof.
  induction l as [|x l IH]; intros H; cbn; constructor.
  - apply H. left. reflexivity.
  - apply IH. intros y Hy. apply H. right. exact Hy.
Qed.

Lemma Forall_map_same {A : Type} (P : A -> Prop) (f : A -> A) (l : list A) :
  (forall x, P x -> P (f x)) -> Forall P l -> Forall P (map f l).
Proof.
  intros Hf Hl. apply Forall_forall. intros y Hy.
  apply in_map_iff in Hy. destruct Hy as (x & <- & Hx).
  apply Hf. revert x Hx. apply Forall_forall. exact Hl.
Qed.

Lemma INITIAL_SALARIES_inRange : Forall inRange INITIAL_SALARIES.
Proof. repeat constructor; cbn; lia. Qed.

Lemma applyFriction_range count a :
  0 <= Analysis.trustScore a <= 100 ->
  0 <= Analysis.trustScore (applyFriction count a) <= 100.
Proof.
  intros H. unfold applyFriction. cbn [Analysis.trustScore].
  destruct (3 <=? count)%nat, (2 <=? count)%nat; lia.
Qed.

Lemma approveEntry_range s : inRange s -> inRange (approveEntry s).
Proof. unfold inRange, approveEntry. cbn. lia. Qed.

Lemma handleSubmit_entry_range env form w w' e a c :
  handleSubmit env form w = (w', Submitted e a c) -> inRange e.
Proof.
  intros H. destruct (handleSubmit_score _ _ _ _ _ _ _ H)
    as (sal & _ & Hts & _ & _ & Ha).
  unfold inRange. rewrite Hts, Ha.
  apply applyFriction_range, detectOutliers_range.
Qed.

Lemma step_inRange w op :
  Forall inRange (salaries w) -> Forall inRange (salaries (step w op)).
Proof.
  intros Hw. destruct op as [env form|id|id action]; cbn [step].
  - rewrite handleSubmit_salaries.
    destruct (handleSubmit env form w) as [w' o] eqn:E. cbn [snd].
    destruct o as [|m|e a c]; try exact Hw.
    constructor; [|exact Hw]. eapply handleSubmit_entry_range; eauto.
  - cbn. unfold handleFlag. apply Forall_map_same; [|exact Hw].
    intros s Hs. destruct (Entry.id s =? id); exact Hs.
  - cbn. unfold moderate. apply Forall_map_same; [|exact Hw].
    intros s Hs. destruct (negb _); [exact Hs|].
    destruct (action =? "approve")%string; [apply approveEntry_range; exact Hs|].
    destruct (action =? "reject")%string; exact Hs.
Qed.

Lemma run_inRange ops w :
  Forall inRange (salaries w) -> Forall inRange (salaries (run ops w)).
Proof.
  revert w. induction ops as [|op ops IH]; intros w Hw; cbn; [exact Hw|].
  apply IH, step_inRange, Hw.
Qed.

(** C7.  The score computed by [detectOutliers] lies within 0 and 100
    for every candidate and corpus; the friction bonus and the
    moderator's approval keep a score within these bounds; the entry
    built by an accepted submission has its score within them; and in
    every state the application reaches from its seeded data, by
    submissions, community flags and moderator actions in any number
    and order, every entry has its score within them. *)
Theorem trustScore_within_bounds :
  (forall entry l, 0 <= Analysis.trustScore (detectOutliers entry l) <= 100) /\
  (forall count a, 0 <= Analysis.trustScore a <= 100 ->
                   0 <= Analysis.trustScore (applyFriction count a) <= 100) /\
  (forall s, inRange s -> inRange (approveEntry s)) /\
  (forall env form w w' e a c,
     handleSubmit env form w = (w', Submitted e a c) ->
     0 <= Entry.trustScore e <= 100) /\
  (forall ops s, In s (salaries (run ops initialWorld)) ->
                 0 <= Entry.trustScore s <= 100).
Proof.
  split; [exact detectOutliers_range|].
  split; [exact applyFriction_range|].
  split; [exact approveEntry_range|].
  split; [exact handleSubmit_entry_range|].
  intros ops s Hin.
  pose proof (run_inRange ops initialWorld INITIAL_SALARIES_inRange) as H.
  rewrite Forall_forall in H. apply H, Hin.
Qed.

Lemma trustScore_within_bounds_witness :
  In approvedDuplicate
     (salaries (run [Submit sampleEnv duplicateForm;
                     Moderate 1772400000000 "approve"] initialWorld)) /\
  0 <= Entry.trustScore approvedDuplicate <= 100.
Proof.
  assert (Hin : In approvedDuplicate
                  (salaries (run [Submit sampleEnv duplicateForm;
                                  Moderate 1772400000000 "approve"] initialWorld))).
  { vm_compute. left. reflexivity. }
  split; [exact Hin|].
  exact (proj2 (proj2 (proj2 (proj2 trustScore_within_bounds))) _ _ Hin).
Defined.

(* ------------------------------------------------------------------ *)
(** ** C10: who writes [verified] *)
(* ------------------------------------------------------------------ *)

(** C10.  Whatever the operation, the corpus after it is the corpus
    before it, entry by entry and in the same order, preceded by at
    most one new entry.  A new entry has [verified = false] and
    [flagCount = 0].  An old entry keeps its [verified] field unless the
    operation is the moderator's ["approve"] on its id, which sets it to
    [true]; nothing sets it to [false]. *)
Theorem verified_written_by_approve_only w op :
  exists new old',
    salaries (step w op) = new ++ old' /\
    (List.length new <= 1)%nat /\
    Forall (fun e => Entry.verified e = false /\ Entry.flagCount e = 0) new /\
    Forall2 (fun s s' =>
               Entry.id s' = Entry.id s /\
               (Entry.verified s' = Entry.verified s \/
                op = Moderate (Entry.id s) "approve") /\
               (op = Moderate (Entry.id s) "approve" -> Entry.verified s' = true))
            (salaries w) old'.
Proof.
  destruct op as [env form|id|id action]; cbn [step].
  - rewrite handleSubmit_salaries.
    destruct (handleSubmit env form w) as [w' o] eqn:E. cbn [snd].
    assert (Hold : Forall2 (fun s s' =>
               Entry.id s' = Entry.id s /\
               (Entry.verified s' = Entry.verified s \/
                Submit env form = Moderate (Entry.id s) "approve") /\
               (Submit env form = Moderate (Entry.id s) "approve" ->
                Entry.verified s' = true)) (salaries w) (salaries w)).
    { rewrite <- (map_id (salaries w)) at 2. apply Forall2_map_same.
      intros s _. repeat split; [left; reflexivity|discriminate]. }
    destruct o as [|m|e a c].
    + exists [], (salaries w). cbn. repeat split; auto.
    + exists [], (salaries w). cbn. repeat split; auto.
    + exists [e], (salaries w). cbn. repeat split; auto.
      apply handleSubmit_submitted in E.
      destruct E as (sal & dh & _ & _ & _ & He & _). subst e.
      constructor; [|constructor]. cbn. split; reflexivity.
  - exists [], (handleFlag id (salaries w)). cbn. repeat split; auto.
    unfold handleFlag. apply Forall2_map_same. intros s _.
    destruct (Entry.id s =? id); cbn;
      repeat split; try (left; reflexivity); discriminate.
  - exists [], (moderate id action (salaries w)). cbn. repeat split; auto.
    unfold moderate. apply Forall2_map_same. intros s _.
    destruct (Z.eqb_spec (Entry.id s) id) as [Hid|Hid]; cbn [negb].
    + destruct (String.eqb_spec action "approve") as [Ha|Ha].
      * subst. cbn. repeat split; auto.
      * destruct (action =? "reject")%string; cbn;
          repeat split; try (left; reflexivity);
          intros H; injection H as _ H; congruence.
    + repeat split; try (left; reflexivity).
      intros H; injection H as H _; congruence.
Qed.

Lemma verified_written_by_approve_only_witness :
  Entry.verified approvedDuplicate = true /\
  exists new old',
    salaries (step initialWorld (Submit sampleEnv plainForm)) = new ++ old' /\
    List.length new = 1%nat /\
    Forall (fun e => Entry.verified e = false /\ Entry.flagCount e = 0) new.
Proof.
  split; [reflexivity|].
  destruct (verified_written_by_approve_only initialWorld (Submit sampleEnv plainForm))
    as (new & old' & Heq & Hlen & Hnew & Hold).
  exists new, old'. split; [exact Heq|]. split; [|exact Hnew].
  apply Forall2_length in Hold.
  apply (f_equal (@List.length _)) in Heq. rewrite length_app in Heq.
  rewrite <- Hold in Heq.
  assert (H26 : List.length (salaries (step initialWorld (Submit sampleEnv plainForm)))
                = 26%nat) by (vm_compute; reflexivity).
  assert (H25 : List.length (salaries initialWorld) = 25%nat) by reflexivity.
  rewrite H26, H25 in Heq. lia.
Defined.

(* ------------------------------------------------------------------ *)
(** ** C3: community flags *)
(* ------------------------------------------------------------------ *)

Lemma status_is_true st x : status_is st x = true <-> st = Some x.
Proof.
  destruct st as [y|]; cbn; [|split; discriminate].
  destruct y, x; cbn; split; intros H; try reflexivity; try discriminate;
    injection H as H; discriminate.
Qed.

Lemma isFlaggable_true s :
  isFlaggable s = true <->
  Entry.status s = Some auto_approved \/ Entry.status s = None.
Proof.
  unfold isFlaggable. rewrite orb_true_iff, status_is_true.
  destruct (Entry.status s); split; intros [H|H]; auto; discriminate.
Qed.

(** C3 as stated fails: [handleFlag] called with the id of the seeded
    entry 24, whose status is [needs_review], is not refused and raises
    the flag count of that entry. *)
Lemma handleFlag_on_needs_review :
  exists s s',
    nth_error INITIAL_SALARIES 23 = Some s /\
    Entry.status s = Some needs_review /\
    nth_error (handleFlag (Entry.id s) INITIAL_SALARIES) 23 = Some s' /\
    Entry.flagCount s' = Entry.flagCount s + 1 /\
    s' <> s.
Proof.
  eexists. eexists.
  split; [reflexivity|]. split; [reflexivity|]. split; [reflexivity|].
  split; [reflexivity|]. discriminate.
Qed.

(** C3 (amended).  The status is tested where the flag button is
    rendered, not where the flag is counted.
    - [SalaryRow] renders the button, so that a click is possible, only
      for an entry whose status is [auto_approved] or absent; for an
      entry with any other status there is nothing to click.
    - The first click on a rendered button calls [handleFlag] with the
      id of the row; further clicks on the same row change nothing.
    - [handleFlag] itself refuses nothing: whatever their status, it
      adds exactly 1 to the flag count of the entries with the given id
      and changes no other field of them (status, trust score and
      [verified] in particular); entries with another id are unchanged. *)
Theorem community_flag_gated_by_row :
  (forall s showFlag flaggedRow onFlag l,
     SalaryRow_click s showFlag flaggedRow onFlag l <> None ->
     Entry.status s = Some auto_approved \/ Entry.status s = None) /\
  (forall s l,
     Entry.status s = Some auto_approved ->
     SalaryRow_click s true false (Some handleFlag) l
     = Some (true, handleFlag (Entry.id s) l)) /\
  (forall s showFlag onFlag l r,
     SalaryRow_click s showFlag true onFlag l = Some r -> r = (true, l)) /\
  (forall id l,
     Forall2 (fun s s' =>
                s' = withFlagCount
                       (Entry.flagCount s + (if Entry.id s =? id then 1 else 0)) s /\
                Entry.status s' = Entry.status s /\
                Entry.trustScore s' = Entry.trustScore s /\
                Entry.verified s' = Entry.verified s /\
                (Entry.id s <> id -> s' = s))
             l (handleFlag id l)).
Proof.
  repeat split.
  - intros s showFlag flaggedRow onFlag l H. apply isFlaggable_true.
    unfold SalaryRow_click in H. destruct (isFlaggable s); [reflexivity|].
    cbn in H. contradiction.
  - intros s l Hs. unfold SalaryRow_click.
    replace (isFlaggable s) with true; [reflexivity|].
    symmetry. apply isFlaggable_true. left. exact Hs.
  - intros s showFlag onFlag l r H. unfold SalaryRow_click in H.
    destruct (isFlaggable s && (showFlag || true)); [|discriminate].
    cbn in H. injection H as <-. reflexivity.
  - intros id l. unfold handleFlag. apply Forall2_map_same. intros s _.
    destruct (Z.eqb_spec (Entry.id s) id) as [Hid|Hid].
    + repeat split. intros H. contradiction.
    + assert (He : withFlagCount (Entry.flagCount s + 0) s = s).
      { rewrite Z.add_0_r. destruct s. reflexivity. }
      rewrite He. repeat split.
Qed.

Lemma community_flag_gated_by_row_witness :
  let s := seed 3 "Data Analyst" "CIB" "Banking & Finance" "Cairo" "1-3 years"
                15000 "2026-02-26" false 88 auto_approved [] 0 None absent absent absent in
  Entry.status s = Some auto_approved /\
  SalaryRow_click s true false (Some handleFlag) INITIAL_SALARIES
  = Some (true, handleFlag 3 INITIAL_SALARIES).
Proof.
  cbv zeta. split; [reflexivity|].
  apply (proj1 (proj2 community_flag_gated_by_row)). reflexivity.
Defined.

(* ------------------------------------------------------------------ *)
(** ** C6: moderator actions *)
(* ------------------------------------------------------------------ *)

Lemma queue_In filter_ l s :
  In s (queue filter_ l) ->
  In s l /\
  (Entry.status s = Some flagged \/ Entry.status s = Some needs_review \/
   (Entry.status s = Some auto_approved /\ 0 < Entry.flagCount s)).
Proof.
  unfold queue.
  assert (Hf : In s (filter (fun s => status_is (Entry.status s) flagged) l) ->
               In s l /\ Entry.status s = Some flagged).
  { rewrite filter_In, status_is_true. auto. }
  assert (Hn : In s (filter (fun s => status_is (Entry.status s) needs_review) l) ->
               In s l /\ Entry.status s = Some needs_review).
  { rewrite filter_In, status_is_true. auto. }
  assert (Hc : In s (filter (fun s => (0 <? Entry.flagCount s)
                       && status_is (Entry.status s) auto_approved) l) ->
               In s l /\ Entry.status s = Some auto_approved /\ 0 < Entry.flagCount s).
  { rewrite filter_In, andb_true_iff, status_is_true, Z.ltb_lt. tauto. }
  destruct (filter_ =? "flagged")%string; [intros H; apply Hf in H; tauto|].
  destruct (filter_ =? "needs_review")%string; [intros H; apply Hn in H; tauto|].
  destruct (filter_ =? "community")%string; [intros H; apply Hc in H; tauto|].
  rewrite !in_app_iff. intros [H|[H|H]];
    [apply Hf in H|apply Hn in H|apply Hc in H]; tauto.
Qed.

Lemma rowButtons_In s action :
  In action (rowButtons s) <->
  (Entry.status s <> Some rejected /\ Entry.status s <> Some auto_approved /\
   (action = "approve" \/ action = "reject")) \/
  (Entry.status s = Some auto_approved /\ 0 < Entry.flagCount s /\
   action = "reject").
Proof.
  unfold rowButtons. rewrite in_app_iff.
  destruct (Entry.status s) as [[]|]; cbn;
    destruct (Z.ltb_spec 0 (Entry.flagCount s)); cbn;
    intuition (try discriminate; try congruence; try lia; auto).
Qed.

Lemma NoDup_map_inj {A B : Type} (f : A -> B) (l : list A) (a b : A) :
  NoDup (map f l) -> In a l -> In b l -> f a = f b -> a = b.
Proof.
  induction l as [|x l IH]; cbn; intros Hnd Ha Hb Hf; [contradiction|].
  inversion Hnd as [|? ? Hx Hl]; subst.
  destruct Ha as [->|Ha], Hb as [->|Hb].
  - reflexivity.
  - exfalso. apply Hx. rewrite Hf. apply in_map. exact Hb.
  - exfalso. apply Hx. rewrite <- Hf. apply in_map. exact Ha.
  - apply IH; assumption.
Qed.

(** C6 as stated fails: [handleAction] with ["approve"] and the id of a
    rejected entry is not refused; the entry becomes [auto_approved]. *)
Lemma approve_revives_rejected :
  let l := moderate 21 "reject" INITIAL_SALARIES in
  exists s s',
    nth_error l 20 = Some s /\
    Entry.status s = Some rejected /\
    nth_error (fst (handleAction sampleEnv (Entry.id s) "approve" (l, []))) 20
    = Some s' /\
    Entry.status s' = Some auto_approved /\ Entry.verified s' = true /\
    s' <> s.
Proof.
  cbv zeta. eexists. eexists.
  split; [reflexivity|]. split; [reflexivity|]. split; [reflexivity|].
  split; [reflexivity|]. split; [reflexivity|]. discriminate.
Qed.

Lemma AdminPage_click_Some env filter_ i action st st' :
  AdminPage_click env filter_ i action st = Some st' ->
  exists s,
    nth_error (queue filter_ (fst st)) i = Some s /\ In s (fst st) /\
    st' = handleAction env (Entry.id s) action st /\
    clickAllowed s action.
Proof.
  unfold AdminPage_click.
  destruct (nth_error (queue filter_ (fst st)) i) as [s|] eqn:Hn; [|discriminate].
  destruct (existsb _ _) eqn:Hb; [|discriminate].
  intros H. injection H as <-. exists s.
  apply nth_error_In in Hn. apply queue_In in Hn. destruct Hn as [Hin Hst].
  repeat split; try assumption; try reflexivity.
  apply existsb_exists in Hb. destruct Hb as (b & Hb & Heq).
  apply String.eqb_eq in Heq. subst b. apply rowButtons_In in Hb.
  unfold clickAllowed.
  destruct Hb as [(Hr & Ha & Hact)|Hb]; [|right; exact Hb].
  left. split; [|exact Hact].
  destruct Hst as [H|[H|[H _]]]; auto. contradiction.
Qed.

(** C6 (amended).  The status is tested where the buttons are rendered,
    not where the action is applied.
    - [handleAction] refuses nothing: whatever their status, [rejected]
      included, ["approve"] gives the entries with the given id the
      status [auto_approved], [verified = true] and the score
      [max(score, 80)], and ["reject"] gives them the status [rejected];
      entries with another id are unchanged.
    - The admin page offers a button, so that a click is possible, only
      in a row of its queue, and there only ["approve"] and ["reject"]
      for an entry that is [flagged] or [needs_review], and only
      ["reject"] for an entry that is [auto_approved] with a positive
      flag count; each of these clicks is indeed possible.
    - Hence, when the ids of the corpus are pairwise distinct, a click
      changes the clicked entry only, and never an entry that is
      [rejected]. *)
Theorem moderation_gated_by_queue :
  (forall env id action st,
     Forall2 (fun s s' =>
                (Entry.id s <> id -> s' = s) /\
                (Entry.id s = id -> action = "approve" -> s' = approveEntry s) /\
                (Entry.id s = id -> action = "reject" -> s' = rejectEntry s))
             (fst st) (fst (handleAction env id action st))) /\
  (forall env filter_ i action st st',
     AdminPage_click env filter_ i action st = Some st' ->
     exists s,
       nth_error (queue filter_ (fst st)) i = Some s /\ In s (fst st) /\
       st' = handleAction env (Entry.id s) action st /\
       clickAllowed s action) /\
  (forall env filter_ i action st s,
     nth_error (queue filter_ (fst st)) i = Some s ->
     clickAllowed s action ->
     AdminPage_click env filter_ i action st
     = Some (handleAction env (Entry.id s) action st)) /\
  (forall env filter_ i action st st',
     NoDup (map Entry.id (fst st)) ->
     AdminPage_click env filter_ i action st = Some st' ->
     exists s0,
       nth_error (queue filter_ (fst st)) i = Some s0 /\
       Forall2 (fun s s' =>
                  (s <> s0 -> s' = s) /\
                  (Entry.status s = Some rejected -> s' = s))
               (fst st) (fst st')).
Proof.
  split; [|split; [|split]].
  - intros env id action st. cbn [handleAction fst]. unfold moderate.
    apply Forall2_map_same. intros s _.
    destruct (Z.eqb_spec (Entry.id s) id) as [Hid|Hid]; cbn [negb].
    + destruct (String.eqb_spec action "approve") as [Ha|Ha].
      * repeat split; auto; intros; subst; try contradiction; discriminate.
      * destruct (String.eqb_spec action "reject") as [Hr|Hr];
          repeat split; auto; intros; subst; contradiction.
    + repeat split; auto; intros; contradiction.
  - exact AdminPage_click_Some.
  - intros env filter_ i action st s Hn Hok. unfold AdminPage_click.
    rewrite Hn.
    replace (existsb (String.eqb action) (rowButtons s)) with true; [reflexivity|].
    symmetry. apply existsb_exists. exists action.
    split; [|apply String.eqb_refl].
    apply rowButtons_In. unfold clickAllowed in Hok.
    destruct Hok as [([H|H] & Ha)|Hok]; [left|left|right; exact Hok];
      rewrite H; repeat split; try discriminate; exact Ha.
  - intros env filter_ i action st st' Hnd Hc.
    destruct (AdminPage_click_Some _ _ _ _ _ _ Hc)
      as (s0 & Hn & Hin & -> & Hok).
    exists s0. split; [exact Hn|].
    cbn [handleAction fst]. unfold moderate. apply Forall2_map_same.
    intros s Hs.
    assert (Hne : s <> s0 -> Entry.id s <> Entry.id s0).
    { intros Hne Hid. apply Hne.
      apply (NoDup_map_inj Entry.id (fst st)); assumption. }
    assert (Hrej : Entry.status s = Some rejected -> s <> s0).
    { intros Hr ->. unfold clickAllowed in Hok. rewrite Hr in Hok.
      destruct Hok as [([H|H] & _)|(H & _)]; discriminate. }
    split.
    + intros H. apply Hne, Z.eqb_neq in H. rewrite H. reflexivity.
    + intros H. apply Hrej, Hne, Z.eqb_neq in H. rewrite H. reflexivity.
Qed.

Lemma moderation_gated_by_queue_witness :
  NoDup (map Entry.id INITIAL_SALARIES) /\
  exists st' s0,
    AdminPage_click sampleEnv "all_review" 0 "approve" (INITIAL_SALARIES, [])
    = Some st' /\
    nth_error (queue "all_review" INITIAL_SALARIES) 0 = Some s0 /\
    Entry.id s0 = 21 /\
    Forall2 (fun s s' =>
               (s <> s0 -> s' = s) /\ (Entry.status s = Some rejected -> s' = s))
            INITIAL_SALARIES (fst st').
Proof.
  assert (Hnd : NoDup (map Entry.id INITIAL_SALARIES)).
  { cbn. repeat (constructor; [cbn; intuition discriminate|]). constructor. }
  split; [exact Hnd|].
  assert (Hc : AdminPage_click sampleEnv "all_review" 0 "approve"
                 (INITIAL_SALARIES, [])
               = Some (handleAction sampleEnv 21 "approve" (INITIAL_SALARIES, [])))
    by reflexivity.
  exists (handleAction sampleEnv 21 "approve" (INITIAL_SALARIES, [])).
  destruct (proj2 (proj2 (proj2 moderation_gated_by_queue))
              sampleEnv "all_review" 0%nat "approve" (INITIAL_SALARIES, [])
              _ Hnd Hc) as (s0 & Hn & Hall).
  exists s0. split; [exact Hc|]. split; [exact Hn|]. split; [|exact Hall].
  cbn in Hn. injection Hn as <-. reflexivity.
Defined.

(* ------------------------------------------------------------------ *)
(** ** C5: the comparison shown after a submission *)
(* ------------------------------------------------------------------ *)

Lemma insertBySalary_count (p : Entry.t -> bool) x l :
  List.length (filter p (insertBySalary x l)) = List.length (filter p (x :: l)).
Proof.
  induction l as [|y l IH]; [reflexivity|].
  cbn [insertBySalary]. destruct (Entry.salary y <? Entry.salary x); [|reflexivity].
  cbn [filter] in *. destruct (p y), (p x); cbn [List.length] in *; lia.
Qed.

(** Sorting does not change how many entries pass a test. *)
Lemma sortBySalary_count (p : Entry.t -> bool) l :
  List.length (filter p (sortBySalary l)) = List.length (filter p l).
Proof.
  induction l as [|x l IH]; [reflexivity|].
  cbn [sortBySalary]. rewrite insertBySalary_count. cbn [filter].
  destruct (p x); cbn [List.length]; rewrite IH; reflexivity.
Qed.

Lemma filter_idem {A : Type} (p : A -> bool) (l : list A) :
  filter p (filter p l) = filter p l.
Proof.
  induction l as [|x l IH]; [reflexivity|].
  cbn [filter]. destruct (p x) eqn:E; [|exact IH].
  cbn [filter]. rewrite E, IH. reflexivity.
Qed.

Lemma computeComparison_similar form sal l1 l2 :
  similarTo (Form.industry form) l1 = similarTo (Form.industry form) l2 ->
  computeComparison form sal l1 = computeComparison form sal l2.
Proof. intros H. unfold computeComparison. rewrite H. reflexivity. Qed.

Lemma computeComparison_fields form sal l :
  let c := computeComparison form sal l in
  let similar := similarTo (Form.industry form) l in
  let n := List.length similar in
  let below := List.length (filter (fun s => Entry.salary s <=? sal) similar) in
  Comparison.count c = n /\
  Comparison.avg c
  = (if (n =? 0)%nat then Z2F sal
     else Math_round
            (fold_left (fun a s => a + Z2F (Entry.salary s)) similar 0
             / Z2F (Z.of_nat n))%float) /\
  Comparison.diff c
  = Math_round ((Z2F sal - Comparison.avg c) / Comparison.avg c * 100)%float /\
  Comparison.percentile c
  = (if (n =? 0)%nat then 50%float
     else Math_round (Z2F (Z.of_nat below) / Z2F (Z.of_nat n) * 100)%float).
Proof.
  cbv zeta. unfold computeComparison, avgOr, percentDiff, percentileOf, mean, lengthF.
  cbn [Comparison.count Comparison.avg Comparison.diff Comparison.percentile].
  rewrite sortBySalary_count. repeat split.
Qed.

(** C5 as stated fails: once a moderator has rejected the seeded
    entries 21 and 24, a Technology submission is still compared with
    all eleven Technology entries, the two rejected ones included; nine
    are not rejected, and their average is another one. *)
Lemma comparison_counts_rejected :
  let w := run [Moderate 21 "reject"; Moderate 24 "reject"] initialWorld in
  let notRejected :=
    sameIndustryNotRejected (Form.industry techForm) (salaries w) in
  exists w' e a c,
    handleSubmit sampleEnv techForm w = (w', Submitted e a c) /\
    c = Comparison.mk 48727 (-32) 11 36 /\
    List.length notRejected = 9%nat /\
    computeComparison techForm 33000 notRejected = Comparison.mk 36778 (-10) 9 44.
Proof.
  cbv zeta.
  destruct (handleSubmit sampleEnv techForm
              (run [Moderate 21 "reject"; Moderate 24 "reject"] initialWorld))
    as [w' o] eqn:E.
  destruct o as [| |e a c]; try (vm_compute in E; discriminate E).
  exists w', e, a, c. split; [reflexivity|].
  split; [vm_compute in E; injection E as _ _ _ <-; reflexivity|].
  split; vm_compute; reflexivity.
Qed.

(** C5 (amended).  The comparison returned with an accepted submission
    is computed against the entries of the corpus, as it was before the
    submission, that share the form's industry and whose status is not
    [flagged]; rejected entries are among them.  Over these entries,
    [count] is their number, [avg] their mean salary in double
    precision, rounded (the submitted salary when there are none),
    [diff] the rounded percentage by which the submitted salary departs
    from [avg], and [percentile] the rounded percentage of them that earn
    no more than the submitted salary (50 when there are none).
    Entries of another industry and flagged entries have no influence
    on it.  Computing it changes nothing: the corpus after the run is
    the corpus before it with the new entry in front, and the window is
    the pruned window with the time stamp of the run. *)
Theorem comparison_against_unflagged_industry env form w w' e a c :
  handleSubmit env form w = (w', Submitted e a c) ->
  exists sal,
    parseInt (Form.salary form) = Some sal /\
    let similar :=
      filter (fun s => (Entry.industry s =? Form.industry form)%string
                       && negb (status_is (Entry.status s) flagged))
             (salaries w) in
    let n := List.length similar in
    let below := List.length (filter (fun s => Entry.salary s <=? sal) similar) in
    Comparison.count c = n /\
    Comparison.avg c
    = (if (n =? 0)%nat then Z2F sal
       else Math_round
              (fold_left (fun a s => a + Z2F (Entry.salary s)) similar 0
               / Z2F (Z.of_nat n))%float) /\
    Comparison.diff c
    = Math_round ((Z2F sal - Comparison.avg c) / Comparison.avg c * 100)%float /\
    Comparison.percentile c
    = (if (n =? 0)%nat then 50%float
       else Math_round (Z2F (Z.of_nat below) / Z2F (Z.of_nat n) * 100)%float) /\
    (forall s, In s (salaries w) ->
               Entry.industry s = Form.industry form ->
               Entry.status s = Some rejected -> In s similar) /\
    (forall l, similarTo (Form.industry form) l = similar ->
               computeComparison form sal l = c) /\
    computeComparison form sal similar = c /\
    salaries w' = e :: salaries w /\
    _submissions w' = recent env (recent env (_submissions w) ++ [Env.now env]).
Proof.
  intros H. apply handleSubmit_submitted in H.
  destruct H as (sal & dh & Hv & _ & _ & _ & Hc & Hs & Hw & _).
  exists sal. split; [apply Hv|]. cbv zeta.
  fold (similarTo (Form.industry form) (salaries w)).
  subst c.
  destruct (computeComparison_fields form sal (salaries w))
    as (F1 & F2 & F3 & F4).
  repeat split; try assumption.
  - intros s Hin Hind Hst. unfold similarTo. apply filter_In.
    split; [exact Hin|]. rewrite Hind, String.eqb_refl, Hst. reflexivity.
  - intros l Hl. apply computeComparison_similar. exact Hl.
  - apply computeComparison_similar. unfold similarTo. apply filter_idem.
Qed.

Lemma comparison_against_unflagged_industry_witness :
  exists w' e a c,
    handleSubmit sampleEnv techForm initialWorld = (w', Submitted e a c) /\
    Comparison.count c = 10%nat /\ Comparison.avg c = 41600%float /\
    salaries w' = e :: INITIAL_SALARIES.
Proof.
  destruct (handleSubmit sampleEnv techForm initialWorld) as [w' o] eqn:E.
  destruct o as [| |e a c]; try (vm_compute in E; discriminate E).
  exists w', e, a, c. split; [reflexivity|].
  destruct (comparison_against_unflagged_industry _ _ _ _ _ _ _ E)
    as (sal & _ & Hcount & Havg & _ & _ & _ & _ & _ & Hs & _).
  split; [rewrite Hcount; vm_compute; reflexivity|].
  split; [rewrite Havg; vm_compute; reflexivity|exact Hs].
Defined.

(* ------------------------------------------------------------------ *)
(** ** C4: the divisor of the z-score *)
(* ------------------------------------------------------------------ *)

Lemma Qgtb_true q p : Qgtb q p = true <-> (p < q)%Q.
Proof.
  unfold Qgtb. rewrite negb_true_iff. split.
  - intros H. apply Qnot_le_lt. intros Hle. apply Qle_bool_iff in Hle. congruence.
  - intros H. destruct (Qle_bool q p) eqn:E; [|reflexivity].
    apply Qle_bool_iff in E. exfalso. revert E. apply Qlt_not_le, H.
Qed.

(** The two z-score flags are pushed by the z-score tests only. *)
Lemma detectOutliers_zflags entry l :
  let same := filter (fun s => (Entry.industry s =? Candidate.industry entry)%string) l in
  let sal := Candidate.salary entry in
  (In (Flag.mk extreme_outlier high) (Analysis.flags (detectOutliers entry l)) <->
   (3 <=? List.length same)%nat && (3 <? zScore sal same)%float = true) /\
  (In (Flag.mk outlier medium) (Analysis.flags (detectOutliers entry l)) <->
   (3 <=? List.length same)%nat && negb (3 <? zScore sal same)%float
   && (2.5 <? zScore sal same)%float = true).
Proof.
  cbv zeta. unfold detectOutliers.
  destruct (match expMap _ with Some p => p | None => _ end) as [expMin expMax].
  cbn [Analysis.flags].
  destruct (3 <=? _)%nat; cbn [andb];
    [destruct (3 <? zScore _ _)%float; cbn [andb negb];
     [|destruct (2.5 <? zScore _ _)%float]|];
    split_tests; unfold penalise; cbn [fst snd app In];
    (split; split; intros H; try discriminate H; auto;
     repeat (destruct H as [H|H]; try discriminate H); try contradiction).
Qed.




(* ================================================================== *)
(** * Properties of the rest of the application *)
(* ================================================================== *)

(* ------------------------------------------------------------------ *)
(** ** The three outcomes of a submission *)
(* ------------------------------------------------------------------ *)

Lemma validSalary_unique form sal1 sal2 :
  validSalary form sal1 -> validSalary form sal2 -> sal1 = sal2.
Proof.
  intros (_ & _ & _ & H1 & _) (_ & _ & _ & H2 & _). congruence.
Qed.

(** The three outcomes of [handleSubmit], with what each one tells
    about the form, the window and the state. *)
Lemma handleSubmit_three_ways env form w :
  match snd (handleSubmit env form w) with
  | Invalid =>
      (forall sal, ~ validSalary form sal) /\
      fst (handleSubmit env form w) = w
  | Blocked m =>
      (exists sal, validSalary form sal) /\
      (5 <= List.length (recent env (_submissions w)))%nat /\
      m = Some "Too many submissions. Try again in an hour." /\
      fst (handleSubmit env form w)
      = mkWorld (_hash w) (recent env (_submissions w)) (salaries w) (trace w)
  | Submitted e a c =>
      (exists sal, validSalary form sal) /\
      (List.length (recent env (_submissions w)) < 5)%nat
  end.
Proof.
  unfold handleSubmit, validSalary.
  destruct (truthy (Form.title form)) eqn:Ht; cbn [negb orb];
    [|split; [intros sal (H & _); discriminate H|reflexivity]].
  destruct (truthy (Form.company form)) eqn:Hc; cbn [negb orb];
    [|split; [intros sal (_ & H & _); discriminate H|reflexivity]].
  destruct (truthy (Form.salary form)) eqn:Hs; cbn [negb orb];
    [|split; [intros sal (_ & _ & H & _); discriminate H|reflexivity]].
  destruct (parseInt (Form.salary form)) as [sal|] eqn:Hp;
    [|split; [intros sal (_ & _ & _ & H & _); discriminate H|reflexivity]].
  destruct (Z.leb_spec sal 0) as [Hle|Hlt];
    [split; [intros s (_ & _ & _ & H & H0); injection H as <-; lia|reflexivity]|].
  assert (Hv : exists s, true = true /\ true = true /\ true = true /\
                         Some sal = Some s /\ 0 < s)
    by (exists sal; repeat split; assumption).
  unfold checkRateLimit, getRecentCount.
  destruct (Nat.leb_spec 5 (List.length (recent env (_submissions w)))) as [H5|H5].
  - cbn. repeat split; try assumption.
  - destruct (3 <=? _)%nat; cbn [RateCheck.blocked];
      destruct (generate env _) as [w3 dh]; cbn [snd]; split; assumption.
Qed.

(** X1.  [handleSubmit] has three outcomes, decided by the form and by
    the number of time stamps of the window that are less than an hour
    old.  It returns without any effect, not even the pruning of the
    window, exactly when a required field is empty or the salary text
    does not start with a positive integer.  Otherwise it is blocked,
    with the hard-limit message, exactly when five or more time stamps
    are recent; the window is then pruned and nothing else changes.
    Otherwise the submission goes through; three or four recent time
    stamps (the warning) do not stop it. *)
Theorem handleSubmit_outcome env form w :
  let w' := fst (handleSubmit env form w) in
  let o := snd (handleSubmit env form w) in
  let n := List.length (recent env (_submissions w)) in
  (o = Invalid <-> forall sal, ~ validSalary form sal) /\
  (o = Invalid -> w' = w) /\
  ((exists m, o = Blocked m) <->
   (exists sal, validSalary form sal) /\ (5 <= n)%nat) /\
  (forall m, o = Blocked m ->
     m = Some "Too many submissions. Try again in an hour." /\
     w' = mkWorld (_hash w) (recent env (_submissions w)) (salaries w) (trace w)) /\
  ((exists e a c, o = Submitted e a c) <->
   (exists sal, validSalary form sal) /\ (n < 5)%nat).
Proof.
  cbv zeta. pose proof (handleSubmit_three_ways env form w) as H.
  destruct (handleSubmit env form w) as [w' o]. cbn [fst snd] in *.
  split; [|split; [|split; [|split]]].
  - split.
    + intros ->. apply H.
    + intros Hn. destruct o as [|m|e a c]; [reflexivity| |];
        destruct H as ([sal Hv] & _); exfalso; apply (Hn sal Hv).
  - intros ->. apply H.
  - split.
    + intros (m & ->). split; apply H.
    + intros ([sal Hv] & H5). destruct o as [|m|e a c].
      * exfalso. apply (proj1 H sal Hv).
      * exists m. reflexivity.
      * exfalso. destruct H as [_ H]. lia.
  - intros m ->. split; apply H.
  - split.
    + intros (e & a & c & ->). exact H.
    + intros ([sal Hv] & Hlt). destruct o as [|m|e a c].
      * exfalso. apply (proj1 H sal Hv).
      * exfalso. destruct H as (_ & H & _). lia.
      * exists e, a, c. reflexivity.
Qed.

(* ------------------------------------------------------------------ *)
(** ** The submission window *)
(* ------------------------------------------------------------------ *)

Lemma recent_length_le env l : (List.length (recent env l) <= List.length l)%nat.
Proof. apply filter_length_le. Qed.

Lemma handleSubmit_window env form w :
  (snd (handleSubmit env form w) = Invalid /\
   fst (handleSubmit env form w) = w) \/
  ((exists m, snd (handleSubmit env form w) = Blocked m) /\
   _submissions (fst (handleSubmit env form w)) = recent env (_submissions w) /\
   trace (fst (handleSubmit env form w)) = trace w) \/
  ((exists e a c,
      snd (handleSubmit env form w) = Submitted e a c /\
      trace (fst (handleSubmit env form w))
      = trace w ++ [RecordedSubmission (Env.now env); Appended e]) /\
   (List.length (recent env (_submissions w)) < 5)%nat /\
   _submissions (fst (handleSubmit env form w))
   = recent env (recent env (_submissions w) ++ [Env.now env])).
Proof.
  pose proof (handleSubmit_three_ways env form w) as H.
  destruct (handleSubmit env form w) as [w' o] eqn:E.
  cbn [fst snd] in *. destruct o as [|m|e a c].
  - left. split; [reflexivity|apply H].
  - right. left. destruct H as (_ & _ & _ & ->). cbn. eauto.
  - right. right.
    destruct (handleSubmit_submitted _ _ _ _ _ _ _ E)
      as (sal & dh & _ & Hlt & _ & _ & _ & Hs & Hw & Htr).
    split; [exists e, a, c; auto|]. auto.
Qed.

Lemma step_window_le w op :
  (List.length (_submissions w) <= 5)%nat ->
  (List.length (_submissions (step w op)) <= 5)%nat.
Proof.
  intros H. destruct op as [env form|id|id action]; cbn [step]; try exact H.
  destruct (handleSubmit_window env form w) as [[_ E]|[(_ & E & _)|(_ & Hlt & E)]];
    rewrite E.
  - exact H.
  - etransitivity; [apply recent_length_le|exact H].
  - etransitivity; [apply recent_length_le|].
    rewrite length_app. cbn. lia.
Qed.

(** X2.  The window never holds more than five time stamps, in any
    state the application reaches, whatever times the submissions read
    (also when the clock is set back between them). *)
Theorem window_at_most_five ops :
  (List.length (_submissions (run ops initialWorld)) <= 5)%nat.
Proof.
  assert (H : forall w, (List.length (_submissions w) <= 5)%nat ->
                        (List.length (_submissions (run ops w)) <= 5)%nat).
  { induction ops as [|op ops IH]; intros w Hw; cbn; [exact Hw|].
    apply IH, step_window_le, Hw. }
  apply H. cbn. lia.
Qed.

Lemma recent_recent env1 env2 l :
  Env.now env1 <= Env.now env2 ->
  recent env2 (recent env1 l) = recent env2 l.
Proof.
  intros Hle. unfold recent. induction l as [|t l IH]; [reflexivity|].
  cbn [filter].
  destruct (Z.ltb_spec (Env.now env1 - t) 3600000) as [H1|H1].
  - cbn [filter]. rewrite IH. reflexivity.
  - rewrite IH.
    destruct (Z.ltb_spec (Env.now env2 - t) 3600000) as [H2|H2];
      [lia|reflexivity].
Qed.

Lemma recordedTimes_app tr1 tr2 :
  recordedTimes (tr1 ++ tr2) = recordedTimes tr1 ++ recordedTimes tr2.
Proof.
  induction tr1 as [|[t|e] tr1 IH]; cbn; [reflexivity| |exact IH].
  rewrite IH. reflexivity.
Qed.

Lemma step_windowExact t w op :
  windowExact t w -> clockFrom t [op] = true ->
  windowExact (lastClock t [op]) (step w op).
Proof.
  intros Hw Hc. destruct op as [env form|id|id action]; cbn in *; try exact Hw.
  rewrite andb_true_r in Hc. apply Z.leb_le in Hc.
  intros env' Hle.
  destruct (handleSubmit_window env form w)
    as [[_ E]|[(_ & E & Etr)|((e & a & c & _ & Etr) & _ & E)]].
  - rewrite E. apply Hw. lia.
  - rewrite E, Etr, recent_recent by exact Hle. apply Hw. lia.
  - rewrite E, Etr, recordedTimes_app.
    rewrite recent_recent by exact Hle.
    unfold recent at 1 3. rewrite !filter_app.
    fold (recent env' (recent env (_submissions w))).
    fold (recent env' (recordedTimes (trace w))).
    rewrite recent_recent by exact Hle. rewrite (Hw env') by lia.
    reflexivity.
Qed.

Lemma run_windowExact ops t w :
  windowExact t w -> clockFrom t ops = true ->
  windowExact (lastClock t ops) (run ops w).
Proof.
  revert t w. induction ops as [|op ops IH]; intros t w Hw Hc; [exact Hw|].
  cbn [run fold_left]. fold (run ops (step w op)).
  assert (Hc1 : clockFrom t [op] = true /\
                clockFrom (lastClock t [op]) ops = true).
  { destruct op as [env form|id|id action]; cbn in *; auto.
    apply andb_true_iff in Hc. destruct Hc as [H1 H2].
    rewrite H1. auto. }
  destruct Hc1 as [Hc1 Hc2].
  replace (lastClock t (op :: ops)) with (lastClock (lastClock t [op]) ops)
    by (destruct op; reflexivity).
  apply IH; [|exact Hc2]. apply step_windowExact; assumption.
Qed.

(** X3.  The limit is a true sliding window.  When the clock does not
    run backwards, pruning the window loses nothing that matters: at
    any later time, the time stamps of the window that are less than an
    hour old are exactly the time stamps of the submissions that went
    through less than an hour before, in order.  So a valid submission
    is blocked exactly when five or more submissions went through
    during the preceding hour. *)
Theorem rate_limit_counts_last_hour t0 ops env :
  clockFrom t0 ops = true ->
  lastClock t0 ops <= Env.now env ->
  let w := run ops initialWorld in
  recent env (_submissions w) = recent env (recordedTimes (trace w)) /\
  forall form sal,
    validSalary form sal ->
    (isBlocked (snd (handleSubmit env form w)) = true <->
     (5 <= List.length (recent env (recordedTimes (trace w))))%nat).
Proof.
  intros Hc Hle. cbv zeta.
  assert (Hex : recent env (_submissions (run ops initialWorld))
                = recent env (recordedTimes (trace (run ops initialWorld)))).
  { apply (run_windowExact ops t0 initialWorld); [|exact Hc|exact Hle].
    intros env' _. reflexivity. }
  split; [exact Hex|]. intros form sal Hv. rewrite <- Hex.
  pose proof (handleSubmit_three_ways env form (run ops initialWorld)) as H.
  destruct (snd (handleSubmit env form (run ops initialWorld))) as [|m|e a c];
    cbn [isBlocked].
  - exfalso. apply (proj1 H sal Hv).
  - split; [intros _; apply H|reflexivity].
  - split; [discriminate|]. destruct H as [_ H]. lia.
Qed.

Lemma rate_limit_counts_last_hour_witness :
  let five := [Submit sampleEnv plainForm; Submit sampleEnv plainForm;
               Submit sampleEnv plainForm; Submit sampleEnv plainForm;
               Submit sampleEnv plainForm] in
  clockFrom 0 five = true /\
  lastClock 0 five <= Env.now sampleEnv /\
  isBlocked (snd (handleSubmit sampleEnv plainForm (run five initialWorld))) = true.
Proof.
  cbv zeta. split; [reflexivity|]. split; [vm_compute; discriminate|].
  refine (proj2 (proj2 (rate_limit_counts_last_hour 0 _ sampleEnv _ _)
                   plainForm 21000 _) _).
  - reflexivity.
  - vm_compute. discriminate.
  - repeat split.
  - vm_compute. apply le_n.
Defined.

(* ------------------------------------------------------------------ *)
(** ** The device fingerprint *)
(* ------------------------------------------------------------------ *)

Lemma toInt32_range z : - 2 ^ 31 <= toInt32 z < 2 ^ 31.
Proof.
  unfold toInt32. pose proof (Z.mod_pos_bound z (2 ^ 32) eq_refl) as H.
  destruct (Z.leb_spec (2 ^ 31) (z mod 2 ^ 32)); lia.
Qed.

Lemma toInt32_mod z : toInt32 z mod 2 ^ 32 = z mod 2 ^ 32.
Proof.
  unfold toInt32. destruct (Z.leb_spec (2 ^ 31) (z mod 2 ^ 32)).
  - rewrite Zminus_mod, Z_mod_same_full, Z.sub_0_r, !Z.mod_mod by lia.
    reflexivity.
  - apply Z.mod_mod. lia.
Qed.

Lemma toInt32_congr a b : a mod 2 ^ 32 = b mod 2 ^ 32 -> toInt32 a = toInt32 b.
Proof. intros H. unfold toInt32. rewrite H. reflexivity. Qed.

Lemma hashLoop_polyHash raw h1 h2 :
  h1 mod 2 ^ 32 = h2 mod 2 ^ 32 ->
  hashLoop raw h1 mod 2 ^ 32 = polyHash raw h2 mod 2 ^ 32.
Proof.
  revert h1 h2. induction raw as [|c r IH]; intros h1 h2 H; cbn; [exact H|].
  apply IH. rewrite toInt32_mod.
  set (k := Z.of_nat (nat_of_ascii c)).
  rewrite Zplus_mod, Zminus_mod, toInt32_mod.
  rewrite <- Zminus_mod, <- Zplus_mod.
  replace (h1 * 32 - h1 + k) with (31 * h1 + k) by ring.
  rewrite Zplus_mod, Zmult_mod, H, <- Zmult_mod, <- Zplus_mod. reflexivity.
Qed.

Lemma hashLoop_range raw h :
  - 2 ^ 31 <= h < 2 ^ 31 -> - 2 ^ 31 <= hashLoop raw h < 2 ^ 31.
Proof.
  revert h. induction raw as [|c r IH]; intros h H; cbn; [exact H|].
  apply IH, toInt32_range.
Qed.

Lemma digitValue_digit36 d :
  0 <= d < 36 -> digitValue (digit36 d) = Some d.
Proof.
  intros H. unfold digit36, digitValue.
  destruct (Z.ltb_spec d 10).
  - rewrite nat_ascii_embedding by lia.
    replace ((48 <=? 48 + Z.to_nat d)%nat && (48 + Z.to_nat d <=? 57)%nat) with true.
    + f_equal. lia.
    + symmetry. apply andb_true_iff. split; apply Nat.leb_le; lia.
  - rewrite nat_ascii_embedding by lia.
    replace ((48 <=? 87 + Z.to_nat d)%nat && (87 + Z.to_nat d <=? 57)%nat) with false.
    + replace ((97 <=? 87 + Z.to_nat d)%nat && (87 + Z.to_nat d <=? 122)%nat) with true.
      * f_equal. lia.
      * symmetry. apply andb_true_iff. split; apply Nat.leb_le; lia.
    + symmetry. apply andb_false_iff. right. apply Nat.leb_gt. lia.
Qed.

Lemma string_app_assoc (a b c : string) :
  ((a ++ b) ++ c = a ++ (b ++ c))%string.
Proof. induction a as [|x a IH]; cbn; [reflexivity|]. rewrite IH. reflexivity. Qed.

Lemma string_app_length (a b : string) :
  String.length (a ++ b)%string = (String.length a + String.length b)%nat.
Proof. induction a as [|x a IH]; cbn; [reflexivity|]. rewrite IH. reflexivity. Qed.

(** [toString36_aux] writes the base-36 digits of [n] in front of [acc];
    read back in radix 36, they give [n]. *)
Lemma toString36_aux_digits f :
  forall n acc,
    0 <= n < 36 ^ Z.of_nat (S f) ->
    exists d,
      toString36_aux (S f) n acc = (d ++ acc)%string /\
      (1 <= String.length d <= S f)%nat /\
      forall rest seen a,
        parseDigits 36 (d ++ rest)%string seen a
        = parseDigits 36 rest true (a * 36 ^ Z.of_nat (String.length d) + n).
Proof.
  induction f as [|f IH]; intros n acc Hn;
    cbn [toString36_aux];
    assert (Hm : 0 <= n mod 36 < 36) by (apply Z.mod_pos_bound; lia);
    pose proof (digitValue_digit36 _ Hm) as Hd;
    pose proof (Z.div_mod n 36 ltac:(lia)) as Hdm;
    assert (Hone : forall rest seen a,
              parseDigits 36 (String (digit36 (n mod 36)) rest) seen a
              = parseDigits 36 rest true (a * 36 + n mod 36))
      by (intros rest seen a; cbn [parseDigits]; rewrite Hd;
          replace (n mod 36 <? 36) with true
            by (symmetry; apply Z.ltb_lt; lia); reflexivity);
    destruct (Z.eqb_spec (n / 36) 0) as [H0|H0].
  - exists (String (digit36 (n mod 36)) EmptyString). cbn [append String.length].
    split; [reflexivity|]. split; [lia|].
    intros rest seen a. rewrite Hone. f_equal.
    change (36 ^ Z.of_nat 1) with 36. lia.
  - exfalso. change (36 ^ Z.of_nat 1) with 36 in Hn.
    apply H0. apply Z.div_small. lia.
  - exists (String (digit36 (n mod 36)) EmptyString). cbn [append String.length].
    split; [reflexivity|]. split; [lia|].
    intros rest seen a. rewrite Hone. f_equal.
    change (36 ^ Z.of_nat 1) with 36. lia.
  - assert (Hq : 0 <= n / 36 < 36 ^ Z.of_nat (S f)).
    { split; [apply Z.div_pos; lia|].
      apply Z.div_lt_upper_bound; [lia|].
      rewrite (Nat2Z.inj_succ (S f)), Z.pow_succ_r in Hn by lia. lia. }
    destruct (IH (n / 36) (String (digit36 (n mod 36)) acc) Hq)
      as (d & Hd1 & Hd2 & Hd3).
    exists (d ++ String (digit36 (n mod 36)) EmptyString)%string.
    split; [cbn [toString36_aux] in Hd1; rewrite Hd1, string_app_assoc; reflexivity|].
    rewrite string_app_length. cbn [String.length].
    split; [lia|].
    intros rest seen a. rewrite string_app_assoc. cbn [append].
    rewrite Hd3, Hone. f_equal.
    replace (Z.of_nat (String.length d + 1)) with (Z.succ (Z.of_nat (String.length d)))
      by lia.
    rewrite Z.pow_succ_r by lia. lia.
Qed.

Lemma toString36_roundtrip n :
  0 <= n < 36 ^ 7 ->
  (1 <= String.length (toString36 n) <= 7)%nat /\
  parseDigits 36 (toString36 n) false 0 = Some n.
Proof.
  intros Hn. unfold toString36.
  destruct (toString36_aux_digits 6 n EmptyString Hn) as (d & H1 & H2 & H3).
  rewrite H1.
  assert (E : (d ++ EmptyString)%string = d).
  { clear. induction d as [|x d IH]; cbn; [reflexivity|]. rewrite IH. reflexivity. }
  split; [rewrite E; exact H2|].
  rewrite H3. cbn [parseDigits]. f_equal; lia.
Qed.

Lemma toString36_truthy n : 0 <= n < 36 ^ 7 -> truthy (toString36 n) = true.
Proof.
  intros Hn. destruct (toString36_roundtrip n Hn) as [[H _] _].
  destruct (toString36 n); [cbn in H; lia|reflexivity].
Qed.

Lemma generate_spec env w :
  exists h,
    generate env w = (mkWorld (Some h) (_submissions w) (salaries w) (trace w), h) /\
    truthy h = true /\
    (forall h0, _hash w = Some h0 -> truthy h0 = true -> h = h0) /\
    ((forall h0, _hash w = Some h0 -> truthy h0 = false) ->
     h = toString36 (Z.abs (hashLoop (Env.raw env) 0))).
Proof.
  assert (Hfresh : truthy (toString36 (Z.abs (hashLoop (Env.raw env) 0))) = true).
  { apply toString36_truthy.
    pose proof (hashLoop_range (Env.raw env) 0 ltac:(lia)). lia. }
  unfold generate. destruct (_hash w) as [h0|] eqn:E.
  - destruct (truthy h0) eqn:T.
    + exists h0. split; [destruct w; cbn in *; subst; reflexivity|].
      split; [exact T|]. split; [intros h1 H1 _; congruence|].
      intros H. specialize (H h0 eq_refl). congruence.
    + eexists. split; [reflexivity|]. split; [exact Hfresh|].
      split; [intros h1 H1 T1; congruence|reflexivity].
  - eexists. split; [reflexivity|]. split; [exact Hfresh|].
    split; [discriminate|reflexivity].
Qed.

(** X4.  The fingerprint is computed at most once.  Once [generate] has
    returned, every later call returns the same string and changes
    nothing, whatever the browser attributes have become.  A fresh
    fingerprint is the base-36 writing, in one to seven digits, of the
    absolute value of a signed 32-bit hash: read back in radix 36 it
    gives that value, and the hash is the polynomial hash with
    multiplier 31 of the attribute string, reduced modulo 2^32 only
    once. *)
Theorem fingerprint_computed_once env1 env2 w :
  generate env2 (fst (generate env1 w)) = generate env1 w /\
  (_hash w = None ->
   let h := hashLoop (Env.raw env1) 0 in
   snd (generate env1 w) = toString36 (Z.abs h) /\
   - 2 ^ 31 <= h < 2 ^ 31 /\
   h mod 2 ^ 32 = polyHash (Env.raw env1) 0 mod 2 ^ 32 /\
   (1 <= String.length (snd (generate env1 w)) <= 7)%nat /\
   parseDigits 36 (snd (generate env1 w)) false 0 = Some (Z.abs h)).
Proof.
  split.
  - destruct (generate_spec env1 w) as (h & E & T & _). rewrite E. cbn [fst].
    unfold generate. cbn [_hash]. rewrite T. reflexivity.
  - intros Hn. cbv zeta.
    destruct (generate_spec env1 w) as (h & E & _ & _ & Hf).
    rewrite E. cbn [snd].
    rewrite Hf by (intros h0 H0; congruence).
    pose proof (hashLoop_range (Env.raw env1) 0 ltac:(lia)) as Hr.
    split; [reflexivity|]. split; [exact Hr|].
    split; [apply hashLoop_polyHash; reflexivity|].
    apply toString36_roundtrip. lia.
Qed.

Lemma fingerprint_computed_once_witness :
  _hash initialWorld = None /\
  snd (generate sampleEnv initialWorld) = "27ae9k" /\
  parseDigits 36 "27ae9k" false 0 = Some (Z.abs (hashLoop (Env.raw sampleEnv) 0)).
Proof.
  split; [reflexivity|]. split; [reflexivity|].
  exact (proj2 (proj2 (proj2 (proj2
           (proj2 (fingerprint_computed_once sampleEnv sampleEnv initialWorld)
              eq_refl))))).
Defined.

Lemma handleSubmit_hash env form w w' e a c :
  handleSubmit env form w = (w', Submitted e a c) ->
  exists h,
    _hash w' = Some h /\ truthy h = true /\ Entry.deviceHash e = Some h /\
    (forall h0, _hash w = Some h0 -> truthy h0 = true -> h = h0).
Proof.
  unfold handleSubmit.
  destruct (negb _ || negb _ || negb _); [discriminate|].
  destruct (parseInt (Form.salary form)) as [sal|]; [|discriminate].
  destruct (sal <=? 0); [discriminate|].
  pose proof (checkRateLimit_world env w) as Hw1.
  destruct (checkRateLimit env w) as [w1 rc]. cbn [fst] in Hw1.
  destruct (RateCheck.blocked rc); [discriminate|].
  destruct (generate_spec env (recordSubmission env w1)) as (h & E & T & Hold & _).
  rewrite E. intros H. injection H as <- <- _ _.
  exists h. cbn. repeat split; try assumption.
  intros h0 H0 T0. apply Hold; [|exact T0]. subst w1. exact H0.
Qed.

Lemma step_sessionHash w op : sessionHash w -> sessionHash (step w op).
Proof.
  intros Hw. destruct op as [env form|id|id action]; cbn [step]; try exact Hw.
  pose proof (handleSubmit_three_ways env form w) as Ho.
  destruct (handleSubmit env form w) as [w' o] eqn:E. cbn [fst snd] in *.
  destruct o as [|m|e a c].
  - destruct Ho as [_ ->]. exact Hw.
  - destruct Ho as (_ & _ & _ & ->). exact Hw.
  - destruct (handleSubmit_hash _ _ _ _ _ _ _ E) as (h & Hh & T & He & Hold).
    destruct (handleSubmit_submitted _ _ _ _ _ _ _ E)
      as (_ & _ & _ & _ & _ & _ & _ & _ & _ & Htr).
    intros e0 Hin. rewrite Htr in Hin. apply in_app_or in Hin.
    destruct Hin as [Hin|[Hin|[Hin|[]]]].
    + destruct (Hw e0 Hin) as (h0 & H0 & T0 & E0).
      exists h. rewrite <- (Hold h0 H0 T0) in E0. auto.
    + discriminate Hin.
    + injection Hin as <-. exists h. auto.
Qed.

(** X5.  Every entry submitted during a session carries the same device
    hash, the one cached by the fingerprint object, whatever the
    browser attributes were at each submission. *)
Theorem one_device_hash_per_session ops e1 e2 :
  In (Appended e1) (trace (run ops initialWorld)) ->
  In (Appended e2) (trace (run ops initialWorld)) ->
  Entry.deviceHash e1 = Entry.deviceHash e2 /\
  Entry.deviceHash e1 = _hash (run ops initialWorld) /\
  _hash (run ops initialWorld) <> None.
Proof.
  assert (H : forall w, sessionHash w -> sessionHash (run ops w)).
  { induction ops as [|op ops IH]; intros w Hw; cbn; [exact Hw|].
    apply IH, step_sessionHash, Hw. }
  assert (H0 : sessionHash initialWorld) by (intros e []).
  specialize (H _ H0). intros H1 H2.
  destruct (H e1 H1) as (h1 & E1 & _ & D1).
  destruct (H e2 H2) as (h2 & E2 & _ & D2).
  rewrite D1, D2, E1. rewrite E1 in E2. repeat split; congruence.
Qed.

Lemma one_device_hash_per_session_witness :
  let w := run [Submit sampleEnv plainForm; Submit otherEnv techForm] initialWorld in
  let d := seed 0 absent absent absent absent absent 0 absent false 0 flagged []
                0 None absent absent absent in
  let e2 := hd d (salaries w) in
  let e1 := hd d (tl (salaries w)) in
  In (Appended e1) (trace w) /\ In (Appended e2) (trace w) /\
  Entry.id e1 <> Entry.id e2 /\
  Entry.deviceHash e1 = Entry.deviceHash e2.
Proof.
  cbv zeta.
  match goal with
  | |- In (Appended ?a) ?t /\ In (Appended ?b) _ /\ _ =>
      assert (H1 : In (Appended a) t) by (vm_compute; right; left; reflexivity);
      assert (H2 : In (Appended b) t)
        by (vm_compute; right; right; right; left; reflexivity)
  end.
  split; [exact H1|]. split; [exact H2|].
  split; [vm_compute; discriminate|].
  exact (proj1 (one_device_hash_per_session _ _ _ H1 H2)).
Defined.

(* ------------------------------------------------------------------ *)
(** ** The flags and the score of [detectOutliers] *)
(* ------------------------------------------------------------------ *)

Lemma Qltb_true q p : Qltb q p = true <-> (q < p)%Q.
Proof. apply (Qgtb_true p q). Qed.

Lemma half_below (sal mn : Z) :
  Qltb (inject_Z sal) (inject_Z mn * (1 # 2)) = true <-> 2 * sal < mn.
Proof.
  rewrite Qltb_true. unfold Qlt, Qmult, inject_Z. cbn [Qnum Qden]. lia.
Qed.

Lemma half_above (sal mx : Z) :
  Qgtb (inject_Z sal) (inject_Z mx * (3 # 2)) = true <-> 3 * mx < 2 * sal.
Proof.
  rewrite Qgtb_true. unfold Qlt, Qmult, inject_Z. cbn [Qnum Qden]. lia.
Qed.

Lemma bandOf_ordered experience :
  0 <= fst (bandOf experience) < snd (bandOf experience).
Proof.
  unfold bandOf, expMap.
  repeat match goal with
         | |- context [if ?b then _ else _] => destruct b
         end; cbn; lia.
Qed.

(** X6.  The score is explained by the flags: it is 100 less the
    penalty of every flag pushed (40, 20, 15, 30, 25 and 50 for
    [extreme_outlier], [outlier], [low_for_exp], [high_for_exp],
    [company_mismatch] and [duplicate]), less 5 for a salary above
    50000 that is a multiple of 10000, and 0 when that is negative; the
    upper clamp at 100 never acts.  The severity of a flag is fixed by
    its type. *)
Theorem score_explained_by_flags entry l :
  let r := detectOutliers entry l in
  let sal := Candidate.salary entry in
  let round := if (50000 <? sal) && (Z.rem sal 10000 =? 0) then 5 else 0 in
  Analysis.trustScore r = Z.max 0 (100 - totalPenalty (Analysis.flags r) - round) /\
  100 - totalPenalty (Analysis.flags r) - round <= 100 /\
  Forall (fun f => Flag.severity f = severityOf (Flag.type f)) (Analysis.flags r).
Proof.
  cbv zeta. unfold detectOutliers.
  destruct (match expMap _ with Some p => p | None => _ end) as [expMin expMax].
  cbn [Analysis.trustScore Analysis.flags].
  assert (Hr : (10000 <=? Candidate.salary entry)
               && (Z.rem (Candidate.salary entry) 10000 =? 0)
               && (50000 <? Candidate.salary entry)
               = (50000 <? Candidate.salary entry)
                 && (Z.rem (Candidate.salary entry) 10000 =? 0)).
  { destruct (Z.leb_spec 10000 (Candidate.salary entry));
      destruct (Z.ltb_spec 50000 (Candidate.salary entry));
      destruct (Z.rem (Candidate.salary entry) 10000 =? 0); try reflexivity; lia. }
  rewrite Hr. clear Hr.
  split_tests; unfold penalise; cbn [fst snd app totalPenalty Flag.type penaltyOf];
    (split; [lia|split; [lia|]]); repeat constructor.
Qed.

(** X7.  The flags come in the order of the tests and no flag comes
    twice.  [extreme_outlier] and [outlier] exclude each other, and so
    do [low_for_exp] and [high_for_exp], whatever the experience band,
    so that an analysis carries four flags at most. *)
Theorem flags_in_test_order entry l :
  let flags := Analysis.flags (detectOutliers entry l) in
  StronglySorted
    (fun f g => (flagRank (Flag.type f) < flagRank (Flag.type g))%nat) flags /\
  NoDup flags /\
  (List.length flags <= 4)%nat /\
  ~ (In (Flag.mk extreme_outlier high) flags /\ In (Flag.mk outlier medium) flags) /\
  ~ (In (Flag.mk low_for_exp medium) flags /\ In (Flag.mk high_for_exp high) flags).
Proof.
  cbv zeta. unfold detectOutliers.
  pose proof (bandOf_ordered (Candidate.experience entry)) as Hb.
  unfold bandOf in Hb.
  destruct (match expMap _ with Some p => p | None => _ end) as [expMin expMax].
  cbn [fst snd] in Hb. cbn [Analysis.flags].
  split_tests;
    try (exfalso;
         match goal with
         | H1 : Qltb _ _ = true, H2 : Qgtb _ _ = true |- _ =>
             apply half_below in H1; apply half_above in H2; lia
         end);
    unfold penalise; cbn [fst snd app List.length];
    (split; [repeat (constructor; cbn; try lia)|]);
    (split; [repeat (constructor; [cbn; intuition discriminate|]); constructor|]);
    (split; [lia|]);
    (split; cbn; intuition discriminate).
Qed.

(** Each flag other than the two z-score flags, against its test. *)
Lemma detectOutliers_other_flags entry l :
  let sal := Candidate.salary entry in
  let band := bandOf (Candidate.experience entry) in
  let sameCompany :=
    filter (fun s => (toLowerCase (Entry.company s)
                      =? toLowerCase (Candidate.company entry))%string) l in
  let flags := Analysis.flags (detectOutliers entry l) in
  (In (Flag.mk low_for_exp medium) flags <->
   Qltb (inject_Z sal) (inject_Z (fst band) * (1 # 2)) = true) /\
  (In (Flag.mk high_for_exp high) flags <->
   Qgtb (inject_Z sal) (inject_Z (snd band) * (3 # 2)) = true) /\
  (In (Flag.mk company_mismatch high) flags <->
   (2 <=? List.length sameCompany)%nat
   && (1 <? deviation sal (mean sameCompany))%float = true) /\
  (In (Flag.mk duplicate high) flags <-> isDuplicate entry l = true).
Proof.
  cbv zeta. unfold detectOutliers, bandOf.
  destruct (match expMap _ with Some p => p | None => _ end) as [expMin expMax].
  cbn [fst snd Analysis.flags].
  destruct (3 <=? _)%nat;
    [destruct (3 <? zScore _ _)%float; [|destruct (2.5 <? zScore _ _)%float]|];
    destruct (Qltb _ _); destruct (Qgtb _ _);
    (destruct (2 <=? _)%nat; cbn [andb]; [destruct (1 <? deviation _ _)%float|]);
    destruct (isDuplicate entry l);
    split_tests; unfold penalise; cbn [fst snd app In];
    repeat split; intros H; try discriminate H; auto 10;
    repeat (destruct H as [H|H]; try discriminate H); try contradiction.
Qed.

(** X8.  What triggers the flags whose test does not round.  The two
    z-score flags need at least three entries of the candidate's
    industry.  [low_for_exp] is pushed exactly below half of the
    minimum of the band, [high_for_exp] exactly above one and a half
    times its maximum.  The band is the one the table gives for the
    candidate's experience, and 0 to 999999 when the experience is
    left empty. *)
Theorem flag_triggers entry l :
  let sal := Candidate.salary entry in
  let band := bandOf (Candidate.experience entry) in
  let sameIndustry :=
    filter (fun s => (Entry.industry s =? Candidate.industry entry)%string) l in
  let flags := Analysis.flags (detectOutliers entry l) in
  (In (Flag.mk extreme_outlier high) flags \/ In (Flag.mk outlier medium) flags ->
   (3 <= List.length sameIndustry)%nat) /\
  (In (Flag.mk low_for_exp medium) flags <-> 2 * sal < fst band) /\
  (In (Flag.mk high_for_exp high) flags <-> 3 * snd band < 2 * sal) /\
  map bandOf ["0-1 years"; "1-3 years"; "3-5 years"; "5-8 years"; "8-12 years";
              "12+ years"]
  = [(5000, 25000); (8000, 40000); (12000, 60000); (15000, 80000);
     (20000, 100000); (25000, 150000)] /\
  bandOf absent = (0, 999999).
Proof.
  cbv zeta.
  destruct (detectOutliers_zflags entry l) as [Z1 Z2].
  destruct (detectOutliers_other_flags entry l) as (F1 & F2 & _).
  cbv zeta in Z1, Z2, F1, F2.
  split; [|split; [|split; [|split]]].
  - intros [H|H]; [apply Z1 in H|apply Z2 in H];
      repeat (apply andb_true_iff in H; destruct H as [H _]);
      apply Nat.leb_le in H; exact H.
  - rewrite F1. apply half_below.
  - rewrite F2. apply half_above.
  - reflexivity.
  - reflexivity.
Qed.

Lemma flag_triggers_witness :
  In (Flag.mk low_for_exp medium)
     (Analysis.flags (detectOutliers (bandCandidate 5000) INITIAL_SALARIES)) /\
  ~ In (Flag.mk high_for_exp high)
       (Analysis.flags (detectOutliers (bandCandidate 5000) INITIAL_SALARIES)).
Proof.
  destruct (flag_triggers (bandCandidate 5000) INITIAL_SALARIES)
    as (_ & Hlow & Hhigh & _ & _).
  split.
  - apply (proj2 Hlow). vm_compute. reflexivity.
  - intros H. apply (proj1 Hhigh) in H. vm_compute in H. discriminate H.
Defined.

(* ------------------------------------------------------------------ *)
(** ** What the analysis reads of the corpus *)
(* ------------------------------------------------------------------ *)

Lemma fold_left_map_same {A B : Type} (g : A -> B -> A) (f : B -> B) l a :
  (forall a s, g a (f s) = g a s) ->
  fold_left g (map f l) a = fold_left g l a.
Proof.
  intros H. revert a. induction l as [|s l IH]; intros a; cbn; [reflexivity|].
  rewrite H. apply IH.
Qed.

Lemma existsb_map_same {B : Type} (p : B -> bool) (f : B -> B) l :
  (forall s, p (f s) = p s) -> existsb p (map f l) = existsb p l.
Proof.
  intros H. induction l as [|s l IH]; cbn; [reflexivity|].
  rewrite H, IH. reflexivity.
Qed.

Lemma filter_map_same {B : Type} (p : B -> bool) (f : B -> B) l :
  (forall s, p (f s) = p s) -> filter p (map f l) = map f (filter p l).
Proof.
  intros H. rewrite filter_map_swap. f_equal. apply filter_ext.
  exact H.
Qed.

Section KeptFields.

(** An update of entries that leaves alone the four fields
    [detectOutliers] reads. *)
Variable f : Entry.t -> Entry.t.
Hypothesis f_title : forall s, Entry.title (f s) = Entry.title s.
Hypothesis f_company : forall s, Entry.company (f s) = Entry.company s.
Hypothesis f_industry : forall s, Entry.industry (f s) = Entry.industry s.
Hypothesis f_salary : forall s, Entry.salary (f s) = Entry.salary s.

Lemma sumSalary_map l : sumSalary (map f l) = sumSalary l.
Proof.
  unfold sumSalary. apply fold_left_map_same.
  intros a s. rewrite f_salary. reflexivity.
Qed.

Lemma mean_map l : mean (map f l) = mean l.
Proof. unfold mean, lengthF. rewrite sumSalary_map, length_map. reflexivity. Qed.

Lemma variance_map l : variance (map f l) = variance l.
Proof.
  unfold variance, lengthF, sumSquares. rewrite mean_map, length_map. f_equal.
  apply fold_left_map_same. intros a s. rewrite f_salary. reflexivity.
Qed.

Lemma zScore_map sal l : zScore sal (map f l) = zScore sal l.
Proof. unfold zScore, stdDev. rewrite mean_map, variance_map. reflexivity. Qed.

Lemma detectOutliers_map entry l :
  detectOutliers entry (map f l) = detectOutliers entry l.
Proof.
  unfold detectOutliers.
  rewrite (filter_map_same
             (fun s => (Entry.industry s =? Candidate.industry entry)%string))
    by (intros s; rewrite f_industry; reflexivity).
  rewrite (filter_map_same
             (fun s => (toLowerCase (Entry.company s)
                        =? toLowerCase (Candidate.company entry))%string))
    by (intros s; rewrite f_company; reflexivity).
  rewrite !length_map, !zScore_map, !mean_map.
  assert (Hd : isDuplicate entry (map f l) = isDuplicate entry l).
  { unfold isDuplicate. apply existsb_map_same.
    intros s. rewrite f_title, f_company, f_salary. reflexivity. }
  rewrite Hd. reflexivity.
Qed.

End KeptFields.

(** X9.  The analysis reads four fields of the entries of the corpus:
    title, company, industry and salary.  Moderation and community
    flags change none of them, so they never change how a candidate is
    scored: an entry that was rejected, or flagged, or held for review
    keeps counting in the baselines and in the duplicate test exactly as
    before. *)
Theorem analysis_ignores_moderation entry l :
  (forall id action,
     detectOutliers entry (moderate id action l) = detectOutliers entry l) /\
  (forall id, detectOutliers entry (handleFlag id l) = detectOutliers entry l) /\
  (forall f : Entry.t -> Entry.t,
     (forall s, Entry.title (f s) = Entry.title s /\
                Entry.company (f s) = Entry.company s /\
                Entry.industry (f s) = Entry.industry s /\
                Entry.salary (f s) = Entry.salary s) ->
     detectOutliers entry (map f l) = detectOutliers entry l).
Proof.
  split; [|split].
  - intros id action. unfold moderate. apply detectOutliers_map; intros s;
      destruct (negb _); try reflexivity;
      destruct (action =? "approve")%string; try reflexivity;
      destruct (action =? "reject")%string; reflexivity.
  - intros id. unfold handleFlag. apply detectOutliers_map; intros s;
      destruct (Entry.id s =? id); reflexivity.
  - intros f Hf. apply detectOutliers_map; intros s; apply Hf.
Qed.

Lemma analysis_ignores_moderation_witness :
  detectOutliers closeCandidate (map rejectEntry INITIAL_SALARIES)
  = detectOutliers closeCandidate INITIAL_SALARIES.
Proof.
  apply (proj2 (proj2 (analysis_ignores_moderation closeCandidate INITIAL_SALARIES))).
  intros s. repeat split.
Defined.

(* ------------------------------------------------------------------ *)
(** ** The order of the corpus *)
(* ------------------------------------------------------------------ *)

Lemma Permutation_filter_same {A : Type} (p : A -> bool) (l1 l2 : list A) :
  Permutation l1 l2 -> Permutation (filter p l1) (filter p l2).
Proof.
  induction 1 as [|x l1 l2 _ IH|x y l|l1 l2 l3 _ IH1 _ IH2]; cbn.
  - constructor.
  - destruct (p x); [constructor|]; exact IH.
  - destruct (p x), (p y); try apply Permutation_refl. constructor.
  - eapply Permutation_trans; eassumption.
Qed.

Lemma Permutation_existsb {A : Type} (p : A -> bool) (l1 l2 : list A) :
  Permutation l1 l2 -> existsb p l1 = existsb p l2.
Proof.
  intros H. destruct (existsb p l1) eqn:E1, (existsb p l2) eqn:E2;
    try reflexivity.
  - apply existsb_exists in E1. destruct E1 as (x & Hin & Hx).
    rewrite <- E2. symmetry. apply existsb_exists. exists x.
    split; [eapply Permutation_in; eassumption|exact Hx].
  - apply existsb_exists in E2. destruct E2 as (x & Hin & Hx).
    rewrite <- E1. apply existsb_exists. exists x.
    split; [eapply Permutation_in; [apply Permutation_sym|]; eassumption|exact Hx].
Qed.

(** X10.  What the order of the corpus can change.  Two corpora that
    hold the same entries give a candidate the same [low_for_exp],
    [high_for_exp] and [duplicate] flags, and a submission the same
    count and the same percentile in its comparison.  The z-score flags
    are another matter: the squared distances are summed in the order
    of the corpus and each addition rounds, so that [orderCorpus] read
    forwards gives [orderCandidate] no flag and read backwards gives it
    [outlier]. *)
Theorem corpus_order_and_rounding entry form sal l1 l2 :
  Permutation l1 l2 ->
  let f1 := Analysis.flags (detectOutliers entry l1) in
  let f2 := Analysis.flags (detectOutliers entry l2) in
  let c1 := computeComparison form sal l1 in
  let c2 := computeComparison form sal l2 in
  (In (Flag.mk low_for_exp medium) f1 <-> In (Flag.mk low_for_exp medium) f2) /\
  (In (Flag.mk high_for_exp high) f1 <-> In (Flag.mk high_for_exp high) f2) /\
  (In (Flag.mk duplicate high) f1 <-> In (Flag.mk duplicate high) f2) /\
  Comparison.count c1 = Comparison.count c2 /\
  Comparison.percentile c1 = Comparison.percentile c2 /\
  (Permutation (rev orderCorpus) orderCorpus /\
   detectOutliers orderCandidate orderCorpus = Analysis.mk [] 100 auto_approved /\
   detectOutliers orderCandidate (rev orderCorpus)
   = Analysis.mk [Flag.mk outlier medium] 80 auto_approved).
Proof.
  intros H. cbv zeta.
  destruct (detectOutliers_other_flags entry l1) as (A1 & A2 & _ & A4).
  destruct (detectOutliers_other_flags entry l2) as (B1 & B2 & _ & B4).
  cbv zeta in A1, A2, A4, B1, B2, B4.
  split; [rewrite A1, B1; reflexivity|].
  split; [rewrite A2, B2; reflexivity|].
  split.
  { rewrite A4, B4. unfold isDuplicate.
    rewrite (Permutation_existsb _ _ _ H). reflexivity. }
  pose proof (Permutation_filter_same
    (fun s => (Entry.industry s =? Form.industry form)%string
              && negb (status_is (Entry.status s) flagged)) _ _ H) as Hs.
  fold (similarTo (Form.industry form) l1) in Hs.
  fold (similarTo (Form.industry form) l2) in Hs.
  pose proof (Permutation_filter_same
    (fun s => Entry.salary s <=? sal) _ _ Hs) as Hb.
  destruct (computeComparison_fields form sal l1) as (C1 & _ & _ & P1).
  destruct (computeComparison_fields form sal l2) as (C2 & _ & _ & P2).
  cbv zeta in C1, C2, P1, P2.
  split; [rewrite C1, C2; apply Permutation_length, Hs|].
  split.
  { rewrite P1, P2, (Permutation_length Hs), (Permutation_length Hb).
    reflexivity. }
  split; [apply Permutation_sym, Permutation_rev|].
  split; vm_compute; reflexivity.
Qed.

Lemma corpus_order_and_rounding_witness :
  Permutation (rev INITIAL_SALARIES) INITIAL_SALARIES /\
  Comparison.percentile (computeComparison techForm 33000 (rev INITIAL_SALARIES))
  = Comparison.percentile (computeComparison techForm 33000 INITIAL_SALARIES).
Proof.
  assert (H : Permutation (rev INITIAL_SALARIES) INITIAL_SALARIES)
    by apply Permutation_sym, Permutation_rev.
  split; [exact H|].
  apply (corpus_order_and_rounding closeCandidate techForm 33000 _ _ H).
Defined.

(* ------------------------------------------------------------------ *)
(** ** How moderation and flags compose *)
(* ------------------------------------------------------------------ *)

(** X11.  How the handlers compose.  Repeating a moderator's action on
    an id changes nothing more.  Approving after rejecting is the same
    as approving at once.  Actions on different ids commute, and so do
    two community flags; a community flag commutes with any moderator's
    action, also on the same id. *)
Theorem moderation_composes l :
  (forall id action,
     moderate id action (moderate id action l) = moderate id action l) /\
  (forall id,
     moderate id "approve" (moderate id "reject" l) = moderate id "approve" l) /\
  (forall i j a b, i <> j ->
     moderate i a (moderate j b l) = moderate j b (moderate i a l)) /\
  (forall i j a, handleFlag i (moderate j a l) = moderate j a (handleFlag i l)) /\
  (forall i j, handleFlag i (handleFlag j l) = handleFlag j (handleFlag i l)).
Proof.
  unfold moderate, handleFlag. repeat split; intros;
    rewrite !map_map; apply map_ext; intros s.
  - destruct (Entry.id s =? id) eqn:E; cbn [negb]; [|rewrite E; reflexivity].
    destruct (action =? "approve")%string;
      [|destruct (action =? "reject")%string];
      unfold approveEntry, rejectEntry; cbn; rewrite ?E; cbn;
      try reflexivity; f_equal; lia.
  - destruct (Entry.id s =? id) eqn:E; cbn [negb]; [|rewrite E; reflexivity].
    unfold approveEntry, rejectEntry; cbn; rewrite ?E; reflexivity.
  - destruct (Entry.id s =? i) eqn:Ei, (Entry.id s =? j) eqn:Ej; cbn [negb].
    + apply Z.eqb_eq in Ei, Ej. congruence.
    + destruct (a =? "approve")%string;
        [|destruct (a =? "reject")%string];
        unfold approveEntry, rejectEntry; cbn; rewrite ?Ei, ?Ej; reflexivity.
    + destruct (b =? "approve")%string;
        [|destruct (b =? "reject")%string];
        unfold approveEntry, rejectEntry; cbn; rewrite ?Ei, ?Ej; reflexivity.
    + rewrite Ei, Ej. reflexivity.
  - destruct (Entry.id s =? j) eqn:Ej, (Entry.id s =? i) eqn:Ei; cbn [negb];
      try (destruct (a =? "approve")%string;
           [|destruct (a =? "reject")%string]);
      unfold approveEntry, rejectEntry, withFlagCount; cbn;
      rewrite ?Ei, ?Ej; reflexivity.
  - destruct (Entry.id s =? j) eqn:Ej, (Entry.id s =? i) eqn:Ei;
      unfold withFlagCount; cbn; rewrite ?Ei, ?Ej; cbn; try reflexivity.
Qed.

Lemma moderation_composes_witness :
  21 <> 24 /\
  moderate 21 "approve" (moderate 24 "reject" INITIAL_SALARIES)
  = moderate 24 "reject" (moderate 21 "approve" INITIAL_SALARIES).
Proof.
  assert (H : 21 <> 24) by discriminate.
  split; [exact H|].
  exact (proj1 (proj2 (proj2 (moderation_composes INITIAL_SALARIES))) 21 24 _ _ H).
Defined.

(* ------------------------------------------------------------------ *)
(** ** The action log *)
(* ------------------------------------------------------------------ *)

Lemma firstn_app_firstn {A : Type} (n m : nat) (a b : list A) :
  (n <= List.length a + m)%nat ->
  firstn n (a ++ firstn m b) = firstn n (a ++ b).
Proof.
  revert n. induction a as [|x a IH]; intros n H; cbn [app List.length] in *.
  - rewrite firstn_firstn. f_equal. lia.
  - destruct n as [|n]; [reflexivity|]. cbn [firstn]. f_equal.
    apply IH. lia.
Qed.

Lemma handleActions_log acts l log :
  (List.length log <= 20)%nat ->
  snd (handleActions acts (l, log))
  = firstn 20 (rev (map logItemOf acts) ++ log).
Proof.
  revert l log. induction acts as [|a acts IH]; intros l log Hlen.
  - unfold handleActions. cbn [fold_left snd map rev app].
    symmetry. apply firstn_all2. exact Hlen.
  - cbn [handleActions fold_left]. unfold handleAction at 2. cbn [fst snd].
    fold (handleActions acts
            (moderate (Act.id a) (Act.action a) l,
             LogItem.mk (Act.id a) (Act.action a) (Env.timeString (Act.env a))
             :: firstn 19 log)).
    rewrite IH.
    + cbn [map rev]. rewrite <- app_assoc. cbn [app].
      fold (logItemOf a).
      change (logItemOf a :: firstn 19 log)
        with (firstn 20 (logItemOf a :: log)).
      apply firstn_app_firstn. lia.
    + cbn [List.length]. pose proof (firstn_le_length 19 log). lia.
Qed.

(** X12.  The action log holds the twenty most recent calls of
    [handleAction], newest first, older ones being dropped.  Every call
    is logged, also one whose id matches no entry or whose action is
    neither ["approve"] nor ["reject"] and which therefore changes
    nothing in the corpus. *)
Theorem action_log_last_twenty acts l :
  snd (handleActions acts (l, [])) = firstn 20 (rev (map logItemOf acts)) /\
  (List.length (snd (handleActions acts (l, []))) <= 20)%nat /\
  List.length (snd (handleActions acts (l, []))) = Nat.min 20 (List.length acts) /\
  forall env id action log,
    (action <> "approve" /\ action <> "reject" \/
     forall s, In s l -> Entry.id s <> id) ->
    handleAction env id action (l, log)
    = (l, LogItem.mk id action (Env.timeString env) :: firstn 19 log).
Proof.
  assert (E : snd (handleActions acts (l, []))
              = firstn 20 (rev (map logItemOf acts))).
  { rewrite handleActions_log by (cbn; lia). rewrite app_nil_r. reflexivity. }
  split; [exact E|]. rewrite E, length_firstn, length_rev, length_map.
  split; [lia|]. split; [reflexivity|].
  intros env id action log H. unfold handleAction. cbn [fst snd]. f_equal.
  unfold moderate. rewrite <- (map_id l) at 2. apply map_ext_in.
  intros s Hs. destruct H as [[Ha Hr]|H].
  - destruct (negb _); [reflexivity|].
    destruct (String.eqb_spec action "approve"); [contradiction|].
    destruct (String.eqb_spec action "reject"); [contradiction|reflexivity].
  - specialize (H s Hs). apply Z.eqb_neq in H. rewrite H. reflexivity.
Qed.

Lemma action_log_last_twenty_witness :
  (forall s, In s INITIAL_SALARIES -> Entry.id s <> 99) /\
  handleAction sampleEnv 99 "approve" (INITIAL_SALARIES, [])
  = (INITIAL_SALARIES, [LogItem.mk 99 "approve" "10:00:00"]).
Proof.
  assert (H : forall s, In s INITIAL_SALARIES -> Entry.id s <> 99).
  { intros s Hs. cbn in Hs.
    repeat (destruct Hs as [<-|Hs]; [discriminate|]). contradiction. }
  split; [exact H|].
  exact (proj2 (proj2 (proj2 (action_log_last_twenty [] INITIAL_SALARIES)))
           sampleEnv 99 "approve" [] (or_intror H)).
Defined.

(* ------------------------------------------------------------------ *)
(** ** The review queue *)
(* ------------------------------------------------------------------ *)

Lemma filter_three_disjoint {A : Type} (p1 p2 p3 : A -> bool) (l : list A) :
  (forall x, p1 x && p2 x = false) ->
  (forall x, p1 x && p3 x = false) ->
  (forall x, p2 x && p3 x = false) ->
  Permutation (filter p1 l ++ filter p2 l ++ filter p3 l)
              (filter (fun x => p1 x || p2 x || p3 x) l).
Proof.
  intros H12 H13 H23. induction l as [|x l IH]; [constructor|].
  cbn [filter]. specialize (H12 x). specialize (H13 x). specialize (H23 x).
  destruct (p1 x), (p2 x), (p3 x); try discriminate; cbn [orb app].
  - constructor. exact IH.
  - apply Permutation_sym, Permutation_cons_app, Permutation_sym. exact IH.
  - apply Permutation_sym.
    rewrite app_assoc. apply Permutation_cons_app.
    rewrite <- app_assoc. apply Permutation_sym. exact IH.
  - exact IH.
Qed.

Lemma status_is_exclusive st a b : a <> b -> status_is st a && status_is st b = false.
Proof.
  intros H. destruct st as [s|]; [|reflexivity].
  destruct s, a, b; try reflexivity; contradiction.
Qed.

(** X13.  What the review queue shows.  The tab ["flagged"] lists the
    flagged entries, ["needs_review"] those held for review,
    ["community"] the live entries with at least one community flag,
    each in the order of the corpus; any other tab value lists the
    three groups one after the other.  That list holds every entry
    under review exactly as often as the corpus does, and no other:
    a rejected entry and a live entry without a flag are in no tab. *)
Theorem review_queue_content filter_ l :
  Permutation (queue "all_review" l) (filter inReview l) /\
  (filter_ <> "flagged" -> filter_ <> "needs_review" -> filter_ <> "community" ->
   queue filter_ l = queue "all_review" l) /\
  queue "all_review" l
  = queue "flagged" l ++ queue "needs_review" l ++ queue "community" l /\
  (forall s, In s (queue filter_ l) -> In s l /\ inReview s = true) /\
  (forall s, In s (queue filter_ l) ->
     Entry.status s <> Some rejected /\ Entry.status s <> None /\
     (Entry.status s = Some auto_approved -> 0 < Entry.flagCount s)).
Proof.
  assert (Hperm : Permutation (queue "all_review" l) (filter inReview l)).
  { unfold queue, inReview. cbn [String.eqb Ascii.eqb Bool.eqb].
    apply filter_three_disjoint; intros x.
    - apply status_is_exclusive. discriminate.
    - rewrite andb_comm, <- andb_assoc, (andb_comm (status_is _ _)).
      rewrite status_is_exclusive by discriminate. apply andb_false_r.
    - rewrite andb_comm, <- andb_assoc, (andb_comm (status_is _ _)).
      rewrite status_is_exclusive by discriminate. apply andb_false_r. }
  assert (Hin : forall s, In s (queue filter_ l) -> In s l /\ inReview s = true).
  { intros s Hs. apply queue_In in Hs. destruct Hs as [Hl Hs].
    split; [exact Hl|]. unfold inReview.
    destruct Hs as [H|[H|[H H0]]]; rewrite H; cbn; try reflexivity.
    apply Z.ltb_lt in H0. rewrite H0. reflexivity. }
  split; [exact Hperm|]. split; [|split; [reflexivity|split; [exact Hin|]]].
  - intros H1 H2 H3. unfold queue.
    apply String.eqb_neq in H1, H2, H3. rewrite H1, H2, H3. reflexivity.
  - intros s Hs. apply queue_In in Hs. destruct Hs as [_ Hs].
    destruct Hs as [H|[H|[H H0]]]; rewrite H;
      repeat split; try discriminate; auto.
Qed.

Lemma review_queue_content_witness :
  queue "today" INITIAL_SALARIES = queue "all_review" INITIAL_SALARIES /\
  List.length (queue "today" INITIAL_SALARIES) = 5%nat.
Proof.
  split; [|reflexivity].
  apply (proj1 (proj2 (review_queue_content "today" INITIAL_SALARIES)));
    discriminate.
Defined.

(** X14.  What a moderator's action does to the queue.  Once an id is
    rejected, no entry with that id is in any tab.  Once an id is
    approved, an entry with that id stays in the queue exactly when it
    has a community flag: it is then listed under ["community"], where
    the only button is the one that rejects. *)
Theorem queue_after_moderation id filter_ l :
  (forall s, In s (queue filter_ (moderate id "reject" l)) -> Entry.id s <> id) /\
  (forall s, In s (queue filter_ (moderate id "approve" l)) -> Entry.id s = id ->
             0 < Entry.flagCount s /\ Entry.status s = Some auto_approved /\
             rowButtons s = ["reject"]) /\
  (forall s, In s l -> Entry.id s = id -> 0 < Entry.flagCount s ->
             In (approveEntry s) (queue "community" (moderate id "approve" l)) /\
             In (approveEntry s) (queue "all_review" (moderate id "approve" l))).
Proof.
  split; [|split].
  - intros s Hs Hid. apply queue_In in Hs. destruct Hs as [Hin Hst].
    unfold moderate in Hin. apply in_map_iff in Hin.
    destruct Hin as (s0 & Hs0 & _).
    destruct (Z.eqb_spec (Entry.id s0) id) as [E|E]; cbn [negb] in Hs0.
    + cbn in Hs0. subst s. cbn in Hst.
      destruct Hst as [H|[H|[H _]]]; discriminate H.
    + subst s0. contradiction.
  - intros s Hs Hid. apply queue_In in Hs. destruct Hs as [Hin Hst].
    unfold moderate in Hin. apply in_map_iff in Hin.
    destruct Hin as (s0 & Hs0 & _).
    destruct (Z.eqb_spec (Entry.id s0) id) as [E|E]; cbn [negb] in Hs0.
    + cbn in Hs0. subst s. cbn in Hst |- *.
      destruct Hst as [H|[H|[_ H0]]]; try discriminate H.
      split; [exact H0|]. split; [reflexivity|].
      unfold rowButtons. cbn. apply Z.ltb_lt in H0. rewrite H0. reflexivity.
    + subst s0. contradiction.
  - intros s Hin Hid Hfc.
    assert (Hm : In (approveEntry s) (moderate id "approve" l)).
    { unfold moderate. apply in_map_iff. exists s. split; [|exact Hin].
      apply Z.eqb_eq in Hid. rewrite Hid. reflexivity. }
    assert (Hc : In (approveEntry s) (queue "community" (moderate id "approve" l))).
    { unfold queue. cbn [String.eqb Ascii.eqb Bool.eqb]. apply filter_In.
      split; [exact Hm|]. cbn. apply Z.ltb_lt in Hfc. rewrite Hfc. reflexivity. }
    split; [exact Hc|].
    change (queue "all_review" (moderate id "approve" l))
      with (queue "flagged" (moderate id "approve" l)
            ++ queue "needs_review" (moderate id "approve" l)
            ++ queue "community" (moderate id "approve" l)).
    apply in_or_app. right. apply in_or_app. right. exact Hc.
Qed.

Lemma queue_after_moderation_witness :
  let s := seed 23 "CEO" "Small Local Shop" "Other" "Cairo" "12+ years" 500000
                "2026-02-28" false 18 flagged
                [Flag.mk extreme_outlier high; Flag.mk high_for_exp high] 2
                (Some "ghi56") absent absent absent in
  In s INITIAL_SALARIES /\ 0 < Entry.flagCount s /\
  In (approveEntry s) (queue "all_review" (moderate 23 "approve" INITIAL_SALARIES)).
Proof.
  cbv zeta.
  assert (Hin : In (seed 23 "CEO" "Small Local Shop" "Other" "Cairo" "12+ years"
                         500000 "2026-02-28" false 18 flagged
                         [Flag.mk extreme_outlier high; Flag.mk high_for_exp high] 2
                         (Some "ghi56") absent absent absent) INITIAL_SALARIES).
  { cbn. do 22 right. left. reflexivity. }
  split; [exact Hin|]. split; [reflexivity|].
  apply (proj2 (proj2 (queue_after_moderation 23 "all_review" INITIAL_SALARIES))
           _ Hin eq_refl eq_refl).
Defined.

(* ------------------------------------------------------------------ *)
(** ** What holds in every state the application reaches *)
(* ------------------------------------------------------------------ *)

Lemma INITIAL_SALARIES_wellFormed : Forall wellFormed INITIAL_SALARIES.
Proof.
  repeat constructor; cbn; try lia; try discriminate; eauto;
    intros; try discriminate; auto.
Qed.

Lemma handleSubmit_entry_wellFormed env form w w' e a c :
  handleSubmit env form w = (w', Submitted e a c) -> wellFormed e.
Proof.
  intros H. destruct (handleSubmit_submitted _ _ _ _ _ _ _ H)
    as (sal & dh & Hv & _ & Ha & He & _).
  assert (Hs : Analysis.status a = statusOfScore (Analysis.trustScore a)).
  { subst a. apply applyFriction_status, detectOutliers_status. }
  subst e. unfold wellFormed. cbn.
  split; [eauto|]. split; [intros _; rewrite Hs; reflexivity|].
  split; [discriminate|]. split; [lia|]. apply Hv.
Qed.

Lemma approveEntry_wellFormed s : wellFormed s -> wellFormed (approveEntry s).
Proof.
  intros (H1 & H2 & H3 & H4 & H5). unfold wellFormed. cbn.
  split; [eauto|]. split.
  - intros _. unfold statusOfScore.
    destruct (Z.leb_spec 70 (Z.max (Entry.trustScore s) 80)); [reflexivity|lia].
  - auto.
Qed.

Lemma rejectEntry_wellFormed s : wellFormed s -> wellFormed (rejectEntry s).
Proof.
  intros (H1 & H2 & H3 & H4 & H5). unfold wellFormed. cbn.
  split; [eauto|]. split; [intros H; contradiction|]. auto.
Qed.

Lemma withFlagCount_wellFormed s :
  wellFormed s -> wellFormed (withFlagCount (Entry.flagCount s + 1) s).
Proof.
  intros (H1 & H2 & H3 & H4 & H5). unfold wellFormed. cbn.
  repeat split; auto; lia.
Qed.

Lemma step_wellFormed w op :
  Forall wellFormed (salaries w) -> Forall wellFormed (salaries (step w op)).
Proof.
  intros Hw. destruct op as [env form|id|id action]; cbn [step].
  - rewrite handleSubmit_salaries.
    destruct (handleSubmit env form w) as [w' o] eqn:E. cbn [snd].
    destruct o as [|m|e a c]; try exact Hw.
    constructor; [|exact Hw]. eapply handleSubmit_entry_wellFormed; eauto.
  - cbn. unfold handleFlag. apply Forall_map_same; [|exact Hw].
    intros s Hs. destruct (Entry.id s =? id); [|exact Hs].
    apply withFlagCount_wellFormed, Hs.
  - cbn. unfold moderate. apply Forall_map_same; [|exact Hw].
    intros s Hs. destruct (negb _); [exact Hs|].
    destruct (action =? "approve")%string; [apply approveEntry_wellFormed, Hs|].
    destruct (action =? "reject")%string; [apply rejectEntry_wellFormed, Hs|exact Hs].
Qed.

Lemma run_wellFormed ops w :
  Forall wellFormed (salaries w) -> Forall wellFormed (salaries (run ops w)).
Proof.
  revert w. induction ops as [|op ops IH]; intros w Hw; cbn; [exact Hw|].
  apply IH, step_wellFormed, Hw.
Qed.

(** X15.  In every state the application reaches from its seeded data,
    every entry has a status; unless it is rejected, its status is the
    one the thresholds give for its present trust score (an approved
    entry scores at least 70, a flagged one at most 39); a verified
    entry is live or rejected, never pending; its flag count is not
    negative and its salary is positive. *)
Theorem reachable_entries_coherent ops s :
  In s (salaries (run ops initialWorld)) ->
  (exists st, Entry.status s = Some st) /\
  (Entry.status s <> Some rejected ->
   Entry.status s = Some (statusOfScore (Entry.trustScore s))) /\
  (Entry.verified s = true ->
   Entry.status s = Some auto_approved \/ Entry.status s = Some rejected) /\
  0 <= Entry.flagCount s /\
  0 < Entry.salary s.
Proof.
  intros Hin.
  pose proof (run_wellFormed ops initialWorld INITIAL_SALARIES_wellFormed) as H.
  rewrite Forall_forall in H. exact (H s Hin).
Qed.

Lemma reachable_entries_coherent_witness :
  In approvedDuplicate
     (salaries (run [Submit sampleEnv duplicateForm;
                     Moderate 1772400000000 "approve"] initialWorld)) /\
  Entry.status approvedDuplicate
  = Some (statusOfScore (Entry.trustScore approvedDuplicate)).
Proof.
  assert (Hin : In approvedDuplicate
                  (salaries (run [Submit sampleEnv duplicateForm;
                                  Moderate 1772400000000 "approve"] initialWorld))).
  { vm_compute. left. reflexivity. }
  split; [exact Hin|].
  apply (proj1 (proj2 (reachable_entries_coherent _ _ Hin))). discriminate.
Defined.

(** X16.  No operation deletes or edits what was submitted.  After any
    operation the corpus is the old corpus, entry by entry and in the
    same order, behind at most one new entry; an old entry keeps its
    id, title, company, industry, city, experience, salary, date,
    flags, device hash and optional fields; its flag count grows by one
    at most and never shrinks (there is no reset); its trust score
    never goes down; and once verified it stays verified. *)
Theorem entries_are_never_edited w op :
  exists new old',
    salaries (step w op) = new ++ old' /\
    (List.length new <= 1)%nat /\
    Forall2 (fun s s' =>
               sameData s s' /\
               Entry.flagCount s <= Entry.flagCount s' <= Entry.flagCount s + 1 /\
               Entry.trustScore s <= Entry.trustScore s' /\
               (Entry.verified s = true -> Entry.verified s' = true))
            (salaries w) old'.
Proof.
  assert (Hrefl : forall s, sameData s s /\
            Entry.flagCount s <= Entry.flagCount s <= Entry.flagCount s + 1 /\
            Entry.trustScore s <= Entry.trustScore s /\
            (Entry.verified s = true -> Entry.verified s = true)).
  { intros s. unfold sameData. repeat split; auto; lia. }
  destruct op as [env form|id|id action]; cbn [step].
  - rewrite handleSubmit_salaries.
    destruct (snd (handleSubmit env form w)) as [|m|e a c];
      [exists []|exists []|exists [e]]; exists (salaries w); cbn;
      (split; [reflexivity|]); (split; [lia|]);
      rewrite <- (map_id (salaries w)) at 2; apply Forall2_map_same;
      intros s _; apply Hrefl.
  - exists [], (handleFlag id (salaries w)). cbn.
    split; [reflexivity|]. split; [lia|].
    unfold handleFlag. apply Forall2_map_same. intros s _.
    destruct (Entry.id s =? id); [|apply Hrefl].
    unfold sameData. cbn. repeat split; auto; lia.
  - exists [], (moderate id action (salaries w)). cbn.
    split; [reflexivity|]. split; [lia|].
    unfold moderate. apply Forall2_map_same. intros s _.
    destruct (negb _); [apply Hrefl|].
    destruct (action =? "approve")%string;
      [|destruct (action =? "reject")%string; [|apply Hrefl]];
      unfold sameData; cbn; repeat split; auto; lia.
Qed.

(* ------------------------------------------------------------------ *)
(** ** The summary cards of the admin page *)
(* ------------------------------------------------------------------ *)

Lemma summaryCards_sum l :
  Summary.total (summaryCards l)
  = (Summary.autoApproved (summaryCards l) + Summary.pending (summaryCards l)
     + Summary.rejectedCount (summaryCards l)
     + List.length (filter (fun s => match Entry.status s with
                                     | None => true
                                     | Some _ => false
                                     end) l))%nat.
Proof.
  unfold summaryCards. cbn [Summary.total Summary.autoApproved Summary.pending
                            Summary.rejectedCount].
  induction l as [|s l IH]; [reflexivity|].
  cbn [filter List.length]. destruct (Entry.status s) as [[]|];
    cbn [status_is Status_eqb List.length]; lia.
Qed.

Lemma filter_none {A : Type} (p : A -> bool) (l : list A) :
  (forall x, In x l -> p x = false) -> filter p l = [].
Proof.
  induction l as [|x l IH]; intros H; [reflexivity|].
  cbn [filter]. rewrite (H x (or_introl eq_refl)).
  apply IH. intros y Hy. apply H. right. exact Hy.
Qed.

(** X17.  The summary cards add up: in every state the application
    reaches, the total is the sum of the auto-approved, pending and
    rejected counts, and the pending count is the length of the tabs
    ["flagged"] and ["needs_review"] together. *)
Theorem summary_cards_add_up ops :
  let l := salaries (run ops initialWorld) in
  let c := summaryCards l in
  Summary.total c
  = (Summary.autoApproved c + Summary.pending c + Summary.rejectedCount c)%nat /\
  Summary.pending c
  = (List.length (queue "flagged" l) + List.length (queue "needs_review" l))%nat.
Proof.
  cbv zeta. split; [|reflexivity].
  rewrite summaryCards_sum.
  replace (filter _ (salaries (run ops initialWorld))) with (@nil Entry.t);
    [cbn; lia|].
  symmetry. apply filter_none. intros s Hs.
  pose proof (run_wellFormed ops initialWorld INITIAL_SALARIES_wellFormed) as H.
  rewrite Forall_forall in H. destruct (H s Hs) as ((st & E) & _).
  rewrite E. reflexivity.
Qed.

(* ------------------------------------------------------------------ *)
(** ** From the public pages to the review queue *)
(* ------------------------------------------------------------------ *)

(** X20.  From a community flag to the admin.  On the explorer, whose
    rows are given [handleFlag], the first click on the flag button of
    a live entry counts one flag, and the entry is then listed in the
    review queue, under ["community"], with the rejecting button alone;
    had it no flag before, it was in no tab.  On the home page, whose
    rows are given no handler, the same click marks the row as flagged
    and changes nothing else: no flag is counted and the queue is what
    it was.  On either page a second click on the same row does
    nothing. *)
Theorem community_flag_reaches_admin s l :
  In s l -> Entry.status s = Some auto_approved -> 0 <= Entry.flagCount s ->
  let s' := withFlagCount (Entry.flagCount s + 1) s in
  In s (approved l) /\
  SalaryRow_click s true false (Some handleFlag) l
  = Some (true, handleFlag (Entry.id s) l) /\
  In s' (queue "community" (handleFlag (Entry.id s) l)) /\
  In s' (queue "all_review" (handleFlag (Entry.id s) l)) /\
  rowButtons s' = ["reject"] /\
  (Entry.flagCount s = 0 -> forall filter_, ~ In s (queue filter_ l)) /\
  SalaryRow_click s true false None l = Some (true, l) /\
  (forall onFlag showFlag,
     SalaryRow_click s showFlag true onFlag l = Some (true, l)).
Proof.
  intros Hin Hst Hfc. cbv zeta.
  assert (Hm : In (withFlagCount (Entry.flagCount s + 1) s)
                  (handleFlag (Entry.id s) l)).
  { unfold handleFlag. apply in_map_iff. exists s. split; [|exact Hin].
    rewrite Z.eqb_refl. reflexivity. }
  assert (Hpos : (0 <? Entry.flagCount s + 1) = true) by (apply Z.ltb_lt; lia).
  assert (Hc : In (withFlagCount (Entry.flagCount s + 1) s)
                  (queue "community" (handleFlag (Entry.id s) l))).
  { unfold queue. cbn [String.eqb Ascii.eqb Bool.eqb]. apply filter_In.
    split; [exact Hm|]. cbn. rewrite Hpos, Hst. reflexivity. }
  split; [|split; [|split; [exact Hc|split; [|split; [|split; [|split]]]]]].
  - unfold approved. apply filter_In. split; [exact Hin|].
    rewrite Hst. reflexivity.
  - unfold SalaryRow_click, isFlaggable. rewrite Hst. reflexivity.
  - change (queue "all_review" (handleFlag (Entry.id s) l))
      with (queue "flagged" (handleFlag (Entry.id s) l)
            ++ queue "needs_review" (handleFlag (Entry.id s) l)
            ++ queue "community" (handleFlag (Entry.id s) l)).
    apply in_or_app. right. apply in_or_app. right. exact Hc.
  - unfold rowButtons. cbn. rewrite Hst, Hpos. reflexivity.
  - intros H0 filter_ Hq. apply queue_In in Hq. destruct Hq as [_ Hq].
    rewrite Hst, H0 in Hq. destruct Hq as [H|[H|[_ H]]]; first [discriminate H | lia].
  - unfold SalaryRow_click, isFlaggable. rewrite Hst. reflexivity.
  - intros onFlag showFlag. unfold SalaryRow_click, isFlaggable.
    rewrite Hst, orb_true_r. reflexivity.
Qed.

Lemma community_flag_reaches_admin_witness :
  let s := seed 3 "Data Analyst" "CIB" "Banking & Finance" "Cairo" "1-3 years"
                15000 "2026-02-26" false 88 auto_approved [] 0 None
                absent absent absent in
  In s INITIAL_SALARIES /\
  In (withFlagCount 1 s) (queue "community" (handleFlag 3 INITIAL_SALARIES)) /\
  SalaryRow_click s true false None INITIAL_SALARIES
  = Some (true, INITIAL_SALARIES).
Proof.
  cbv zeta.
  assert (Hin : In (seed 3 "Data Analyst" "CIB" "Banking & Finance" "Cairo"
                         "1-3 years" 15000 "2026-02-26" false 88 auto_approved []
                         0 None absent absent absent) INITIAL_SALARIES).
  { cbn. do 2 right. left. reflexivity. }
  split; [exact Hin|].
  pose proof (community_flag_reaches_admin _ _ Hin eq_refl ltac:(discriminate))
    as (_ & _ & Hq & _ & _ & _ & Hhome & _).
  split; [exact Hq|exact Hhome].
Defined.

(* ------------------------------------------------------------------ *)
(** ** Submitting twice *)
(* ------------------------------------------------------------------ *)

Lemma handleSubmit_goes_through env form w sal :
  validSalary form sal ->
  (List.length (recent env (_submissions w)) < 5)%nat ->
  exists w' e a c, handleSubmit env form w = (w', Submitted e a c).
Proof.
  intros Hv Hlt. pose proof (handleSubmit_three_ways env form w) as H.
  destruct (handleSubmit env form w) as [w' o]. cbn [fst snd] in H.
  destruct o as [|m|e a c].
  - exfalso. apply (proj1 H sal Hv).
  - exfalso. destruct H as (_ & H & _). lia.
  - eauto.
Qed.

Lemma final_status_of_score count a :
  Analysis.status a = statusOfScore (Analysis.trustScore a) ->
  Analysis.trustScore (applyFriction count a) < 70 ->
  Analysis.status (applyFriction count a) <> auto_approved.
Proof.
  intros Hs Hlt. rewrite (applyFriction_status count a Hs).
  unfold statusOfScore.
  destruct (Z.leb_spec 70 (Analysis.trustScore (applyFriction count a))); [lia|].
  destruct (40 <=? _); discriminate.
Qed.

(** X21.  The same form submitted again is caught.  After a
    submission that went through, submitting the same form once more,
    unless the rate limit blocks it, goes through with the [duplicate]
    flag, a trust score of 65 at most and a status that is not
    [auto_approved]: the copy is never live without a moderator. *)
Theorem resubmission_is_held env env' form w w1 e a c :
  handleSubmit env form w = (w1, Submitted e a c) ->
  (List.length (recent env' (_submissions w1)) < 5)%nat ->
  exists w2 e2 a2 c2,
    handleSubmit env' form w1 = (w2, Submitted e2 a2 c2) /\
    In (Flag.mk duplicate high) (Entry.flags e2) /\
    Entry.trustScore e2 <= 65 /\
    Entry.status e2 <> Some auto_approved.
Proof.
  intros H1 Hlt.
  destruct (handleSubmit_submitted _ _ _ _ _ _ _ H1)
    as (sal & dh & Hv & _ & _ & He & _ & Hs & _).
  destruct (handleSubmit_goes_through env' form w1 sal Hv Hlt)
    as (w2 & e2 & a2 & c2 & H2).
  exists w2, e2, a2, c2. split; [exact H2|].
  destruct (handleSubmit_score _ _ _ _ _ _ _ H2)
    as (sal' & Hp & Hts & Hst & Hfl & Ha).
  assert (sal' = sal) by (destruct Hv as (_ & _ & _ & Hp' & _); congruence).
  subst sal'.
  destruct (detectOutliers_duplicate (Candidate.mk form sal) (salaries w1))
    as [Hflag Hcap].
  { apply (isDuplicate_intro form sal (salaries w1) e).
    - rewrite Hs. left. reflexivity.
    - subst e. reflexivity.
    - subst e. reflexivity.
    - subst e. reflexivity. }
  assert (Hfin : Entry.trustScore e2 <= 65).
  { rewrite Hts, Ha, applyFriction_score by lia.
    pose proof (optionalFieldsCompleted_le form). unfold frictionBonus.
    destruct (3 <=? _)%nat; [|destruct (_ =? 2)%nat]; lia. }
  split; [rewrite Hfl, Ha, applyFriction_flags; exact Hflag|].
  split; [exact Hfin|].
  rewrite Hst. intros Habs. injection Habs as Habs. revert Habs.
  rewrite Ha. apply final_status_of_score; [apply detectOutliers_status|].
  rewrite <- Ha, <- Hts. lia.
Qed.

Lemma resubmission_is_held_witness :
  exists w1 e a c w2 e2 a2 c2,
    handleSubmit sampleEnv plainForm initialWorld = (w1, Submitted e a c) /\
    handleSubmit otherEnv plainForm w1 = (w2, Submitted e2 a2 c2) /\
    Entry.status e = Some auto_approved /\
    Entry.status e2 <> Some auto_approved.
Proof.
  destruct (handleSubmit sampleEnv plainForm initialWorld) as [w1 o] eqn:E.
  destruct o as [| |e a c]; try (vm_compute in E; discriminate E).
  assert (Hlt : (List.length (recent otherEnv (_submissions w1)) < 5)%nat).
  { vm_compute in E. injection E as <- _ _ _. vm_compute. lia. }
  assert (Hst : Entry.status e = Some auto_approved).
  { vm_compute in E. injection E as _ <- _ _. reflexivity. }
  destruct (resubmission_is_held _ otherEnv _ _ _ _ _ _ E Hlt)
    as (w2 & e2 & a2 & c2 & H2 & _ & _ & Hne).
  exists w1, e, a, c, w2, e2, a2, c2. auto.
Defined.

(* ------------------------------------------------------------------ *)
(** ** Where a new entry is shown *)
(* ------------------------------------------------------------------ *)

Lemma handleSubmit_entry env form w w' e a c :
  handleSubmit env form w = (w', Submitted e a c) ->
  salaries w' = e :: salaries w /\
  Entry.status e = Some (statusOfScore (Entry.trustScore e)) /\
  Entry.flagCount e = 0.
Proof.
  intros H.
  destruct (handleSubmit_submitted _ _ _ _ _ _ _ H)
    as (sal & dh & _ & _ & Ha & He & _ & Hs & _).
  split; [exact Hs|]. subst e. cbn. split; [|reflexivity].
  rewrite Ha. rewrite applyFriction_status; [reflexivity|].
  apply detectOutliers_status.
Qed.

(** X22.  Where a submission that went through is shown, by its trust
    score.  Under 40 the entry is on no public page and in the
    ["flagged"] tab of the review queue.  From 40 on it is the first row
    of the home page at once; under 70 it is also in the
    ["needs_review"] tab and its row has no flag button; from 70 on its
    row has the flag button and the entry is in no tab of the queue. *)
Theorem where_a_submission_appears env form w w' e a c :
  handleSubmit env form w = (w', Submitted e a c) ->
  (Entry.trustScore e < 40 ->
   ~ In e (approved (salaries w')) /\ In e (queue "flagged" (salaries w'))) /\
  (40 <= Entry.trustScore e -> hd_error (homeRows (salaries w')) = Some e) /\
  (40 <= Entry.trustScore e < 70 ->
   In e (queue "needs_review" (salaries w')) /\ isFlaggable e = false) /\
  (70 <= Entry.trustScore e ->
   isFlaggable e = true /\ forall filter_, ~ In e (queue filter_ (salaries w'))).
Proof.
  intros H. destruct (handleSubmit_entry _ _ _ _ _ _ _ H) as (Hs & Hst & Hfc).
  rewrite Hs. unfold statusOfScore in Hst.
  split; [|split; [|split]].
  - intros Hlt.
    destruct (Z.leb_spec 70 (Entry.trustScore e)); [lia|].
    destruct (Z.leb_spec 40 (Entry.trustScore e)); [lia|].
    split.
    + unfold approved. intros Hin. apply filter_In in Hin.
      destruct Hin as [_ Hin]. rewrite Hst in Hin. discriminate Hin.
    + unfold queue. cbn [String.eqb Ascii.eqb Bool.eqb]. apply filter_In.
      split; [left; reflexivity|]. rewrite Hst. reflexivity.
  - intros Hge. unfold homeRows, approved. cbn [filter].
    replace (status_is (Entry.status e) flagged) with false; [reflexivity|].
    rewrite Hst. destruct (70 <=? _); [reflexivity|].
    destruct (Z.leb_spec 40 (Entry.trustScore e)); [reflexivity|lia].
  - intros [Hge Hlt].
    destruct (Z.leb_spec 70 (Entry.trustScore e)); [lia|].
    destruct (Z.leb_spec 40 (Entry.trustScore e)); [|lia].
    split.
    + unfold queue. cbn [String.eqb Ascii.eqb Bool.eqb]. apply filter_In.
      split; [left; reflexivity|]. rewrite Hst. reflexivity.
    + unfold isFlaggable. rewrite Hst. reflexivity.
  - intros Hge.
    destruct (Z.leb_spec 70 (Entry.trustScore e)); [|lia].
    split; [unfold isFlaggable; rewrite Hst; reflexivity|].
    intros filter_ Hq. apply queue_In in Hq. destruct Hq as [_ Hq].
    rewrite Hst, Hfc in Hq.
    destruct Hq as [Hq|[Hq|[_ Hq]]]; first [discriminate Hq | lia].
Qed.

Lemma where_a_submission_appears_witness :
  exists w' e a c,
    handleSubmit sampleEnv duplicateForm initialWorld = (w', Submitted e a c) /\
    In e (queue "needs_review" (salaries w')) /\
    hd_error (homeRows (salaries w')) = Some e.
Proof.
  destruct (handleSubmit sampleEnv duplicateForm initialWorld) as [w' o] eqn:E.
  destruct o as [| |e a c]; try (vm_compute in E; discriminate E).
  assert (Hts : 40 <= Entry.trustScore e < 70).
  { vm_compute in E. injection E as _ <- _ _. vm_compute. split; [discriminate|reflexivity]. }
  exists w', e, a, c. split; [reflexivity|].
  pose proof (where_a_submission_appears _ _ _ _ _ _ _ E) as (_ & Hh & Hq & _).
  split; [exact (proj1 (Hq Hts))|exact (Hh (proj1 Hts))].
Defined.

(* ------------------------------------------------------------------ *)
(** ** The salary explorer *)
(* ------------------------------------------------------------------ *)

Section SortWith.
Variable cmp : Entry.t -> Entry.t -> Z.

Lemma insertWith_perm x l : Permutation (insertWith cmp x l) (x :: l).
Proof.
  induction l as [|y l IH]; [reflexivity|].
  cbn [insertWith]. destruct (0 <? cmp x y); [|reflexivity].
  rewrite IH. apply perm_swap.
Qed.

Lemma sortWith_perm l : Permutation (sortWith cmp l) l.
Proof.
  induction l as [|x l IH]; [reflexivity|].
  cbn [sortWith]. rewrite insertWith_perm, IH. reflexivity.
Qed.

Hypothesis cmp_total : forall a b, 0 < cmp a b -> cmp b a <= 0.
Hypothesis cmp_trans :
  forall a b c, cmp a b <= 0 -> cmp b c <= 0 -> cmp a c <= 0.

Lemma insertWith_sorted x l :
  StronglySorted (fun a b => cmp a b <= 0) l ->
  StronglySorted (fun a b => cmp a b <= 0) (insertWith cmp x l).
Proof.
  induction l as [|y l IH]; intros Hs.
  - cbn. constructor; constructor.
  - cbn [insertWith]. apply StronglySorted_inv in Hs. destruct Hs as [Hs Hy].
    destruct (Z.ltb_spec 0 (cmp x y)) as [Hlt|Hle].
    + constructor; [apply IH, Hs|].
      rewrite Forall_forall in *. intros z Hz.
      apply (Permutation_in _ (insertWith_perm x l)) in Hz.
      destruct Hz as [<-|Hz]; [apply cmp_total, Hlt|apply Hy, Hz].
    + constructor; [constructor; assumption|].
      constructor; [exact Hle|].
      rewrite Forall_forall in *. intros z Hz.
      apply cmp_trans with y; [exact Hle|apply Hy, Hz].
Qed.

Lemma sortWith_sorted l :
  StronglySorted (fun a b => cmp a b <= 0) (sortWith cmp l).
Proof.
  induction l as [|x l IH]; [constructor|].
  cbn [sortWith]. apply insertWith_sorted, IH.
Qed.
End SortWith.

Lemma StronglySorted_impl {A : Type} (R1 R2 : A -> A -> Prop) l :
  (forall a b, R1 a b -> R2 a b) -> StronglySorted R1 l -> StronglySorted R2 l.
Proof.
  intros HR. induction 1 as [|x l Hs IH Hx]; constructor; [exact IH|].
  rewrite Forall_forall in *. intros y Hy. apply HR, Hx, Hy.
Qed.

Lemma sortWith_unordered cmp l :
  (forall a b, cmp a b = 0) -> sortWith cmp l = l.
Proof.
  intros H0. induction l as [|x l IH]; [reflexivity|].
  cbn [sortWith]. rewrite IH. destruct l as [|y l]; [reflexivity|].
  cbn [insertWith]. rewrite H0. reflexivity.
Qed.

(** The copy sorted for the median is the list sorted with the
    comparator of ["lowest"]. *)
Lemma sortBySalary_sortWith l :
  sortBySalary l = sortWith (exploreCmp "lowest") l.
Proof.
  induction l as [|x l IH]; [reflexivity|].
  cbn [sortBySalary sortWith]. rewrite IH.
  generalize (sortWith (exploreCmp "lowest") l). intros r.
  induction r as [|y r IHr]; [reflexivity|].
  cbn [insertBySalary insertWith]. unfold exploreCmp at 1.
  cbn [String.eqb Ascii.eqb Bool.eqb].
  replace (0 <? Entry.salary x - Entry.salary y)
    with (Entry.salary y <? Entry.salary x)
    by (destruct (Z.ltb_spec (Entry.salary y) (Entry.salary x)), (Z.ltb_spec 0 (Entry.salary x - Entry.salary y)); try reflexivity; lia).
  rewrite IHr. reflexivity.
Qed.

Lemma sortWith_lowest l : ascending (sortWith (exploreCmp "lowest") l).
Proof.
  unfold ascending.
  apply StronglySorted_impl
    with (R1 := fun a b => exploreCmp "lowest" a b <= 0).
  - unfold exploreCmp. cbn [String.eqb Ascii.eqb Bool.eqb]. intros; lia.
  - apply sortWith_sorted; unfold exploreCmp;
      cbn [String.eqb Ascii.eqb Bool.eqb]; intros; lia.
Qed.

Lemma sortWith_highest l : descending (sortWith (exploreCmp "highest") l).
Proof.
  unfold descending.
  apply StronglySorted_impl
    with (R1 := fun a b => exploreCmp "highest" a b <= 0).
  - unfold exploreCmp. cbn [String.eqb Ascii.eqb Bool.eqb]. intros; lia.
  - apply sortWith_sorted; unfold exploreCmp;
      cbn [String.eqb Ascii.eqb Bool.eqb]; intros; lia.
Qed.

Lemma sortBySalary_perm l : Permutation (sortBySalary l) l.
Proof. rewrite sortBySalary_sortWith. apply sortWith_perm. Qed.

Lemma sortBySalary_ascending l : ascending (sortBySalary l).
Proof. rewrite sortBySalary_sortWith. apply sortWith_lowest. Qed.

(** X23.  The rows of the explorer are the entries of the corpus that
    are not flagged and pass the three filters, each as often as the
    corpus has it; by rising salary under ["lowest"], by falling salary
    under ["highest"], and in the order of the corpus under any other
    value of the selector. *)
Theorem explorer_rows st l :
  let rows := filtered st l in
  (forall s, In s rows <->
             In s l /\ Entry.status s <> Some flagged /\ matchesExplore st s = true) /\
  Permutation rows (filter (matchesExplore st) (approved l)) /\
  (Explore.sort st = "lowest" -> ascending rows) /\
  (Explore.sort st = "highest" -> descending rows) /\
  (Explore.sort st <> "highest" -> Explore.sort st <> "lowest" ->
   rows = filter (matchesExplore st) (approved l)).
Proof.
  cbv zeta. unfold filtered.
  set (kept := filter (matchesExplore st) (approved l)).
  pose proof (sortWith_perm (exploreCmp (Explore.sort st)) kept) as Hp.
  split; [|split; [exact Hp|split; [|split]]].
  - intros s. split.
    + intros Hin. apply (Permutation_in _ Hp) in Hin.
      unfold kept, approved in Hin. rewrite !filter_In in Hin.
      destruct Hin as [[Hin Hst] Hm]. repeat split; try assumption.
      intros Hf. rewrite Hf in Hst. discriminate Hst.
    + intros (Hin & Hst & Hm). apply (Permutation_in _ (Permutation_sym Hp)).
      unfold kept, approved. rewrite !filter_In. repeat split; try assumption.
      destruct (status_is (Entry.status s) flagged) eqn:E; [|reflexivity].
      apply status_is_true in E. contradiction.
  - intros ->. apply sortWith_lowest.
  - intros ->. apply sortWith_highest.
  - intros Hh Hl. apply sortWith_unordered. intros a b. unfold exploreCmp.
    destruct (String.eqb_spec (Explore.sort st) "highest"); [contradiction|].
    destruct (String.eqb_spec (Explore.sort st) "lowest"); [contradiction|].
    reflexivity.
Qed.

Lemma explorer_rows_witness :
  ascending (filtered (Explore.mk "engineer" "Technology" "All" "lowest")
                      INITIAL_SALARIES) /\
  List.length (filtered (Explore.mk "engineer" "Technology" "All" "lowest")
                        INITIAL_SALARIES) <> 0%nat.
Proof.
  split.
  - exact (proj1 (proj2 (proj2 (explorer_rows
             (Explore.mk "engineer" "Technology" "All" "lowest")
             INITIAL_SALARIES))) eq_refl).
  - vm_compute. discriminate.
Defined.

(** Two lists of numbers in rising order with the same members are the
    same list. *)
Lemma sorted_perm_unique (l1 l2 : list Z) :
  StronglySorted Z.le l1 -> StronglySorted Z.le l2 ->
  Permutation l1 l2 -> l1 = l2.
Proof.
  revert l2. induction l1 as [|x l1 IH]; intros l2 H1 H2 Hp.
  - apply Permutation_nil in Hp. symmetry. exact Hp.
  - destruct l2 as [|y l2].
    { apply Permutation_sym, Permutation_nil in Hp. discriminate Hp. }
    apply StronglySorted_inv in H1. destruct H1 as [H1 Hx].
    apply StronglySorted_inv in H2. destruct H2 as [H2 Hy].
    rewrite Forall_forall in Hx, Hy.
    assert (x = y).
    { assert (Hxy : x <= y).
      { assert (In y (x :: l1))
          by (apply (Permutation_in _ (Permutation_sym Hp)); left; reflexivity).
        destruct H as [->|H]; [lia|apply Hx, H]. }
      assert (Hyx : y <= x).
      { assert (In x (y :: l2))
          by (apply (Permutation_in _ Hp); left; reflexivity).
        destruct H as [->|H]; [lia|apply Hy, H]. }
      lia. }
    subst y. f_equal. apply IH; try assumption.
    apply Permutation_cons_inv with x. exact Hp.
Qed.

Lemma ascending_map l :
  ascending l -> StronglySorted Z.le (map Entry.salary l).
Proof.
  unfold ascending. induction 1 as [|x l Hs IH Hx]; cbn [map]; constructor.
  - exact IH.
  - rewrite Forall_forall in *. intros v Hv. apply in_map_iff in Hv.
    destruct Hv as (s & <- & Hs'). apply Hx, Hs'.
Qed.

Lemma sortBySalary_salaries l1 l2 :
  Permutation l1 l2 ->
  map Entry.salary (sortBySalary l1) = map Entry.salary (sortBySalary l2).
Proof.
  intros Hp. apply sorted_perm_unique.
  - apply ascending_map, sortBySalary_ascending.
  - apply ascending_map, sortBySalary_ascending.
  - apply Permutation_map. rewrite !sortBySalary_perm. exact Hp.
Qed.

Lemma exploreMedian_middle st l :
  exploreMedian st l
  = middle (map Entry.salary (sortBySalary (filtered st l))).
Proof.
  unfold exploreMedian, middle. rewrite length_map, nth_error_map.
  destruct (nth_error _ _); reflexivity.
Qed.

Lemma filtered_sort st sort' l :
  Permutation (filtered (withSort sort' st) l) (filtered st l).
Proof.
  unfold filtered. rewrite !sortWith_perm. reflexivity.
Qed.

Lemma filter_all {A : Type} (p : A -> bool) (l : list A) :
  Forall (fun x => p x = true) l -> filter p l = l.
Proof.
  induction 1 as [|x l Hx _ IH]; [reflexivity|].
  cbn [filter]. rewrite Hx, IH. reflexivity.
Qed.

(** In a list in rising order the element at position [k] has [k + 1]
    elements at most as large, and all those from [k] on at least as
    large. *)
Lemma ascending_nth l k x :
  ascending l -> nth_error l k = Some x ->
  (k + 1 <= atMost (Entry.salary x) l)%nat /\
  (List.length l - k <= atLeast (Entry.salary x) l)%nat.
Proof.
  intros Hs Hn. destruct (nth_error_split _ _ Hn) as (l1 & l2 & -> & Hk).
  unfold ascending in Hs.
  assert (H1 : Forall (fun s => (Entry.salary s <=? Entry.salary x) = true) l1).
  { clear Hn Hk. induction l1 as [|y l1 IH]; [constructor|].
    cbn [app] in Hs. apply StronglySorted_inv in Hs. destruct Hs as [Hs Hy].
    constructor; [|apply IH, Hs].
    rewrite Forall_forall in Hy. apply Z.leb_le, Hy, in_or_app.
    right. left. reflexivity. }
  assert (H2 : Forall (fun s => (Entry.salary x <=? Entry.salary s) = true) l2).
  { clear Hn Hk H1. induction l1 as [|y l1 IH].
    - cbn [app] in Hs. apply StronglySorted_inv in Hs. destruct Hs as [_ Hx].
      rewrite Forall_forall in *. intros s Hin. apply Z.leb_le, Hx, Hin.
    - cbn [app] in Hs. apply StronglySorted_inv in Hs. apply IH, Hs. }
  unfold atMost, atLeast. rewrite !filter_app. cbn [filter].
  rewrite Z.leb_refl. rewrite (filter_all _ l1 H1), (filter_all _ l2 H2).
  rewrite !length_app. cbn [List.length]. lia.
Qed.

(** X24.  The two figures over the rows of the explorer.  Both are 0
    when no row is listed.  Otherwise the average is the rounded
    quotient, in double precision, of the sum of the listed salaries,
    added in the order of the rows, by their number; and the median is
    the salary of a listed row with more than half of the rows at most
    as high and at least half of them at least as high: of an even
    number of rows it is the upper of the two in the middle.  The
    median does not depend on the sort selector. *)
Theorem explorer_figures st l :
  let rows := filtered st l in
  let n := List.length rows in
  (rows = [] -> exploreAvg st l = 0%float /\ exploreMedian st l = 0) /\
  (rows <> [] ->
   exploreAvg st l
   = Math_round
       (fold_left (fun a s => a + Z2F (Entry.salary s)) rows 0
        / Z2F (Z.of_nat n))%float /\
   (exists s, In s rows /\ exploreMedian st l = Entry.salary s) /\
   (n / 2 + 1 <= atMost (exploreMedian st l) rows)%nat /\
   (n - n / 2 <= atLeast (exploreMedian st l) rows)%nat) /\
  (forall sort', exploreMedian (withSort sort' st) l = exploreMedian st l).
Proof.
  cbv zeta. split; [|split].
  - intros Hnil. unfold exploreAvg, exploreMedian. rewrite Hnil. split; reflexivity.
  - intros Hne.
    pose proof (sortBySalary_perm (filtered st l)) as Hp.
    assert (Hlen : List.length (sortBySalary (filtered st l))
                   = List.length (filtered st l))
      by (apply Permutation_length, Hp).
    assert (Hpos : (0 < List.length (filtered st l))%nat).
    { destruct (filtered st l); [contradiction|cbn; lia]. }
    destruct (nth_error (sortBySalary (filtered st l))
                (List.length (sortBySalary (filtered st l)) / 2)) as [m|] eqn:Hn.
    2:{ apply nth_error_None in Hn. rewrite Hlen in Hn.
        pose proof (Nat.div_lt (List.length (filtered st l)) 2 Hpos). lia. }
    assert (Hmed : exploreMedian st l = Entry.salary m).
    { unfold exploreMedian. rewrite Hn. reflexivity. }
    destruct (ascending_nth _ _ _ (sortBySalary_ascending _) Hn) as [Hlo Hhi].
    unfold atMost, atLeast in *. rewrite sortBySalary_count in Hlo, Hhi.
    rewrite Hlen in Hlo, Hhi. rewrite Hmed.
    split; [|split; [|split; [exact Hlo|exact Hhi]]].
    + unfold exploreAvg.
      replace (List.length (filtered st l) =? 0)%nat with false
        by (symmetry; apply Nat.eqb_neq; lia).
      reflexivity.
    + exists m. split; [|reflexivity].
      apply (Permutation_in _ Hp). apply nth_error_In with (1 := Hn).
  - intros sort'. pose proof (filtered_sort st sort' l) as Hp.
    rewrite !exploreMedian_middle.
    rewrite (sortBySalary_salaries _ _ Hp). reflexivity.
Qed.

Lemma explorer_figures_witness :
  let st := Explore.mk absent "Technology" "All" "recent" in
  filtered st INITIAL_SALARIES <> [] /\
  exploreAvg st INITIAL_SALARIES = 41600%float /\
  exploreMedian st INITIAL_SALARIES = 40000.
Proof.
  cbv zeta.
  assert (Hne : filtered (Explore.mk absent "Technology" "All" "recent")
                         INITIAL_SALARIES <> []).
  { vm_compute. discriminate. }
  split; [exact Hne|].
  destruct (proj1 (proj2 (explorer_figures _ INITIAL_SALARIES)) Hne)
    as (Havg & _).
  split; [rewrite Havg; vm_compute; reflexivity|vm_compute; reflexivity].
Defined.

(* ------------------------------------------------------------------ *)
(** ** The comparison page *)
(* ------------------------------------------------------------------ *)

Lemma similarTo_approved industry l :
  similarTo industry l
  = filter (fun s => (Entry.industry s =? industry)%string) (approved l).
Proof.
  unfold similarTo, approved. induction l as [|x l IH]; [reflexivity|].
  cbn [filter].
  destruct (Entry.industry x =? industry)%string eqn:Ei,
           (status_is (Entry.status x) flagged) eqn:Es;
    cbn [andb negb filter]; rewrite ?Ei, IH; reflexivity.
Qed.

Lemma parseInt_truthy s v : parseInt s = Some v -> truthy s = true.
Proof. destruct s; [discriminate|reflexivity]. Qed.

(** X25.  The comparison page.  Nothing is computed for an empty salary
    field.  For a salary that [parseInt] reads, the average, the
    percentage against it, the percentile and the count are those the
    submission page shows for the same salary and industry over the same
    corpus.  For a non-empty field that [parseInt] does not read, a
    result is shown all the same: both percentages are not numbers, and
    the percentile is 0 when an entry is comparable and 50 when none is. *)
Theorem compare_page form l :
  (handleCompare form l = None <-> CompareForm.salary form = absent) /\
  (forall sal sform,
     parseInt (CompareForm.salary form) = Some sal ->
     Form.industry sform = CompareForm.industry form ->
     exists r,
       handleCompare form l = Some r /\
       CompareResult.avg r = Comparison.avg (computeComparison sform sal l) /\
       CompareResult.diff r = Comparison.diff (computeComparison sform sal l) /\
       CompareResult.percentile r
       = Comparison.percentile (computeComparison sform sal l) /\
       CompareResult.count r = Comparison.count (computeComparison sform sal l)) /\
  (CompareForm.salary form <> absent ->
   parseInt (CompareForm.salary form) = None ->
   exists r,
     handleCompare form l = Some r /\
     CompareResult.diff r = nan /\ CompareResult.expDiff r = nan /\
     CompareResult.percentile r
     = (if (CompareResult.count r =? 0)%nat then 50%float else 0%float)).
Proof.
  split; [|split].
  - unfold handleCompare, truthy, absent.
    destruct (String.eqb_spec (CompareForm.salary form) EmptyString) as [E|E];
      cbn [negb]; split; intros H; try assumption; try reflexivity;
      try discriminate H; contradiction.
  - intros sal sform Hp Hi. unfold handleCompare.
    rewrite (parseInt_truthy _ _ Hp), Hp. cbn [negb].
    eexists. split; [reflexivity|]. cbn [CompareResult.avg CompareResult.diff
      CompareResult.percentile CompareResult.count].
    unfold computeComparison. rewrite Hi, similarTo_approved.
    cbn [Comparison.avg Comparison.diff Comparison.percentile Comparison.count
         numberOf].
    repeat split; reflexivity.
  - intros Hne Hp. unfold handleCompare.
    replace (truthy (CompareForm.salary form)) with true.
    2:{ symmetry. unfold truthy. apply negb_true_iff.
        apply String.eqb_neq. exact Hne. }
    rewrite Hp. cbn [negb]. eexists. split; [reflexivity|].
    cbn [CompareResult.diff CompareResult.expDiff CompareResult.percentile
         CompareResult.count numberOf].
    set (similar := filter _ (approved l)).
    assert (Hnan : forall avg, percentDiff nan avg = nan).
    { intros avg. unfold percentDiff. rewrite sub_nan_l, div_nan_l.
      vm_compute. reflexivity. }
    split; [apply Hnan|]. split; [apply Hnan|].
    unfold percentileOf.
    destruct (List.length similar =? 0)%nat eqn:En; [reflexivity|].
    change (Z2F (Z.of_nat 0)) with 0%float.
    rewrite zero_div_length; [vm_compute; reflexivity|].
    intros Hnil. rewrite Hnil in En. discriminate En.
Qed.

Lemma compare_page_witness :
  exists r,
    handleCompare (compareTech "33000") INITIAL_SALARIES = Some r /\
    CompareResult.avg r
    = Comparison.avg (computeComparison techForm 33000 INITIAL_SALARIES) /\
    exists r',
      handleCompare (compareTech "abc") INITIAL_SALARIES = Some r' /\
      CompareResult.diff r' = nan /\ CompareResult.percentile r' = 0%float.
Proof.
  destruct (compare_page (compareTech "33000") INITIAL_SALARIES)
    as (_ & H & _).
  destruct (H 33000 techForm eq_refl eq_refl) as (r & Hr & Ha & _).
  exists r. split; [exact Hr|]. split; [exact Ha|].
  destruct (compare_page (compareTech "abc") INITIAL_SALARIES)
    as (_ & _ & H').
  destruct (H' ltac:(discriminate) eq_refl) as (r' & Hr' & Hd & _ & Hp).
  exists r'. split; [exact Hr'|]. split; [exact Hd|].
  rewrite Hp. injection Hr' as <-. vm_compute. reflexivity.
Defined.
